(** * Job-board scrapers: a shallow embedding and its checked properties

    The development follows the three scrapers of the repository:
    - [Enhanced]  : enhanced_pulte_scraper.py  (endpoint probing, paging,
                    normalizer, browser records, orchestrator, CSV cleaning),
    - [Workday]   : workday_simple_api.py      (base URL, known-payload paging,
                    normalizer),
    - [Simple]    : simple_pulte_scraper.py    (markup extraction, dedup,
                    pagination links, crawl).

    Python values are modelled by [json]; a Python [str] is a [string] whose
    characters are code points below 256.  A function whose body sits in a
    [try ... except Exception: return None] returns [option], [None] standing
    both for the caught exception and for the explicit [return None]. *)

From Stdlib Require Import ZArith QArith.QArith_base Strings.Ascii Strings.String
  Numbers.DecimalString Numbers.DecimalZ Numbers.DecimalPos.
From stdpp Require Import base option list gmap strings.

Open Scope string_scope.
Open Scope Z_scope.
Open Scope list_scope.

(** ** Python strings *)

Module PyStr.

Definition chars (s : string) : list ascii := list_ascii_of_string s.
Definition of_chars (l : list ascii) : string := string_of_list_ascii l.

Definition code (c : ascii) : N := N_of_ascii c.

(** [str.isspace] on code points below 256. *)
Definition isspace (c : ascii) : bool :=
  let n := code c in
  ((9 <=? n) && (n <=? 13) || (28 <=? n) && (n <=? 32)
   || (n =? 133) || (n =? 160))%N.

Definition LF : ascii := ascii_of_N 10.
Definition CR : ascii := ascii_of_N 13.
Definition SP : ascii := ascii_of_N 32.

Fixpoint lstrip_by (p : ascii -> bool) (l : list ascii) : list ascii :=
  match l with
  | [] => []
  | c :: l' => if p c then lstrip_by p l' else l
  end.

Definition strip_by (p : ascii -> bool) (l : list ascii) : list ascii :=
  reverse (lstrip_by p (reverse (lstrip_by p l))).

(** Neither end of [l] satisfies [p]. *)
Definition clean_ends (p : ascii -> bool) (l : list ascii) : Prop :=
  (forall c, head l = Some c -> p c = false) /\
  (forall c, last l = Some c -> p c = false).

(** [s.strip()] *)
Definition strip (s : string) : string := of_chars (strip_by isspace (chars s)).

(** [s.strip(c)] for a one-character argument. *)
Definition strip_char (c : ascii) (s : string) : string :=
  of_chars (strip_by (Ascii.eqb c) (chars s)).

(** [s.replace(c, r)] for a one-character [c]. *)
Fixpoint replace_l (c : ascii) (r : list ascii) (l : list ascii) : list ascii :=
  match l with
  | [] => []
  | x :: l' => (if Ascii.eqb x c then r else [x]) ++ replace_l c r l'
  end.

Definition replace (c : ascii) (r : string) (s : string) : string :=
  of_chars (replace_l c (chars r) (chars s)).

(** [s.split(c)] for a one-character separator: never the empty list. *)
Fixpoint split_l (c : ascii) (l : list ascii) : list (list ascii) :=
  match l with
  | [] => [[]]
  | x :: l' =>
      if Ascii.eqb x c then [] :: split_l c l'
      else match split_l c l' with
           | [] => [[x]]
           | w :: ws => (x :: w) :: ws
           end
  end.

Definition split (c : ascii) (s : string) : list string :=
  of_chars <$> split_l c (chars s).

(** [c in s] for a one-character [c]. *)
Definition has_char (c : ascii) (s : string) : bool :=
  existsb (Ascii.eqb c) (chars s).

Fixpoint prefix_l (p l : list ascii) : bool :=
  match p, l with
  | [], _ => true
  | _ :: _, [] => false
  | a :: p', b :: l' => Ascii.eqb a b && prefix_l p' l'
  end.

(** [s.startswith(p)] *)
Definition startswith (p s : string) : bool := prefix_l (chars p) (chars s).

Fixpoint infix_l (p l : list ascii) : bool :=
  prefix_l p l || match l with [] => false | _ :: l' => infix_l p l' end.

(** [p in s] *)
Definition contains (p s : string) : bool := infix_l (chars p) (chars s).

(** [str.lower] on code points below 256. *)
Definition lower_char (c : ascii) : ascii :=
  let n := code c in
  if ((65 <=? n) && (n <=? 90)
      || (192 <=? n) && (n <=? 222) && negb (n =? 215))%N
  then ascii_of_N (n + 32) else c.

Definition lower (s : string) : string := of_chars (lower_char <$> chars s).

(** [len(s)] and [s[:n]] *)
Definition len (s : string) : nat := length (chars s).
Definition slice_to (n : nat) (s : string) : string := of_chars (take n (chars s)).

(** [not s] is [nonempty s = false]. *)
Definition nonempty (s : string) : bool :=
  match s with EmptyString => false | String _ _ => true end.

(** [str(n)] for an [int]. *)
Definition of_int (z : Z) : string := NilEmpty.string_of_int (Z.to_int z).

(** The longest prefix of [l] whose characters satisfy [p], and the rest:
    what a greedy [[...]+] or [\d+] of a regular expression takes. *)
Fixpoint span (p : ascii -> bool) (l : list ascii) : list ascii * list ascii :=
  match l with
  | [] => ([], [])
  | c :: l' =>
      if p c then let '(taken, rest) := span p l' in (c :: taken, rest)
      else ([], l)
  end.

(** [l] without the literal [lit] it starts with, if it does. *)
Fixpoint after_literal (lit l : list ascii) : option (list ascii) :=
  match lit, l with
  | [], _ => Some l
  | _ :: _, [] => None
  | a :: lit', b :: l' => if Ascii.eqb a b then after_literal lit' l' else None
  end.

(** [\d] on code points below 256. *)
Definition isdigit (c : ascii) : bool :=
  let n := code c in ((48 <=? n) && (n <=? 57))%N.

(** [s.replace(old, new)] for a non-empty [old]: the occurrences of [old]
    from left to right, not overlapping; [fuel] is the length of [l]. *)
Fixpoint replace_sub_l (old new : list ascii) (fuel : nat) (l : list ascii)
    : list ascii :=
  match fuel with
  | O => l
  | S fuel' =>
      match l with
      | [] => []
      | c :: l' =>
          match after_literal old l with
          | Some rest => new ++ replace_sub_l old new (fuel' - (length old - 1)) rest
          | None => c :: replace_sub_l old new fuel' l'
          end
      end
  end.

Definition replace_sub (old new s : string) : string :=
  of_chars (replace_sub_l (chars old) (chars new) (length (chars s)) (chars s)).

End PyStr.

(** ** Python values as the scrapers meet them

    What [json.loads] yields: [None], booleans, ints, finite floats (held
    as the rational they denote), strings, lists, and dicts with string
    keys, a dict as the list of its items in order (a key is looked up at
    its first item). *)

Local Unset Elimination Schemes.
Inductive json : Type :=
  | JNull
  | JBool (b : bool)
  | JNum (z : Z)
  | JFloat (q : Q)
  | JStr (s : string)
  | JList (l : list json)
  | JDict (d : list (string * json)).
Local Set Elimination Schemes.

Module Py.

(** Truth value of a Python object ([if v:]). *)
Definition truthy (v : json) : bool :=
  match v with
  | JNull => false
  | JBool b => b
  | JNum z => negb (z =? 0)
  | JFloat q => negb (Qnum q =? 0)
  | JStr s => PyStr.nonempty s
  | JList l => match l with [] => false | _ => true end
  | JDict d => match d with [] => false | _ => true end
  end.

Fixpoint assoc (k : string) (d : list (string * json)) : option json :=
  match d with
  | [] => None
  | (k', v) :: d' => if String.eqb k k' then Some v else assoc k d'
  end.

(** [k in d], [d.get(k)] and [d.get(k, dflt)] *)
Definition has_key (k : string) (d : list (string * json)) : bool :=
  match assoc k d with Some _ => true | None => false end.
Definition get (d : list (string * json)) (k : string) : json :=
  default JNull (assoc k d).
Definition get_or (d : list (string * json)) (k : string) (dflt : json) : json :=
  default dflt (assoc k d).

Definition is_list (v : json) : bool := match v with JList _ => true | _ => false end.
Definition is_dict (v : json) : bool := match v with JDict _ => true | _ => false end.
Definition is_str (v : json) : bool := match v with JStr _ => true | _ => false end.

(** [for x in v]: the items visited, [None] when [v] is not iterable. *)
Definition iter (v : json) : option (list json) :=
  match v with
  | JList l => Some l
  | JStr s => Some ((fun c => JStr (String c EmptyString)) <$> PyStr.chars s)
  | JDict d => Some ((fun kv => JStr kv.1) <$> d)
  | JNull | JBool _ | JNum _ | JFloat _ => None
  end.

(** The first field of [fields] whose value in [d] is truthy, with that
    value: the loop [for field in fields: if job.get(field): ...; break]. *)
Fixpoint first_truthy (d : list (string * json)) (fields : list string) : option json :=
  match fields with
  | [] => None
  | f :: fs => if truthy (get d f) then Some (get d f) else first_truthy d fs
  end.

End Py.

(** The seven-column record every strategy produces; [V] is the type of the
    values held ([json] for the API normalizers, [string] for the markup one). *)
Record JobRecord (V : Type) : Type := mkJob {
  job_id : V;
  title : V;
  location : V;
  posting_date : V;
  url : V;
  company : V;
  scraped_at : V
}.
Arguments mkJob {V}.
Arguments job_id {V}.
Arguments title {V}.
Arguments location {V}.
Arguments posting_date {V}.
Arguments url {V}.
Arguments company {V}.
Arguments scraped_at {V}.

(** One turn of a [while True] loop. *)
Inductive turn (S A : Type) : Type :=
  | Continue (s : S)
  | Return (a : A).
Arguments Continue {S A}.
Arguments Return {S A}.

(** The values of a record in column order. *)
Definition fields {V : Type} (r : JobRecord V) : list V :=
  [job_id r; title r; location r; posting_date r; url r; company r; scraped_at r].

(** The records an upstream that holds [records] has from [offset] on. *)
Definition remaining (records : list json) (offset : Z) : nat :=
  length (drop (Z.to_nat offset) records).

(** What the library calls of the scrapers compute, taken as given:
    [urljoin] of urllib on two strings ([None] when it raises, as it does
    with [ValueError] on a reference it cannot parse), [str] of a float,
    list or dict, and the clock. *)
Class Runtime : Type := {
  urljoin : string -> string -> option string;
  repr : json -> string;
  repr_nonempty : forall v, repr v <> "";
  now_isoformat : string
}.

Module PyRt.
Section WithRuntime.
Context {rt : Runtime}.

(** [str(v)] *)
Definition str (v : json) : string :=
  match v with
  | JNull => "None"
  | JBool true => "True"
  | JBool false => "False"
  | JNum z => PyStr.of_int z
  | JStr s => s
  | JFloat _ | JList _ | JDict _ => repr v
  end.

End WithRuntime.
End PyRt.

(** ** Transport: one request with retries

    An attempt either raises a [requests.exceptions.RequestException]
    (time-out, connection reset, ...) or is answered.  Of an answer the
    scrapers read the status code and the decoded body, [None] when
    [response.json()] raises [json.JSONDecodeError]. *)

Module Transport.

Record response : Type := mkResponse {
  status_code : Z;
  json_body : option json
}.

Inductive attempt : Type :=
  | Failed
  | Answered (r : response).

(** [Slept k] is [time.sleep(self.delay * k)]; [GaveUp] is the line logged
    once every attempt has failed. *)
Inductive event : Type :=
  | Slept (k : Z)
  | GaveUp.

(** [response.raise_for_status()] raises [HTTPError], a [RequestException],
    on a 4xx or 5xx status and on nothing else. *)
Definition raises_for_status (r : response) : bool :=
  (400 <=? status_code r) && (status_code r <? 600).

(** What a call yields: a value, or an exception that leaves the function. *)
Inductive outcome (A : Type) : Type :=
  | Returned (a : A)
  | Raised.
Arguments Returned {A}.
Arguments Raised {A}.

(** The sleeps of a trace, in order. *)
Definition sleeps (tr : list event) : list Z :=
  omap (fun e => match e with Slept k => Some k | GaveUp => None end) tr.

(** The multipliers [1, 2, ..., n]. *)
Definition backoff (n : nat) : list Z := Z.of_nat <$> seq 1 n.

(** An attempt [make_request] counts as failed: a request exception, or a
    status [raise_for_status] raises on. *)
Definition http_error (a : attempt) : Prop :=
  match a with
  | Failed => True
  | Answered r => raises_for_status r = true
  end.

(** An attempt [make_api_request] gets no data from: a request exception, a
    status other than 200, or a body that does not decode. *)
Definition no_data (a : attempt) : Prop :=
  match a with
  | Failed => True
  | Answered r => status_code r <> 200 \/ json_body r = None
  end.

(** The attempts left are the last [todo] of the [max_retries] allowed. *)
Definition in_step (max_retries : Z) (todo attempt : nat) : Prop :=
  (todo + attempt = Z.to_nat max_retries)%nat.


End Transport.

(** ** enhanced_pulte_scraper.py *)

Module Enhanced.
Import Transport.

(** [method.upper()] is ['GET'], ['POST'] or something else. *)
Inductive http_method : Type := GET | POST | Unsupported.

(** The query parameters a request carries. *)
Inductive params : Type :=
  | OffsetLimit (offset limit : Z)
  | FromSize (from size : Z)
  | PagePageSize (page pageSize : Z)
  | StartCount (start count : Z)
  | NoParams.

(** What [scrape_jobs] logs and calls, in order; a message is kept up to
    its first interpolated value. *)
Inductive step_event : Type :=
  | LogInfo (msg : string)
  | LogError (msg : string)
  | CalledApi
  | CalledSelenium.

Section Scraper.
Context {rt : Runtime}.
Variable base_url : string.
Variable max_retries : Z.
(** The network: the outcome of the [i]-th attempt of a request. *)
Variable wire : string -> params -> nat -> attempt.

(** [make_request]: the attempts [attempt, attempt + 1, ...], [todo] of them. *)
Fixpoint make_request_from (method : http_method) (tries : nat -> Transport.attempt)
    (todo attempt : nat) : outcome (option response) * list event :=
  match todo with
  | O => (Returned None, [])
  | S todo' =>
      let retry :=
        let '(res, tr) := make_request_from method tries todo' (S attempt) in
        (res, (if Z.of_nat attempt <? max_retries - 1
               then Slept (Z.of_nat attempt + 1) else GaveUp) :: tr) in
      match method with
      | Unsupported => (Raised, [])
      | GET | POST =>
          match tries attempt with
          | Answered r =>
              if raises_for_status r then retry else (Returned (Some r), [])
          | Failed => retry
          end
      end
  end.

Definition make_request (method : http_method) (tries : nat -> Transport.attempt)
    : outcome (option response) * list event :=
  make_request_from method tries (Z.to_nat max_retries) 0.

(** [self.make_request(endpoint, params=params)] followed by
    [if response and response.status_code == 200: data = response.json()]:
    the decoded body, when there is one. *)
Definition fetch_json (endpoint : string) (p : params) : option json :=
  match (make_request GET (wire endpoint p)).1 with
  | Returned (Some r) =>
      if status_code r =? 200 then json_body r else None
  | _ => None
  end.

Definition job_fields : list string := ["title"; "location"; "id"; "jobTitle"; "position"].
Definition job_containers : list string := ["jobPostings"; "jobs"; "data"; "results"; "items"].

(** [any(field in d for field in job_fields)] *)
Definition has_job_field (d : list (string * json)) : bool :=
  existsb (fun field => Py.has_key field d) job_fields.

(** [container in data and isinstance(data[container], list)] *)
Definition holds_list (d : list (string * json)) (container : string) : bool :=
  Py.has_key container d && Py.is_list (Py.get d container).

Definition is_job_data (data : json) : bool :=
  match data with
  | JList (first_item :: _) =>
      match first_item with
      | JDict d => has_job_field d
      | _ => false
      end
  | JDict d =>
      if existsb (holds_list d) job_containers then true
      else has_job_field d
  | _ => false
  end.

(** The loop over [param_sets] of [test_api_endpoint]. *)
Fixpoint test_param_sets (endpoint : string) (param_sets : list params)
    : bool * option json :=
  match param_sets with
  | [] => (false, None)
  | p :: rest =>
      match fetch_json endpoint p with
      | Some data =>
          if is_job_data data then (true, Some data)
          else test_param_sets endpoint rest
      | None => test_param_sets endpoint rest
      end
  end.

Definition test_api_endpoint (endpoint : string) : bool * option json :=
  test_param_sets endpoint
    [OffsetLimit 0 20; FromSize 0 20; PagePageSize 1 20; NoParams].

Definition id_fields : list string := ["id"; "jobId"; "postingId"; "requisitionId"].
Definition title_fields : list string := ["title"; "jobTitle"; "positionTitle"; "name"].
Definition date_fields : list string := ["postedOn"; "postingDate"; "datePosted"; "createdDate"].

(** The scan of [bulletFields] for a location: [None] when an entry is not
    a dict or its type is not a string (the attribute error is caught by
    the caller), [Some None] when no entry matches. *)
Fixpoint bullet_location (fields : list json) : option (option json) :=
  match fields with
  | [] => Some None
  | JDict fd :: rest =>
      match Py.get_or fd "type" (JStr "") with
      | JStr ty =>
          if PyStr.contains "location" (PyStr.lower ty)
          then Some (Some (Py.get_or fd "value" (JStr "")))
          else bullet_location rest
      | _ => None
      end
  | _ :: _ => None
  end.

(** [urljoin(self.base_url, v)] for a truthy [v]: [v] itself when the base
    is empty; otherwise a type error unless [v] is a string, and the error
    of [urljoin] when it is one that cannot be parsed. *)
Definition join_url (v : json) : option json :=
  if PyStr.nonempty base_url then
    match v with
    | JStr p => JStr <$> urljoin base_url p
    | _ => None
    end
  else Some v.

Definition process_job_data (job : json) : option (JobRecord json) :=
  match job with
  | JDict d =>
      let job_id :=
        match Py.first_truthy d id_fields with
        | Some v => PyRt.str v
        | None => ""
        end in
      let title := default (JStr "") (Py.first_truthy d title_fields) in
      location ←
        (if Py.truthy (Py.get d "locationsText") then Some (Py.get d "locationsText")
         else if Py.truthy (Py.get d "location") then
           match Py.get d "location" with
           | JDict ld => Some (Py.get_or ld "name" (JStr ""))
           | v => Some (JStr (PyRt.str v))
           end
         else if Py.truthy (Py.get d "bulletFields") then
           fields ← Py.iter (Py.get d "bulletFields");
           found ← bullet_location fields;
           Some (default (JStr "") found)
         else Some (JStr ""));
      let posting_date := default (JStr "") (Py.first_truthy d date_fields) in
      url ←
        (if Py.truthy (Py.get d "externalPath") then join_url (Py.get d "externalPath")
         else if Py.truthy (Py.get d "url") then Some (Py.get d "url")
         else if PyStr.nonempty job_id then Some (JStr (base_url +:+ "/" +:+ job_id))
         else Some (JStr ""));
      Some (mkJob (JStr job_id) title location posting_date url
                  (JStr "PulteGroup") (JStr now_isoformat))
  | _ => None
  end.

(** The raw records of a response: the list itself, or the list under the
    first container key that holds one. *)
Definition raw_jobs (data : json) : list json :=
  match data with
  | JList l => l
  | JDict d =>
      match find (holds_list d) job_containers with
      | Some container =>
          match Py.get d container with JList l => l | _ => [] end
      | None => []
      end
  | _ => []
  end.

Definition extract_jobs_from_response (data : json) : list (JobRecord json) :=
  omap process_job_data (raw_jobs data).

Definition limit : Z := 20.

(** The state of the paging loop: [all_jobs], [offset] and [page]. *)
Record cursor : Type := mkCursor {
  all_jobs : list (JobRecord json);
  offset : Z;
  page : Z
}.

Definition page_param_sets (c : cursor) : list params :=
  [OffsetLimit (offset c) limit; FromSize (offset c) limit;
   PagePageSize (page c) limit; StartCount (offset c) limit].

(** The inner [for params in param_sets] loop: the records of the first
    parameter shape that yields any. *)
Fixpoint first_jobs (endpoint : string) (param_sets : list params)
    : option (list (JobRecord json)) :=
  match param_sets with
  | [] => None
  | p :: rest =>
      match fetch_json endpoint p with
      | Some data =>
          match extract_jobs_from_response data with
          | [] => first_jobs endpoint rest
          | jobs => Some jobs
          end
      | None => first_jobs endpoint rest
      end
  end.

(** One iteration of the [while True] of [paginate_api_endpoint]. *)
Definition page_turn (endpoint : string) (c : cursor)
    : turn cursor (list (JobRecord json)) :=
  match first_jobs endpoint (page_param_sets c) with
  | Some jobs =>
      if Z.of_nat (length jobs) <? limit
      then Return (all_jobs c ++ jobs)
      else Continue (mkCursor (all_jobs c ++ jobs) (offset c + limit) (page c + 1))
  | None => Return (all_jobs c)
  end.

(** The normalized records an iteration obtains for its page: those of the
    first parameter shape that yields any, none otherwise. *)
Definition page_records (endpoint : string) (c : cursor) : list (JobRecord json) :=
  default [] (first_jobs endpoint (page_param_sets c)).

(** The page number goes with the offset. *)
Definition on_track (c : cursor) : Prop :=
  0 <= offset c /\ offset c = limit * (page c - 1).

(** The upstream holds [records] and honours the page size: a request of
    the loop that is answered with data carries the records from the
    offset on, [limit] of them at most. *)
Definition serves (endpoint : string) (records : list json) : Prop :=
  forall c p data,
    on_track c -> p ∈ page_param_sets c -> fetch_json endpoint p = Some data ->
    raw_jobs data = take (Z.to_nat limit) (drop (Z.to_nat (offset c)) records).

(** The loop, run for at most [fuel] iterations: the result and the number
    of iterations taken, [None] when [fuel] iterations do not reach a return. *)
Fixpoint paginate_from (endpoint : string) (fuel : nat) (c : cursor)
    : option (list (JobRecord json) * nat) :=
  match fuel with
  | O => None
  | S fuel' =>
      match page_turn endpoint c with
      | Return jobs => Some (jobs, 1%nat)
      | Continue c' =>
          '(jobs, n) ← paginate_from endpoint fuel' c';
          Some (jobs, S n)
      end
  end.

Definition paginate_api_endpoint (endpoint : string) (fuel : nat)
    : option (list (JobRecord json) * nat) :=
  paginate_from endpoint fuel (mkCursor [] 0 1).

(** [scrape_with_api] over the endpoints [discover_workday_endpoints] found. *)
Fixpoint scrape_with_api (endpoints : list string) (fuel : nat)
    : option (list (JobRecord json)) :=
  match endpoints with
  | [] => Some []
  | endpoint :: rest =>
      if (test_api_endpoint endpoint).1
      then fst <$> paginate_api_endpoint endpoint fuel
      else scrape_with_api rest fuel
  end.

(** The records the browser strategy returns; it catches what it raises. *)
Variable scrape_with_selenium : list (JobRecord json).

Definition scrape_jobs (endpoints : list string) (fuel : nat)
    : option (list (JobRecord json) * list step_event) :=
  jobs ← scrape_with_api endpoints fuel;
  let started := [LogInfo "Starting comprehensive job scraping..."; CalledApi] in
  match jobs with
  | _ :: _ => Some (jobs, started ++ [LogInfo "API scraping successful"])
  | [] =>
      let fallback :=
        started ++ [LogInfo "API scraping failed, trying Selenium approach...";
                    CalledSelenium] in
      match scrape_with_selenium with
      | _ :: _ =>
          Some (scrape_with_selenium,
                fallback ++ [LogInfo "Selenium scraping successful"])
      | [] => Some ([], fallback ++ [LogError "All scraping strategies failed"])
      end
  end.

(** [value.strip().replace('\n', ' ').replace('\r', '')] *)
Definition clean (s : string) : string :=
  PyStr.replace PyStr.CR "" (PyStr.replace PyStr.LF " " (PyStr.strip s)).

(** What [clean] makes of one character: a newline becomes a space, a
    carriage return disappears. *)
Definition cleaned_char (c : ascii) : option ascii :=
  if Ascii.eqb c PyStr.CR then None else Some (if Ascii.eqb c PyStr.LF then PyStr.SP else c).

(** The cleaning of one value of a row in [save_to_csv]. *)
Definition clean_value (value : json) : json :=
  match value with
  | JStr s => JStr (clean s)
  | _ => value
  end.

Definition csv_row (job : JobRecord json) : JobRecord json :=
  mkJob (clean_value (job_id job)) (clean_value (title job))
        (clean_value (location job)) (clean_value (posting_date job))
        (clean_value (url job)) (clean_value (company job))
        (clean_value (scraped_at job)).

(** A Selenium element, by what [extract_job_data_selenium] reads of it. *)
Record web_element : Type := mkWebElement {
  (** [find_element(By.CSS_SELECTOR, selector).text], [None] when the
      lookup raises *)
  find_css : string -> option string;
  (** [find_element(By.TAG_NAME, "a")]: its [text] and
      [get_attribute('href')], [None] when the lookup raises *)
  find_anchor : option (string * option string);
  (** [get_attribute(attr)] *)
  get_attribute : string -> option string
}.

Definition selenium_title_selectors : list string :=
  ["[data-automation-id='jobPostingTitle']"; "[data-automation-id='job-title']";
   ".job-title"; "h3"; "h2"; ".title"; "a[data-automation-id*='title']"].
Definition selenium_location_selectors : list string :=
  ["[data-automation-id='jobPostingLocation']"; "[data-automation-id='location']";
   ".job-location"; ".location"; "[data-uxi-element-id*='location']"].
Definition selenium_date_selectors : list string :=
  ["[data-automation-id='jobPostingDate']"; "[data-automation-id='date']";
   ".job-date"; ".posting-date"; ".date"; "[data-uxi-element-id*='date']"].

(** The trimmed text of the first selector that finds an element: the loop
    breaks there, whatever the text. *)
Fixpoint first_found (e : web_element) (selectors : list string) : option string :=
  match selectors with
  | [] => None
  | selector :: rest =>
      match find_css e selector with
      | Some text => Some (PyStr.strip text)
      | None => first_found e rest
      end
  end.

(** [job_data.get(key)] is truthy: the key is set, to a non-empty string. *)
Definition set_nonempty (value : option string) : bool :=
  match value with
  | Some s => PyStr.nonempty s
  | None => false
  end.

(** The first attribute with a truthy value. *)
Fixpoint first_attribute (e : web_element) (attrs : list string) : option string :=
  match attrs with
  | [] => None
  | attr :: rest =>
      match get_attribute e attr with
      | Some value => if PyStr.nonempty value then Some value else first_attribute e rest
      | None => first_attribute e rest
      end
  end.

(** [extract_job_data_selenium]: the record is a dict; a key that is not set
    is [None] here. *)
Definition extract_job_data_selenium (e : web_element) : option (JobRecord (option string)) :=
  let title := first_found e selenium_title_selectors in
  let title :=
    if negb (set_nonempty title) then
      match find_anchor e with
      | Some (text, _) =>
          if PyStr.nonempty (PyStr.strip text) then Some (PyStr.strip text) else title
      | None => title
      end
    else title in
  let location := first_found e selenium_location_selectors in
  let posting_date := first_found e selenium_date_selectors in
  let url :=
    match find_anchor e with
    | Some (_, Some href) => if PyStr.nonempty href then Some href else None
    | _ => None
    end in
  let job_id :=
    match url with
    | Some url =>
        find (fun part => PyStr.nonempty part && negb (PyStr.startswith "http" part))
             (reverse (PyStr.split "/" url))
    | None => None
    end in
  let job_id :=
    if negb (set_nonempty job_id)
    then match first_attribute e ["data-job-id"; "id"; "data-automation-id"] with
         | Some value => Some value
         | None => job_id
         end
    else job_id in
  if set_nonempty title
  then Some (mkJob job_id title location posting_date url (Some "PulteGroup")
               (Some now_isoformat))
  else None.

End Scraper.
End Enhanced.

(** ** workday_simple_api.py *)

Module Workday.
Import Transport.

Section Scraper.
Context {rt : Runtime}.
Variable base_url : string.
(** [self.company_info['company'].title()] and the URL [build_api_url] gives. *)
Variable company_name : string.
Variable api_url : string.
Variable max_retries : Z.
(** The network: the outcome of the [i]-th attempt of the POST whose
    payload carries the given [offset] and [limit]. *)
Variable wire : string -> Z -> Z -> nat -> attempt.

(** [make_api_request]: the attempts [attempt, attempt + 1, ...], [todo] of them. *)
Fixpoint make_api_request_from (tries : nat -> attempt) (todo attempt : nat)
    : option json * list event :=
  match todo with
  | O => (None, [])
  | S todo' =>
      let retry :=
        let '(res, tr) := make_api_request_from tries todo' (S attempt) in
        (res, if Z.of_nat attempt <? max_retries - 1
              then Slept (Z.of_nat attempt + 1) :: tr else tr) in
      match tries attempt with
      | Answered r =>
          if status_code r =? 200 then
            match json_body r with
            | Some data => (Some data, [])
            | None => retry
            end
          else retry
      | Failed => retry
      end
  end.

Definition make_api_request (tries : nat -> attempt) : option json * list event :=
  make_api_request_from tries (Z.to_nat max_retries) 0.

(** Method 1: the first entry of [bulletFields] that is a non-blank string. *)
Fixpoint first_bullet (fields : list json) : string :=
  match fields with
  | [] => ""
  | JStr s :: rest =>
      if PyStr.nonempty (PyStr.strip s) then PyStr.strip s else first_bullet rest
  | _ :: rest => first_bullet rest
  end.

Definition id_from_bullets (d : list (string * json)) : string :=
  match Py.get d "bulletFields" with
  | JList l => first_bullet l
  | _ => ""
  end.

(** Method 2 on a string path: the part after the last underscore, or
    else the last segment of the path. *)
Definition id_from_path (external_path : string) : string :=
  if PyStr.has_char "_" external_path
  then default "" (last (PyStr.split "_" external_path))
  else default "" (last (PyStr.split "/" (PyStr.strip_char "/" external_path))).

Definition id_fields : list string :=
  ["id"; "jobId"; "postingId"; "requisitionId"; "externalJobId"].
Definition title_fields : list string :=
  ["title"; "jobTitle"; "positionTitle"; "name"; "jobName"].
Definition date_fields : list string :=
  ["postedOn"; "postingDate"; "datePosted"; "createdDate"; "publishedDate"].

(** Method 3: the first truthy identifier field, as a string. *)
Definition id_from_fields (d : list (string * json)) : string :=
  match Py.first_truthy d id_fields with
  | Some v => PyRt.str v
  | None => ""
  end.

(** The three methods in the order the function runs them; [None] is the
    exception a truthy [externalPath] that is not a string raises. *)
Definition extract_job_id (d : list (string * json)) : option string :=
  let job_id := "" in
  let job_id :=
    if Py.truthy (Py.get d "bulletFields") && Py.is_list (Py.get d "bulletFields")
    then id_from_bullets d else job_id in
  job_id ←
    (if negb (PyStr.nonempty job_id) && Py.truthy (Py.get d "externalPath") then
       match Py.get d "externalPath" with
       | JStr external_path => Some (id_from_path external_path)
       | _ => None
       end
     else Some job_id);
  let job_id :=
    if negb (PyStr.nonempty job_id) then id_from_fields d else job_id in
  Some job_id.

(** Method 2 on its own: what [externalPath] yields when it is a string. *)
Definition id_from_external_path (d : list (string * json)) : string :=
  match Py.get d "externalPath" with
  | JStr external_path => id_from_path external_path
  | _ => ""
  end.

(** The first string of a list that is not empty. *)
Definition first_nonempty (candidates : list string) : string :=
  default "" (find PyStr.nonempty candidates).

(** [urljoin(self.base_url, v)] for a truthy [v]: [v] itself when the base
    is empty; otherwise a type error unless [v] is a string, and the error
    of [urljoin] when it is one that cannot be parsed. *)
Definition join_url (v : json) : option json :=
  if PyStr.nonempty base_url then
    match v with
    | JStr p => JStr <$> urljoin base_url p
    | _ => None
    end
  else Some v.

(** [location_text] before it is stripped. *)
Definition location_text (d : list (string * json)) : json :=
  let named (v : json) :=
    match v with
    | JDict ld => Py.get_or ld "name" (JStr "")
    | _ => JStr (PyRt.str v)
    end in
  if Py.truthy (Py.get d "locationsText") then Py.get d "locationsText"
  else if Py.truthy (Py.get d "location") then named (Py.get d "location")
  else if Py.truthy (Py.get d "primaryLocation") then named (Py.get d "primaryLocation")
  else JStr "".

Definition process_job_data (job : json) : option (JobRecord json) :=
  match job with
  | JDict d =>
      job_id ← extract_job_id d;
      let title :=
        match Py.first_truthy d title_fields with
        | Some v => PyStr.strip (PyRt.str v)
        | None => ""
        end in
      location ←
        match location_text d with
        | JStr s => Some (PyStr.strip s)
        | _ => None
        end;
      let posting_date :=
        match Py.first_truthy d date_fields with
        | Some v => PyRt.str v
        | None => ""
        end in
      url ←
        (if Py.truthy (Py.get d "externalPath") then join_url (Py.get d "externalPath")
         else if Py.truthy (Py.get d "url") then Some (Py.get d "url")
         else if PyStr.nonempty job_id
              then Some (JStr (base_url +:+ "/job/" +:+ job_id))
         else Some (JStr ""));
      if PyStr.nonempty title then
        Some (mkJob (JStr job_id) (JStr title) (JStr location) (JStr posting_date)
                    url (JStr company_name) (JStr now_isoformat))
      else None
  | _ => None
  end.

(** [extract_jobs_from_api_response]; [Raised] when [data] has no [get] or
    [jobPostings] is truthy and cannot be iterated. *)
Definition extract_jobs_from_api_response (data : json)
    : outcome (list (JobRecord json)) :=
  match data with
  | JDict d =>
      let job_postings := Py.get_or d "jobPostings" (JList []) in
      if Py.truthy job_postings then
        match Py.iter job_postings with
        | Some items => Returned (omap process_job_data items)
        | None => Raised
        end
      else Returned []
  | _ => Raised
  end.

Definition limit : Z := 20.

(** One iteration of the [while True] of [scrape_jobs_api] on the state
    [(all_jobs, offset)]. *)
Definition page_turn (st : list (JobRecord json) * Z)
    : outcome (turn (list (JobRecord json) * Z) (list (JobRecord json))) :=
  let '(all_jobs, offset) := st in
  match (make_api_request (wire api_url offset limit)).1 with
  | None => Returned (Return all_jobs)
  | Some result =>
      if negb (Py.truthy result) then Returned (Return all_jobs)
      else
        match extract_jobs_from_api_response result with
        | Raised => Raised
        | Returned [] => Returned (Return all_jobs)
        | Returned jobs =>
            if Z.of_nat (length jobs) <? limit
            then Returned (Return (all_jobs ++ jobs))
            else Returned (Continue (all_jobs ++ jobs, offset + limit))
        end
  end.

(** The normalized records an iteration obtains for its page; a request
    that fails and a falsy body count for none. *)
Definition page_records (offset : Z) : outcome (list (JobRecord json)) :=
  match (make_api_request (wire api_url offset limit)).1 with
  | None => Returned []
  | Some result =>
      if Py.truthy result then extract_jobs_from_api_response result
      else Returned []
  end.

(** The raw records of a body: what it holds under [jobPostings]. *)
Definition raw_postings (data : json) : list json :=
  match data with
  | JDict d => match Py.get_or d "jobPostings" (JList []) with JList l => l | _ => [] end
  | _ => []
  end.

(** The upstream holds [records] and honours the page size: a page that is
    answered with data is a dict that carries the records from the offset
    on, [limit] of them at most. *)
Definition serves (records : list json) : Prop :=
  forall offset result,
    0 <= offset ->
    (make_api_request (wire api_url offset limit)).1 = Some result ->
    exists d,
      result = JDict d
      /\ Py.get_or d "jobPostings" (JList [])
         = JList (take (Z.to_nat limit) (drop (Z.to_nat offset) records)).

(** The loop, run for at most [fuel] iterations: how it ends and after how
    many iterations, [None] when [fuel] iterations do not end it. *)
Fixpoint scrape_from (fuel : nat) (st : list (JobRecord json) * Z)
    : option (outcome (list (JobRecord json)) * nat) :=
  match fuel with
  | O => None
  | S fuel' =>
      match page_turn st with
      | Raised => Some (Raised, 1%nat)
      | Returned (Return jobs) => Some (Returned jobs, 1%nat)
      | Returned (Continue st') =>
          '(res, n) ← scrape_from fuel' st';
          Some (res, S n)
      end
  end.

Definition scrape_jobs_api (fuel : nat)
    : option (outcome (list (JobRecord json)) * nat) :=
  scrape_from fuel ([], 0).

(** [self.company_info] *)
Record company_info : Type := mkInfo {
  info_company : string;
  wd_version : string;
  site_id : string;
  domain : string
}.

(** [re.match(r'https://([^.]+)\.wd(\d+)\.myworkdayjobs\.com/([^/?]+)', url)]:
    the three groups.  Each group is greedy and is followed by a character
    it cannot hold, so it is the longest run there is. *)
Definition match_workday_url (url : string) : option (string * string * string) :=
  rest ← PyStr.after_literal (PyStr.chars "https://") (PyStr.chars url);
  let '(company, rest) := PyStr.span (fun c => negb (Ascii.eqb c ".")) rest in
  rest ← PyStr.after_literal (PyStr.chars ".wd") rest;
  let '(version, rest) := PyStr.span PyStr.isdigit rest in
  rest ← PyStr.after_literal (PyStr.chars ".myworkdayjobs.com/") rest;
  let '(site, _) :=
    PyStr.span (fun c => negb (Ascii.eqb c "/") && negb (Ascii.eqb c "?")) rest in
  match company, version, site with
  | _ :: _, _ :: _, _ :: _ =>
      Some (PyStr.of_chars company, PyStr.of_chars version, PyStr.of_chars site)
  | _, _, _ => None
  end.

Definition parse_workday_url (url : string) : company_info :=
  match match_workday_url url with
  | Some (company, version, site) =>
      mkInfo company version site
             (company +:+ ".wd" +:+ version +:+ ".myworkdayjobs.com")
  | None =>
      let parts := PyStr.split "/" (PyStr.replace_sub "https://" "" url) in
      let domain := default "" (head parts) in
      let site := default "careers" (parts !! 1%nat) in
      let company := default "" (head (PyStr.split "." domain)) in
      mkInfo company "1" site domain
  end.

(** [build_api_url] for the information parsed from the base URL. *)
Definition build_api_url (info : company_info) : string :=
  "https://" +:+ domain info +:+ "/wday/cxs/" +:+ info_company info
  +:+ "/" +:+ site_id info +:+ "/jobs".

End Scraper.
End Workday.

(** ** simple_pulte_scraper.py *)

Module Simple.
Import Transport.

(** A parsed element, by what [extract_job_from_element] reads of it. *)
Record element : Type := mkElement {
  (** [element.name] *)
  name : string;
  (** [element.get_text(strip=True)] *)
  get_text : string;
  (** [element.select_one(selector)]: the [get_text(strip=True)] of the
      match, [None] without a match *)
  select_one : string -> option string;
  (** [element.get(attr)] *)
  get_attr : string -> option string;
  (** [element.find('a', href=True)]: the [href] of the link found *)
  find_link : option string
}.

Section Scraper.
Context {rt : Runtime}.
Variable base_url : string.
Variable max_retries : Z.

(** [make_request]: the attempts [attempt, attempt + 1, ...], [todo] of them. *)
Fixpoint make_request_from (tries : nat -> attempt) (todo attempt : nat)
    : option response * list event :=
  match todo with
  | O => (None, [])
  | S todo' =>
      let retry :=
        let '(res, tr) := make_request_from tries todo' (S attempt) in
        (res, (if Z.of_nat attempt <? max_retries - 1
               then Slept (Z.of_nat attempt + 1) else GaveUp) :: tr) in
      match tries attempt with
      | Answered r => if raises_for_status r then retry else (Some r, [])
      | Failed => retry
      end
  end.

Definition make_request (tries : nat -> attempt) : option response * list event :=
  make_request_from tries (Z.to_nat max_retries) 0.

(** The first selector whose match has text, with that text. *)
Fixpoint first_text (e : element) (selectors : list string) : option string :=
  match selectors with
  | [] => None
  | selector :: rest =>
      match select_one e selector with
      | Some text => if PyStr.nonempty text then Some text else first_text e rest
      | None => first_text e rest
      end
  end.

(** The selector [[data-automation-id*=...]] with its argument in double quotes. *)
Definition automation_id_has (value : string) : string :=
  let quote := String (ascii_of_N 34) EmptyString in
  "[data-automation-id*=" +:+ quote +:+ value +:+ quote +:+ "]".

Definition title_selectors : list string :=
  ["h1"; "h2"; "h3"; "h4"; ".title"; ".job-title"; automation_id_has "title"].
Definition location_selectors : list string :=
  [".location"; ".job-location"; automation_id_has "location"].
Definition date_selectors : list string :=
  [".date"; ".job-date"; automation_id_has "date"].
Definition title_words : list string :=
  ["engineer"; "manager"; "analyst"; "specialist"; "coordinator"; "director";
   "associate"].

(** The three methods that look for a title, in order. *)
Definition title_text (e : element) : string :=
  let title_text :=
    if String.eqb (name e) "a" && PyStr.nonempty (get_text e)
    then get_text e else "" in
  let title_text :=
    if negb (PyStr.nonempty title_text)
    then default title_text (first_text e title_selectors) else title_text in
  if negb (PyStr.nonempty title_text) then
    let text := get_text e in
    if PyStr.nonempty text && (PyStr.len text <? 200)%nat
       && existsb (fun word => PyStr.contains word (PyStr.lower text)) title_words
    then text else title_text
  else title_text.

(** An [href] made absolute: joined when it starts with a slash, kept when
    it starts with [http], dropped otherwise; [None] when [urljoin] raises. *)
Definition absolute (href : string) : option string :=
  if PyStr.startswith "/" href then urljoin base_url href
  else if PyStr.startswith "http" href then Some href
  else Some "".

(** The URL of the element, [None] when [urljoin] raises. *)
Definition element_url (e : element) : option string :=
  let of_child :=
    match find_link e with
    | Some href => absolute href
    | None => Some ""
    end in
  match (if String.eqb (name e) "a" then get_attr e "href" else None) with
  | Some href => if PyStr.nonempty href then absolute href else of_child
  | None => of_child
  end.

(** The last part of the URL that is neither short nor the scheme. *)
Definition id_from_url (url : string) : string :=
  default ""
    (find (fun part => PyStr.nonempty part && negb (PyStr.startswith "http" part)
                       && (3 <? PyStr.len part)%nat)
          (reverse (PyStr.split "/" url))).

Fixpoint first_attr (e : element) (attrs : list string) : string :=
  match attrs with
  | [] => ""
  | attr :: rest =>
      match get_attr e attr with
      | Some value => if PyStr.nonempty value then value else first_attr e rest
      | None => first_attr e rest
      end
  end.

(** [extract_job_from_element]; an error of [urljoin] is caught like any
    other and leaves no record. *)
Definition extract_job_from_element (e : element) : option (JobRecord string) :=
  let title := PyStr.slice_to 200 (title_text e) in
  let location := default "" (first_text e location_selectors) in
  let posting_date := default "" (first_text e date_selectors) in
  url ← element_url e;
  let job_id := if PyStr.nonempty url then id_from_url url else "" in
  let job_id :=
    if negb (PyStr.nonempty job_id)
    then first_attr e ["data-job-id"; "id"; "data-automation-id"] else job_id in
  if PyStr.nonempty title && (3 <? PyStr.len (PyStr.strip title))%nat
  then Some (mkJob job_id title location posting_date url "PulteGroup" now_isoformat)
  else None.

(** The key two records are compared by: [(job.get('title', ''), job.get('url', ''))]. *)
Definition key (job : JobRecord string) : string * string := (title job, url job).


(** The loop that fills [unique_jobs], started with the set [seen]. *)
Fixpoint unique_from (seen : gset (string * string)) (jobs : list (JobRecord string))
    : list (JobRecord string) :=
  match jobs with
  | [] => []
  | job :: rest =>
      if decide (key job ∈ seen) then unique_from seen rest
      else job :: unique_from ({[key job]} ∪ seen) rest
  end.

Definition unique_jobs (jobs : list (JobRecord string)) : list (JobRecord string) :=
  unique_from ∅ jobs.

(** [parse_jobs_from_html] from the elements gathered, in the order
    [list(set(...))] yields them. *)
Definition parse_jobs_from_html (all_elements : list element) : list (JobRecord string) :=
  let jobs :=
    omap (fun e =>
            match extract_job_from_element e with
            | Some job_data => if PyStr.nonempty (title job_data) then Some job_data else None
            | None => None
            end) all_elements in
  unique_jobs jobs.

(** [value.strip().replace('\n', ' ').replace('\r', '')] *)
Definition clean (s : string) : string :=
  PyStr.replace PyStr.CR "" (PyStr.replace PyStr.LF " " (PyStr.strip s)).

(** The row [save_to_csv] writes for a record; its values are strings. *)
Definition csv_row (job : JobRecord string) : JobRecord string :=
  mkJob (clean (job_id job)) (clean (title job)) (clean (location job))
        (clean (posting_date job)) (clean (url job)) (clean (company job))
        (clean (scraped_at job)).

(** A page as the scraper reads it: the elements [parse_jobs_from_html]
    gathers from it, and for a selector the [href] of each link
    [soup.select] finds, [None] for a link without one. *)
Record page : Type := mkPage {
  page_elements : list element;
  page_links : string -> list (option string)
}.

(** The selector [tag[attr*=...]] with its argument in double quotes. *)
Definition attr_has (tag attr value : string) : string :=
  let quote := String (ascii_of_N 34) EmptyString in
  tag +:+ "[" +:+ attr +:+ "*=" +:+ quote +:+ value +:+ quote +:+ "]".

Definition pagination_selectors : list string :=
  [attr_has "a" "href" "page"; attr_has "a" "href" "offset";
   attr_has "a" "aria-label" "Next"; attr_has "a" "title" "Next";
   ".pagination a"; ".pager a";
   attr_has "" "data-automation-id" "next" +:+ " a";
   attr_has "" "data-automation-id" "page" +:+ " a"].

(** The loop over the links of one selector: [pagination_urls] after it,
    [None] when [urljoin] raises.  In [found] the outer [None] is that
    error, the inner one a link that is skipped. *)
Fixpoint collect_links (current_url : string) (hrefs : list (option string))
    (pagination_urls : list string) : option (list string) :=
  match hrefs with
  | [] => Some pagination_urls
  | href :: rest =>
      let found : option (option string) :=
        match href with
        | Some href =>
            if PyStr.nonempty href then
              if PyStr.startswith "/" href then Some <$> urljoin base_url href
              else if PyStr.startswith "http" href then Some (Some href)
              else Some None
            else Some None
        | None => Some None
        end in
      match found with
      | Some (Some full_url) =>
          if negb (String.eqb full_url current_url)
             && negb (bool_decide (full_url ∈ pagination_urls))
          then collect_links current_url rest (pagination_urls ++ [full_url])
          else collect_links current_url rest pagination_urls
      | Some None => collect_links current_url rest pagination_urls
      | None => None
      end
  end.

(** The loop over the selectors. *)
Fixpoint collect_selectors (pg : page) (current_url : string) (selectors : list string)
    (pagination_urls : list string) : option (list string) :=
  match selectors with
  | [] => Some pagination_urls
  | selector :: rest =>
      pagination_urls ← collect_links current_url (page_links pg selector)
                          pagination_urls;
      collect_selectors pg current_url rest pagination_urls
  end.

(** [find_pagination_urls]: the first five URLs found, none when an error
    was caught. *)
Definition find_pagination_urls (pg : page) (current_url : string) : list string :=
  match collect_selectors pg current_url pagination_selectors [] with
  | Some pagination_urls => take 5 pagination_urls
  | None => []
  end.

(** What [make_request] and the parser make of a URL: its page, [None]
    when every attempt failed. *)
Variable fetch : string -> option page.

(** The state of the loop of [scrape_jobs], with the URLs requested so far. *)
Record crawl : Type := mkCrawl {
  all_jobs : list (JobRecord string);
  visited_urls : gset string;
  urls_to_visit : list string;
  requested : list string
}.

(** The loop that queues the pagination URLs of a page. *)
Definition enqueue (visited : gset string) (pagination_urls queue : list string)
    : list string :=
  fold_left (fun queue url =>
               if negb (bool_decide (url ∈ visited))
                  && negb (bool_decide (url ∈ queue))
               then queue ++ [url] else queue)
            pagination_urls queue.

(** One iteration of the [while] of [scrape_jobs]. *)
Definition crawl_turn (st : crawl) : turn crawl (list (JobRecord string)) :=
  match urls_to_visit st with
  | [] => Return (all_jobs st)
  | current_url :: queue =>
      if negb (size (visited_urls st) <? 10)%nat then Return (all_jobs st)
      else if bool_decide (current_url ∈ visited_urls st)
      then Continue (mkCrawl (all_jobs st) (visited_urls st) queue (requested st))
      else
        let visited := {[current_url]} ∪ visited_urls st in
        let requested := requested st ++ [current_url] in
        match fetch current_url with
        | None => Continue (mkCrawl (all_jobs st) visited queue requested)
        | Some pg =>
            match parse_jobs_from_html (page_elements pg) with
            | [] => Continue (mkCrawl (all_jobs st) visited queue requested)
            | page_jobs =>
                Continue (mkCrawl (all_jobs st ++ page_jobs) visited
                            (enqueue visited (find_pagination_urls pg current_url) queue)
                            requested)
            end
        end
  end.

(** The loop, run for at most [fuel] iterations: the jobs and the URLs
    requested, [None] when [fuel] iterations do not end it. *)
Fixpoint crawl_from (fuel : nat) (st : crawl)
    : option (list (JobRecord string) * list string) :=
  match fuel with
  | O => None
  | S fuel' =>
      match crawl_turn st with
      | Return jobs => Some (jobs, requested st)
      | Continue st' => crawl_from fuel' st'
      end
  end.

Definition scrape_jobs (fuel : nat) : option (list (JobRecord string) * list string) :=
  crawl_from fuel (mkCrawl [] ∅ [base_url] []).

End Scraper.
End Simple.

(** ** A runtime and an upstream to evaluate the scrapers on *)

Module Sample.
Import Transport.

(** [urljoin] on the inputs met below: a reference that opens a bracketed
    host and does not close it is refused, an absolute path replaces the
    path of the base, an absolute URL replaces the base. *)
Definition sample_urljoin (base u : string) : option string :=
  if PyStr.startswith "//[" u && negb (PyStr.has_char "]" u) then None
  else if PyStr.startswith "/" u then
    match PyStr.split "/" base with
    | scheme :: _ :: host :: _ => Some (scheme +:+ "//" +:+ host +:+ u)
    | _ => Some (base +:+ u)
    end
  else if PyStr.startswith "http" u then Some u
  else Some (base +:+ "/" +:+ u).

(** A stand-in for [str] of a float, list or dict: never empty. *)
Definition sample_repr (v : json) : string :=
  match v with
  | JList [] => "[]"
  | JDict [] => "{}"
  | JList _ => "[...]"
  | JDict _ => "{...}"
  | _ => "0.5"
  end.

Lemma sample_repr_nonempty (v : json) : sample_repr v <> "".
Proof. destruct v as [| | | | |[|]|[|]]; discriminate. Qed.

#[export] Instance runtime : Runtime := {|
  urljoin := sample_urljoin;
  repr := sample_repr;
  repr_nonempty := sample_repr_nonempty;
  now_isoformat := "2024-05-01T12:00:00"
|}.

Definition base_url : string := "https://pultegroup.wd1.myworkdayjobs.com/PGI".
Definition api_url : string :=
  "https://pultegroup.wd1.myworkdayjobs.com/wday/cxs/pultegroup/PGI/jobs".

(** An answer with status 200 and the given body. *)
Definition ok (data : json) : attempt := Answered (mkResponse 200 (Some data)).

(** The record of the specification's scenario: a title, a path that ends
    in an identifier, and no identifier field. *)
Definition site_engineer : json :=
  JDict [("title", JStr "Site Engineer");
         ("externalPath", JStr "/job/Dallas-TX/Site-Engineer_JR4032")].

(** A record with an identifier and no title. *)
Definition untitled : json := JDict [("id", JNum 7)].

(** A record with an explicit identifier and a path that ends in another. *)
Definition two_ids_fields : list (string * json) :=
  [("title", JStr "Site Engineer"); ("id", JStr "123");
   ("externalPath", JStr "/job/Dallas-TX/Site-Engineer_JR4032")].
Definition two_ids : json := JDict two_ids_fields.

(** A full page whose last record has no title. *)
Definition page_with_untitled : json :=
  JDict [("jobPostings", JList (replicate 19 site_engineer ++ [untitled]))].

(** A full page whose last item is not an object. *)
Definition page_with_null : json :=
  JDict [("jobPostings", JList (replicate 19 site_engineer ++ [JNull]))].

(** Forty records of which the twentieth has no title, and forty items of
    which the twentieth is not an object. *)
Definition forty_with_untitled : list json :=
  replicate 19 site_engineer ++ untitled :: replicate 20 site_engineer.
Definition forty_with_null : list json :=
  replicate 19 site_engineer ++ JNull :: replicate 20 site_engineer.

(** An upstream that holds [records] and serves the slice asked for. *)
Definition serve (records : list json) (offset limit : Z) : json :=
  JDict [("jobPostings",
          JList (take (Z.to_nat limit) (drop (Z.to_nat offset) records)))].

Definition workday_wire (records : list json)
    : string -> Z -> Z -> nat -> attempt :=
  fun _ offset limit _ => ok (serve records offset limit).

Definition enhanced_wire (records : list json)
    : string -> Enhanced.params -> nat -> attempt :=
  fun _ p _ =>
    match p with
    | Enhanced.OffsetLimit offset limit => ok (serve records offset limit)
    | _ => Failed
    end.

(** An upstream that pages by offset and limit and ignores the parameters
    it does not know: a request of any other shape gets the first page. *)
Definition first_page_wire (records : list json)
    : string -> Enhanced.params -> nat -> attempt :=
  fun _ p _ =>
    match p with
    | Enhanced.OffsetLimit offset limit => ok (serve records offset limit)
    | _ => ok (serve records 0 20)
    end.

(** An endpoint that answers every request with [{"status": "ok"}]. *)
Definition status_wire : string -> Enhanced.params -> nat -> attempt :=
  fun _ _ _ => ok (JDict [("status", JStr "ok")]).

(** Every attempt is answered 304 Not Modified, with no body to decode. *)
Definition not_modified : nat -> attempt :=
  fun _ => Answered (mkResponse 304 None).

(** Every attempt is answered 503. *)
Definition unavailable : nat -> attempt :=
  fun _ => Answered (mkResponse 503 None).

(** Three records found in a page: the first and the last are one posting
    reached through two selectors. *)
Definition found (t u : string) : JobRecord string :=
  mkJob "" t "" "" u "PulteGroup" "2024-05-01T12:00:00".


(** A link with the given text and target, and nothing inside it. *)
Definition link (text href : string) : Simple.element :=
  Simple.mkElement "a" text (fun _ => None)
    (fun attr => if String.eqb attr "href" then Some href else None) None.

(** A record whose only trace of an identifier is the end of its URL. *)
Definition url_only : json :=
  JDict [("title", JStr "Site Engineer");
         ("url", JStr "https://pultegroup.wd1.myworkdayjobs.com/PGI/job/JR77")].

(** Two attempts fail, the third is answered 200 with an empty page. *)
Definition flaky : nat -> attempt :=
  fun i => if (i <? 2)%nat then Failed else ok (serve [] 0 20).

(** The endpoint [api_url] serves [records]; any other answers
    [{"status": "ok"}]. *)
Definition mixed_wire (records : list json)
    : string -> Enhanced.params -> nat -> attempt :=
  fun endpoint p i =>
    if String.eqb endpoint api_url then enhanced_wire records endpoint p i
    else status_wire endpoint p i.


(** A record as the Workday backend sends it: the identifier sits in
    bulletFields, as a string; no location is given. *)
Definition bullet_fields : list (string * json) :=
  [("title", JStr "Site Engineer"); ("bulletFields", JList [JStr "JR4032"])].

(** A record whose title is white space. *)
Definition blank_title_fields : list (string * json) :=
  [("title", JStr "   "); ("id", JNum 7)].

(** A titled record whose path [urljoin] cannot parse. *)
Definition unparsed_path_fields : list (string * json) :=
  [("title", JStr "Site Engineer"); ("externalPath", JStr "//[")].

(** An upstream that answers with the bare list of its records. *)
Definition list_wire (records : list json) : string -> Z -> Z -> nat -> attempt :=
  fun _ _ _ _ => ok (JList records).

(** A careers page with one posting and a pager that names the second page
    twice, the page itself once, and holds a link without target. *)
Definition careers_page : Simple.page :=
  Simple.mkPage [link "Site Engineer" "/PGI/job/JR4032"]
    (fun selector =>
       if String.eqb selector ".pagination a"
       then [Some "/PGI?page=2"; Some "/PGI"; None; Some "/PGI?page=2"; Some "#top"]
       else []).

(** The second page: another posting, and a pager back to the first. *)
Definition second_page : Simple.page :=
  Simple.mkPage [link "Field Manager" "/PGI/job/JR4040"]
    (fun selector =>
       if String.eqb selector ".pager a"
       then [Some "https://pultegroup.wd1.myworkdayjobs.com/PGI"]
       else []).

(** A site of these two pages; any other URL is not served. *)
Definition site : string -> option Simple.page :=
  fun url =>
    if String.eqb url base_url then Some careers_page
    else if String.eqb url "https://pultegroup.wd1.myworkdayjobs.com/PGI?page=2"
    then Some second_page
    else None.

End Sample.

(** ** The specification's wording, where it is compared with the code *)

Module Spec.

(** A stored string: trimmed, every newline and every carriage return made
    a single space. *)
Definition clean (s : string) : string :=
  PyStr.replace PyStr.CR " " (PyStr.replace PyStr.LF " " (PyStr.strip s)).

(** What a persisted string is to satisfy: no line break, no blank end. *)
Definition persisted (s : string) : Prop :=
  (PyStr.LF ∉ PyStr.chars s) /\ (PyStr.CR ∉ PyStr.chars s) /\ PyStr.strip s = s.

Definition persisted_value (v : json) : Prop :=
  match v with
  | JStr s => persisted s
  | _ => True
  end.

(** A non-empty list whose first element is an object with one of the
    job-identifying keys. *)
Definition job_list (v : json) : bool :=
  match v with
  | JList (JDict d :: _) => Enhanced.has_job_field d
  | _ => false
  end.

(** Job data: such a list, or a dict with a container key whose value is such
    a list, or a dict with one of the job-identifying keys. *)
Definition is_job_data (data : json) : bool :=
  job_list data
  || match data with
     | JDict d =>
         existsb (fun container => Py.has_key container d
                                   && job_list (Py.get d container))
                 Enhanced.job_containers
         || Enhanced.has_job_field d
     | _ => false
     end.

(** A failed attempt: a network-level failure or a status outside 2xx. *)
Definition attempt_fails (a : Transport.attempt) : Prop :=
  match a with
  | Transport.Failed => True
  | Transport.Answered r =>
      ~ (200 <= Transport.status_code r < 300)
  end.

(** The identifier in the order the specification gives: an explicit
    identifier field, else the one derived from [externalPath], else the
    last segment of the URL built for the record. *)
Definition job_id (d : list (string * json)) (explicit : string) (built_url : string)
    : string :=
  if PyStr.nonempty explicit then explicit
  else if PyStr.nonempty (Workday.id_from_external_path d)
       then Workday.id_from_external_path d
  else default "" (last (PyStr.split "/" built_url)).

(** The stop condition of the paging loop as the specification gives it:
    no normalized record, or fewer raw records than the page size. *)
Definition stops (raw : list json) (normalized : list (JobRecord json)) (limit : Z)
    : Prop :=
  normalized = [] \/ Z.of_nat (length raw) < limit.

End Spec.

(** * Properties *)

(** ** Strings *)

Section StringFacts.
Import PyStr.

Lemma chars_of_chars (l : list ascii) : chars (of_chars l) = l.
Proof. apply list_ascii_of_string_of_list_ascii. Qed.

Lemma of_chars_chars (s : string) : of_chars (chars s) = s.
Proof. apply string_of_list_ascii_of_string. Qed.

Lemma chars_inj (s t : string) : chars s = chars t -> s = t.
Proof.
  intros E. rewrite <- (of_chars_chars s), <- (of_chars_chars t). now rewrite E.
Qed.

Lemma nonempty_true (s : string) : nonempty s = true <-> s <> "".
Proof. destruct s; simpl; split; intros H; congruence. Qed.

Lemma nonempty_false (s : string) : nonempty s = false <-> s = "".
Proof. destruct s; simpl; split; intros H; congruence. Qed.

Lemma len_slice_to (n : nat) (s : string) : (len (slice_to n s) <= n)%nat.
Proof.
  unfold len, slice_to. rewrite chars_of_chars, length_take. lia.
Qed.

Lemma of_int_nonempty (z : Z) : of_int z <> "".
Proof.
  unfold of_int. intros E.
  pose proof (NilEmpty.isi (Z.to_int z)) as R. rewrite E in R. simpl in R.
  destruct z as [| p | p]; simpl in R; try discriminate.
  - injection R as R. apply (f_equal Decimal.nb_digits) in R. simpl in R.
    pose proof (Unsigned.to_uint_nonnil p) as N.
    destruct (Pos.to_uint p); simpl in *; congruence.
Qed.

End StringFacts.

(** ** Stripping and replacing *)

Section StripFacts.
Import PyStr.
Variable p : ascii -> bool.

Lemma lstrip_by_head (l : list ascii) (c : ascii) :
  head (lstrip_by p l) = Some c -> p c = false.
Proof.
  induction l as [| x l IH]; simpl; [discriminate |].
  destruct (p x) eqn:E; simpl; [exact IH | congruence].
Qed.

Lemma lstrip_by_suffix (l : list ascii) : exists k, l = k ++ lstrip_by p l.
Proof.
  induction l as [| x l [k IH]]; simpl.
  - now exists [].
  - destruct (p x).
    + exists (x :: k). simpl. now f_equal.
    + now exists [].
Qed.

Lemma lstrip_by_fixed (l : list ascii) :
  (forall c, head l = Some c -> p c = false) -> lstrip_by p l = l.
Proof.
  destruct l as [| x l]; simpl; [reflexivity |].
  intros H. now rewrite (H x eq_refl).
Qed.

Lemma lstrip_by_last (l : list ascii) (c : ascii) :
  last (lstrip_by p l) = Some c -> last l = Some c.
Proof.
  destruct (lstrip_by_suffix l) as [k E]. intros H.
  rewrite E at 1. rewrite last_app, H. reflexivity.
Qed.

Lemma strip_by_clean_ends (l : list ascii) : clean_ends p (strip_by p l).
Proof.
  unfold clean_ends, strip_by. split; intros c H.
  - rewrite head_reverse in H. apply lstrip_by_last in H.
    rewrite last_reverse in H. now apply lstrip_by_head in H.
  - rewrite last_reverse in H. now apply lstrip_by_head in H.
Qed.

Lemma strip_by_fixed (l : list ascii) : clean_ends p l -> strip_by p l = l.
Proof.
  intros [Hh Hl]. unfold strip_by.
  rewrite (lstrip_by_fixed l Hh), lstrip_by_fixed.
  - apply reverse_involutive.
  - intros c. rewrite head_reverse. apply Hl.
Qed.

Lemma replace_l_app (c : ascii) (r a b : list ascii) :
  replace_l c r (a ++ b) = replace_l c r a ++ replace_l c r b.
Proof.
  induction a as [| x a IH]; simpl; [reflexivity |].
  now rewrite IH, app_assoc.
Qed.

(** Replacing a character that satisfies [p] keeps ends that do not. *)
Lemma replace_l_clean_ends (c : ascii) (r l : list ascii) :
  p c = true -> clean_ends p l -> clean_ends p (replace_l c r l).
Proof.
  intros Hc [Hh Hl]. split; intros x H.
  - destruct l as [| y l]; simpl in H; [discriminate |].
    pose proof (Hh y eq_refl) as Hy.
    destruct (Ascii.eqb_spec y c) as [-> | _]; [congruence |].
    simpl in H. congruence.
  - destruct (last l) as [y |] eqn:E.
    + apply last_Some in E as [l' ->]. pose proof (Hl y eq_refl) as Hy.
      rewrite replace_l_app in H. simpl in H.
      destruct (Ascii.eqb_spec y c) as [-> | _]; [congruence |].
      rewrite app_nil_r, last_snoc in H. congruence.
    + apply last_None in E as ->. discriminate.
Qed.

End StripFacts.

(** ** Persistence: the cleaning of [save_to_csv] *)

Section Cleaning.
Import PyStr.

Lemma replace_l_cleaned (l : list ascii) :
  replace_l CR [] (replace_l LF [SP] l) = omap Enhanced.cleaned_char l.
Proof.
  induction l as [| c l IH]; simpl; [reflexivity |].
  unfold Enhanced.cleaned_char at 1.
  destruct (Ascii.eqb_spec c LF) as [-> | Hlf]; simpl.
  - now rewrite IH.
  - destruct (Ascii.eqb_spec c CR) as [-> | Hcr]; simpl; now rewrite IH.
Qed.

Lemma clean_chars (s : string) :
  chars (Enhanced.clean s) = omap Enhanced.cleaned_char (chars (strip s)).
Proof.
  unfold Enhanced.clean, replace. rewrite !chars_of_chars.
  apply replace_l_cleaned.
Qed.

Lemma clean_persisted (s : string) : Spec.persisted (Enhanced.clean s).
Proof.
  unfold Spec.persisted. rewrite clean_chars. repeat split.
  - intros H. apply list_elem_of_omap in H as (c & _ & H). unfold Enhanced.cleaned_char in H.
    destruct (Ascii.eqb c CR); [discriminate |].
    destruct (Ascii.eqb_spec c LF); injection H as H; [discriminate | congruence].
  - intros H. apply list_elem_of_omap in H as (c & _ & H). unfold Enhanced.cleaned_char in H.
    destruct (Ascii.eqb_spec c CR); [discriminate |].
    destruct (Ascii.eqb_spec c LF); injection H as H; [discriminate | congruence].
  - apply chars_inj. unfold strip at 1. rewrite chars_of_chars.
    apply strip_by_fixed.
    unfold Enhanced.clean, replace, strip. rewrite !chars_of_chars.
    apply replace_l_clean_ends; [reflexivity |].
    apply replace_l_clean_ends; [reflexivity |].
    apply strip_by_clean_ends.
Qed.

End Cleaning.

(** C8, as stated, fails: a carriage return on its own is removed and no
    space takes its place, so the two words it separated are joined. *)
Lemma carriage_return_leaves_no_space :
  Enhanced.clean ("a" +:+ String PyStr.CR "b") = "ab"
  /\ Simple.clean ("a" +:+ String PyStr.CR "b") = "ab"
  /\ Spec.clean ("a" +:+ String PyStr.CR "b") = "a b".
Proof. repeat split; reflexivity. Qed.

(** C8, amended: in the row [save_to_csv] writes, every string value is the
    stored value trimmed, with each newline replaced by one space and each
    carriage return removed; so no string written holds a newline or a
    carriage return, and none starts or ends with white space. *)
Theorem save_to_csv_strings_clean (job : JobRecord json) (row : JobRecord string) :
  fields (Enhanced.csv_row job) = Enhanced.clean_value <$> fields job
  /\ Forall Spec.persisted_value (fields (Enhanced.csv_row job))
  /\ fields (Simple.csv_row row) = Simple.clean <$> fields row
  /\ Forall Spec.persisted (fields (Simple.csv_row row))
  /\ (forall s, PyStr.chars (Enhanced.clean s)
                = omap Enhanced.cleaned_char (PyStr.chars (PyStr.strip s)))
  /\ (forall s, Simple.clean s = Enhanced.clean s).
Proof.
  split; [reflexivity |]. split.
  - unfold Enhanced.csv_row, fields; simpl.
    repeat (apply Forall_cons; split);
      try (match goal with |- Spec.persisted_value (Enhanced.clean_value ?v) =>
             destruct v; simpl; try exact I; apply clean_persisted end).
    apply Forall_nil. exact I.
  - split; [reflexivity |]. split.
    + unfold Simple.csv_row, fields; simpl.
      repeat (apply Forall_cons; split); try apply clean_persisted.
      apply Forall_nil. exact I.
    + split; [apply clean_chars | reflexivity].
Qed.

(** ** Classification of a response: [is_job_data] *)

Lemma has_job_field_spec (d : list (string * json)) :
  Enhanced.has_job_field d = true <->
  exists field, field ∈ Enhanced.job_fields /\ Py.has_key field d = true.
Proof.
  unfold Enhanced.has_job_field. rewrite existsb_exists.
  split; intros (f & H1 & H2); exists f; split; try assumption;
    now apply list_elem_of_In.
Qed.

Lemma holds_some_list_spec (d : list (string * json)) :
  existsb (Enhanced.holds_list d) Enhanced.job_containers = true <->
  exists container l, container ∈ Enhanced.job_containers
    /\ Py.has_key container d = true /\ Py.get d container = JList l.
Proof.
  rewrite existsb_exists. unfold Enhanced.holds_list. split.
  - intros (c & Hin & H). apply andb_true_iff in H as [Hk Hl].
    destruct (Py.get d c) as [| | | | | l |] eqn:E; try discriminate.
    exists c, l. split; [now apply list_elem_of_In | now split].
  - intros (c & l & Hin & Hk & Hl). exists c. split; [now apply list_elem_of_In |].
    now rewrite Hk, Hl.
Qed.

(** C4, as stated, fails: a dict whose container key holds an empty list is
    classified as job data, although the list under the key is not a list
    of job-like objects and the dict has no job-identifying key. *)
Lemma empty_container_is_job_data :
  Enhanced.is_job_data (JDict [("jobPostings", JList [])]) = true
  /\ Spec.is_job_data (JDict [("jobPostings", JList [])]) = false.
Proof. split; reflexivity. Qed.

(** C4, amended: [is_job_data] holds of a value exactly when it is a
    non-empty list whose first element is an object with one of the keys
    title, location, id, jobTitle, position, or a dict with one of the keys
    jobPostings, jobs, data, results, items whose value is a list (any list,
    also an empty one), or a dict with one of the job-identifying keys; the
    dict [{"status": "ok"}] is not job data. *)
Theorem is_job_data_iff (data : json) :
  (Enhanced.is_job_data data = true <->
     (exists d rest field, data = JList (JDict d :: rest)
        /\ field ∈ Enhanced.job_fields /\ Py.has_key field d = true)
     \/ (exists d container l, data = JDict d
        /\ container ∈ Enhanced.job_containers
        /\ Py.has_key container d = true /\ Py.get d container = JList l)
     \/ (exists d field, data = JDict d
        /\ field ∈ Enhanced.job_fields /\ Py.has_key field d = true))
  /\ Enhanced.is_job_data (JDict [("status", JStr "ok")]) = false.
Proof.
  split; [| reflexivity]. split.
  - destruct data as [| | | | | l | d]; unfold Enhanced.is_job_data; try discriminate.
    + destruct l as [| first_item rest]; [discriminate |].
      destruct first_item as [| | | | | | d]; try discriminate.
      intros H. apply has_job_field_spec in H as (f & ? & ?).
      left. now exists d, rest, f.
    + destruct (existsb (Enhanced.holds_list d) Enhanced.job_containers) eqn:E.
      * intros _. apply holds_some_list_spec in E as (c & l & ? & ? & ?).
        right; left. now exists d, c, l.
      * intros H. apply has_job_field_spec in H as (f & ? & ?).
        right; right. now exists d, f.
  - intros [(d & rest & f & -> & Hin & Hk) | [(d & c & l & -> & Hin & Hk & Hl)
                                             | (d & f & -> & Hin & Hk)]];
      unfold Enhanced.is_job_data.
    + apply has_job_field_spec. now exists f.
    + assert (existsb (Enhanced.holds_list d) Enhanced.job_containers = true) as ->;
        [| reflexivity].
      apply holds_some_list_spec. now exists c, l.
    + destruct (existsb _ _); [reflexivity |].
      apply has_job_field_spec. now exists f.
Qed.

(** ** Transport: retries that all fail *)

Section Retries.
Import Transport.
Variable max_retries : Z.
Variable tries : nat -> attempt.

Lemma in_step_S (todo attempt : nat) :
  in_step max_retries (S todo) attempt -> in_step max_retries todo (S attempt).
Proof. unfold in_step. lia. Qed.

Lemma in_step_sleeps (todo attempt : nat) :
  in_step max_retries (S todo) attempt ->
  (Z.of_nat attempt <? max_retries - 1) = negb (Nat.eqb todo 0).
Proof.
  unfold in_step. intros H. destruct todo; simpl.
  - apply Z.ltb_ge. lia.
  - apply Z.ltb_lt. lia.
Qed.

Lemma enhanced_retries_fail (method : Enhanced.http_method) (todo attempt : nat) :
  method <> Enhanced.Unsupported ->
  in_step max_retries todo attempt ->
  (forall i, (i < Z.to_nat max_retries)%nat -> http_error (tries i)) ->
  exists tr,
    Enhanced.make_request_from max_retries method tries todo attempt
      = (Returned None, tr)
    /\ sleeps tr = Z.of_nat <$> seq (S attempt) (todo - 1).
Proof.
  intros Hm. revert attempt.
  induction todo as [| todo IH]; intros attempt Hstep Hfail; simpl.
  - now exists [].
  - destruct (IH (S attempt) (in_step_S _ _ Hstep) Hfail) as (tr & E & Hs).
    rewrite E, (in_step_sleeps _ _ Hstep).
    assert (exists tr', (Returned (A:=option response) None,
               (if negb (Nat.eqb todo 0) then Slept (Z.of_nat attempt + 1) else GaveUp)
                 :: tr) = (Returned None, tr')
             /\ sleeps tr' = Z.of_nat <$> seq (S attempt) (todo - 0)) as Hretry.
    { eexists; split; [reflexivity |].
      destruct todo as [| todo']; simpl in *; [exact Hs |].
      unfold sleeps in *. simpl. rewrite Nat.sub_0_r in Hs.
      f_equal; [lia | exact Hs]. }
    assert (http_error (tries attempt)) as Ha
      by (apply Hfail; unfold in_step in Hstep; lia).
    destruct method; try congruence;
      destruct (tries attempt) as [| r]; simpl in Ha; try rewrite Ha; exact Hretry.
Qed.

Lemma simple_retries_fail (todo attempt : nat) :
  in_step max_retries todo attempt ->
  (forall i, (i < Z.to_nat max_retries)%nat -> http_error (tries i)) ->
  exists tr,
    Simple.make_request_from max_retries tries todo attempt = (None, tr)
    /\ sleeps tr = Z.of_nat <$> seq (S attempt) (todo - 1).
Proof.
  revert attempt.
  induction todo as [| todo IH]; intros attempt Hstep Hfail; simpl.
  - now exists [].
  - destruct (IH (S attempt) (in_step_S _ _ Hstep) Hfail) as (tr & E & Hs).
    rewrite E, (in_step_sleeps _ _ Hstep).
    assert (exists tr', (None (A:=response),
               (if negb (Nat.eqb todo 0) then Slept (Z.of_nat attempt + 1) else GaveUp)
                 :: tr) = (None, tr')
             /\ sleeps tr' = Z.of_nat <$> seq (S attempt) (todo - 0)) as Hretry.
    { eexists; split; [reflexivity |].
      destruct todo as [| todo']; simpl in *; [exact Hs |].
      unfold sleeps in *. simpl. rewrite Nat.sub_0_r in Hs.
      f_equal; [lia | exact Hs]. }
    assert (http_error (tries attempt)) as Ha
      by (apply Hfail; unfold in_step in Hstep; lia).
    destruct (tries attempt) as [| r]; simpl in Ha; try rewrite Ha; exact Hretry.
Qed.

Lemma workday_retries_fail (todo attempt : nat) :
  in_step max_retries todo attempt ->
  (forall i, (i < Z.to_nat max_retries)%nat -> no_data (tries i)) ->
  exists tr,
    Workday.make_api_request_from max_retries tries todo attempt = (None, tr)
    /\ sleeps tr = Z.of_nat <$> seq (S attempt) (todo - 1).
Proof.
  revert attempt.
  induction todo as [| todo IH]; intros attempt Hstep Hfail; simpl.
  - now exists [].
  - destruct (IH (S attempt) (in_step_S _ _ Hstep) Hfail) as (tr & E & Hs).
    rewrite E, (in_step_sleeps _ _ Hstep).
    assert (exists tr', (None (A:=json),
               if negb (Nat.eqb todo 0) then Slept (Z.of_nat attempt + 1) :: tr else tr)
               = (None, tr')
             /\ sleeps tr' = Z.of_nat <$> seq (S attempt) (todo - 0)) as Hretry.
    { eexists; split; [reflexivity |].
      destruct todo as [| todo']; simpl in *; [exact Hs |].
      unfold sleeps in *. simpl. rewrite Nat.sub_0_r in Hs.
      f_equal; [lia | exact Hs]. }
    assert (no_data (tries attempt)) as Ha
      by (apply Hfail; unfold in_step in Hstep; lia).
    destruct (tries attempt) as [| r]; simpl in Ha; [exact Hretry |].
    destruct (Z.eqb_spec (status_code r) 200) as [E200 | _]; [| exact Hretry].
    destruct Ha as [Ha | Ha]; [congruence |]. rewrite Ha. exact Hretry.
Qed.

End Retries.

(** C7, as stated, fails: [make_request] takes an answer whose status is
    outside 2xx and is not a 4xx or 5xx (here 304) for a success and returns
    it, at the first attempt, instead of retrying and returning [None]. *)
Lemma not_modified_is_returned :
  (forall i, Spec.attempt_fails (Sample.not_modified i))
  /\ (Enhanced.make_request 3 Enhanced.GET Sample.not_modified).1
     = Transport.Returned (Some (Transport.mkResponse 304 None))
  /\ (Simple.make_request 3 Sample.not_modified).1
     = Some (Transport.mkResponse 304 None).
Proof.
  split; [| split; reflexivity].
  intros i. simpl. lia.
Qed.

Section Exhausted.
Import Transport.
Context {rt : Runtime}.
Variable max_retries : Z.

(** C7, amended: when each of the [max_retries] attempts ends in a
    network-level failure or a 4xx or 5xx status, [make_request] (of the
    enhanced and of the simple scraper) returns [None] and raises nothing,
    having slept [delay * 1], ..., [delay * (max_retries - 1)], once between
    two consecutive attempts; [make_api_request] does the same when each
    attempt ends in a network-level failure, a status other than 200 or a
    body that does not decode.  The callers take [None] for a page without
    data: [fetch_json] has nothing to offer, and the paging loop of the
    Workday scraper returns what it has gathered. *)
Theorem exhausted_retries_return_none (tries : nat -> attempt) :
  ((forall i, (i < Z.to_nat max_retries)%nat -> http_error (tries i)) ->
     (forall method, method <> Enhanced.Unsupported ->
        exists tr, Enhanced.make_request max_retries method tries = (Returned None, tr)
                   /\ sleeps tr = backoff (Z.to_nat max_retries - 1))
     /\ (exists tr, Simple.make_request max_retries tries = (None, tr)
                    /\ sleeps tr = backoff (Z.to_nat max_retries - 1))
     /\ (forall wire endpoint p, wire endpoint p = tries ->
           Enhanced.fetch_json max_retries wire endpoint p = None))
  /\ ((forall i, (i < Z.to_nat max_retries)%nat -> no_data (tries i)) ->
        (exists tr, Workday.make_api_request max_retries tries = (None, tr)
                    /\ sleeps tr = backoff (Z.to_nat max_retries - 1))
        /\ (forall base_url company_name api_url wire all_jobs offset,
              wire api_url offset Workday.limit = tries ->
              Workday.page_turn base_url company_name api_url max_retries wire
                                (all_jobs, offset)
              = Returned (Return all_jobs))).
Proof.
  assert (in_step max_retries (Z.to_nat max_retries) 0) as Hstep
    by (unfold in_step; lia).
  split; intros Hfail.
  - assert (forall method, method <> Enhanced.Unsupported ->
        exists tr, Enhanced.make_request max_retries method tries = (Returned None, tr)
                   /\ sleeps tr = backoff (Z.to_nat max_retries - 1)) as Hreq
      by (intros method Hm;
          apply (enhanced_retries_fail max_retries tries method _ 0 Hm Hstep Hfail)).
    split; [exact Hreq |]. split.
    + apply (simple_retries_fail max_retries tries _ 0 Hstep Hfail).
    + intros wire endpoint p Hw. unfold Enhanced.fetch_json. rewrite Hw.
      destruct (Hreq Enhanced.GET) as (tr & -> & _); [discriminate | reflexivity].
  - destruct (workday_retries_fail max_retries tries _ 0 Hstep Hfail) as (tr & E & Hs).
    split; [now exists tr |].
    intros base_url company_name api_url wire all_jobs offset Hw.
    unfold Workday.page_turn, Workday.make_api_request. now rewrite Hw, E.
Qed.

End Exhausted.

(** The theorem at three attempts that are all answered 503: two sleeps,
    of one and of two delays. *)
Lemma exhausted_retries_witness :
  (forall i, (i < Z.to_nat 3)%nat -> Transport.http_error (Sample.unavailable i))
  /\ (exists tr, Enhanced.make_request 3 Enhanced.GET Sample.unavailable
                 = (Transport.Returned None, tr)
                 /\ Transport.sleeps tr = [1; 2])
  /\ (exists tr, Workday.make_api_request 3 Sample.unavailable = (None, tr)
                 /\ Transport.sleeps tr = [1; 2]).
Proof.
  assert (forall i, (i < Z.to_nat 3)%nat -> Transport.http_error (Sample.unavailable i))
    as H by (intros i _; reflexivity).
  split; [exact H |].
  destruct (exhausted_retries_return_none (rt:=Sample.runtime) 3 Sample.unavailable)
    as [He Hw].
  split.
  - destruct (He H) as (Hreq & _). apply Hreq. discriminate.
  - apply Hw. intros i _. simpl. left. discriminate.
Defined.

(** ** Markup strategy: duplicates *)

Section Dedup.
Import Simple.
Implicit Types (seen : gset (string * string)) (jobs : list (JobRecord string)).

Lemma fresh_after seen (k k' : string * string) :
  k ∉ seen -> k' <> k -> k ∉ ({[k']} ∪ seen : gset (string * string)).
Proof.
  intros Hk Hne. apply not_elem_of_union. split; [| exact Hk].
  apply not_elem_of_singleton. congruence.
Qed.

Lemma unique_from_sublist seen jobs : sublist (unique_from seen jobs) jobs.
Proof.
  revert seen. induction jobs as [| job rest IH]; intros seen; simpl.
  - constructor.
  - destruct (decide (key job ∈ seen)).
    + apply sublist_cons, IH.
    + apply sublist_skip, IH.
Qed.

Lemma unique_from_fresh seen jobs job :
  job ∈ unique_from seen jobs -> key job ∉ seen.
Proof.
  revert seen. induction jobs as [| j rest IH]; intros seen; simpl.
  - intros H. inversion H.
  - destruct (decide (key j ∈ seen)) as [Hin | Hout].
    + apply IH.
    + intros H. apply elem_of_cons in H as [-> | H]; [exact Hout |].
      apply IH in H. intros Hs. apply H, elem_of_union_r, Hs.
Qed.

Lemma unique_from_NoDup seen jobs : NoDup (key <$> unique_from seen jobs).
Proof.
  revert seen. induction jobs as [| j rest IH]; intros seen; simpl.
  - constructor.
  - destruct (decide (key j ∈ seen)) as [Hin | Hout]; [apply IH |].
    simpl. constructor; [| apply IH].
    intros H. apply list_elem_of_fmap in H as (j' & E & H).
    apply unique_from_fresh in H. apply H, elem_of_union_l, elem_of_singleton.
    now symmetry.
Qed.




End Dedup.



(** What [parse_jobs_from_html] returns holds no two records with one
    [(title, url)] pair. *)
Lemma parse_jobs_from_html_no_duplicates `{rt : Runtime} (base_url : string)
    (all_elements : list Simple.element) :
  NoDup (Simple.key <$> Simple.parse_jobs_from_html base_url all_elements).
Proof. apply unique_from_NoDup. Qed.

(** ** Markup strategy: the title gate *)

Section TitleGate.
Context {rt : Runtime}.
Variable base_url : string.

(** C10: [extract_job_from_element] returns a record only if the title it
    found, cut to its first 200 characters and then trimmed, is longer than
    3 characters; the record holds the cut title.  An element whose title
    trims to at most 3 characters yields no record. *)
Theorem extract_job_title_gate (e : Simple.element) :
  (forall r, Simple.extract_job_from_element base_url e = Some r ->
     title r = PyStr.slice_to 200 (Simple.title_text e)
     /\ (PyStr.len (title r) <= 200)%nat
     /\ (3 < PyStr.len (PyStr.strip (title r)))%nat)
  /\ ((PyStr.len (PyStr.strip (PyStr.slice_to 200 (Simple.title_text e))) <= 3)%nat ->
      Simple.extract_job_from_element base_url e = None).
Proof.
  unfold Simple.extract_job_from_element.
  set (t := PyStr.slice_to 200 (Simple.title_text e)).
  destruct (Simple.element_url base_url e) as [u |]; cbn [mbind option_bind];
    [| split; [discriminate | reflexivity]].
  destruct (Nat.ltb_spec 3 (PyStr.len (PyStr.strip t))) as [Hlong | Hshort].
  - split; [| lia].
    destruct (PyStr.nonempty t); simpl; [| discriminate].
    intros r [= <-]. simpl. split; [reflexivity |]. split; [apply len_slice_to | exact Hlong].
  - rewrite andb_false_r. split; [discriminate | reflexivity].
Qed.

End TitleGate.

(** The theorem on two links: the one titled "QA" is dropped, the one
    titled "Site Engineer" is kept with its title. *)
Lemma extract_job_title_gate_witness :
  Simple.extract_job_from_element (rt:=Sample.runtime) Sample.base_url
    (Sample.link "QA" "/job/Dallas-TX/QA_JR1") = None
  /\ (exists r,
        Simple.extract_job_from_element (rt:=Sample.runtime) Sample.base_url
          (Sample.link "Site Engineer" "/job/Dallas-TX/Site-Engineer_JR4032") = Some r
        /\ title r = "Site Engineer"
        /\ (3 < PyStr.len (PyStr.strip (title r)))%nat).
Proof.
  split.
  - apply (extract_job_title_gate (rt:=Sample.runtime)). vm_compute. lia.
  - eexists. split; [vm_compute; reflexivity |]. split; [reflexivity |].
    eapply (extract_job_title_gate (rt:=Sample.runtime) Sample.base_url
              (Sample.link "Site Engineer" "/job/Dallas-TX/Site-Engineer_JR4032")).
    vm_compute. reflexivity.
Defined.

(** ** Normalizers: the title *)

Lemma get_absent (d : list (string * json)) (k : string) :
  Py.has_key k d = false -> Py.get d k = JNull.
Proof.
  unfold Py.has_key, Py.get. now destruct (Py.assoc k d).
Qed.

Lemma first_truthy_None (d : list (string * json)) (fields : list string) :
  Py.first_truthy d fields = None <->
  forall field, field ∈ fields -> Py.truthy (Py.get d field) = false.
Proof.
  induction fields as [| f fs IH]; simpl.
  - split; [intros _ field H; inversion H | reflexivity].
  - destruct (Py.truthy (Py.get d f)) eqn:E; split.
    + discriminate.
    + intros H. specialize (H f (list_elem_of_here _ _)). congruence.
    + intros H field Hin. apply elem_of_cons in Hin as [-> | Hin]; [exact E |].
      now apply IH.
    + intros H. apply IH. intros field Hin. apply H. now right.
Qed.

Lemma first_truthy_Some (d : list (string * json)) (fields : list string) (v : json) :
  Py.first_truthy d fields = Some v -> Py.truthy v = true.
Proof.
  induction fields as [| f fs IH]; simpl; [discriminate |].
  destruct (Py.truthy (Py.get d f)) eqn:E; [| exact IH].
  now intros [= <-].
Qed.

Section Titles.
Context {rt : Runtime}.
Variables (base_url company_name : string).

(** The Workday normalizer returns no record without a title: every record
    it returns holds a non-empty string as its title. *)
Lemma workday_record_titled (job : json) (r : JobRecord json) :
  Workday.process_job_data base_url company_name job = Some r ->
  exists t, title r = JStr t /\ t <> "".
Proof.
  unfold Workday.process_job_data. destruct job as [| | | | | | d]; try discriminate.
  destruct (Workday.extract_job_id d) as [job_id |]; simpl; [| discriminate].
  destruct (Workday.location_text d) as [| | | | s | |]; simpl; try discriminate.
  match goal with |- context [mbind _ ?u] => destruct u as [link |] end;
    simpl; [| discriminate].
  match goal with |- context [PyStr.nonempty ?t] =>
    destruct (PyStr.nonempty t) eqn:E end; [| discriminate].
  intros [= <-]. simpl. eexists. split; [reflexivity |]. now apply nonempty_true.
Qed.

(** A record with none of the title keys is rejected by the Workday
    normalizer. *)
Lemma workday_rejects_untitled (d : list (string * json)) :
  (forall field, field ∈ Workday.title_fields -> Py.has_key field d = false) ->
  Workday.process_job_data base_url company_name (JDict d) = None.
Proof.
  intros H. unfold Workday.process_job_data.
  assert (Py.first_truthy d Workday.title_fields = None) as ->.
  { apply first_truthy_None. intros field Hin. now rewrite get_absent by auto. }
  destruct (Workday.extract_job_id d) as [job_id |]; simpl; [| reflexivity].
  destruct (Workday.location_text d) as [| | | | s | |]; simpl; try reflexivity.
  match goal with |- context [mbind _ ?u] => destruct u as [link |] end; reflexivity.
Qed.

(** C1 at its failing input: the normalizer of the enhanced scraper has no
    title gate.  Given a record with an identifier and none of the title
    keys it returns a record whose title is the empty string, and
    [extract_jobs_from_response] keeps that record. *)
Theorem enhanced_keeps_untitled_record :
  (forall field, field ∈ Workday.title_fields ->
     Py.has_key field [("id", JNum 7)] = false)
  /\ exists r,
       Enhanced.process_job_data base_url Sample.untitled = Some r
       /\ title r = JStr ""
       /\ Enhanced.extract_jobs_from_response base_url
            (JDict [("jobPostings", JList [Sample.untitled])]) = [r].
Proof.
  split.
  - intros field H. repeat (apply elem_of_cons in H as [-> | H]; [reflexivity |]).
    inversion H.
  - eexists. split; [reflexivity |]. split; reflexivity.
Qed.

End Titles.

(** ** Normalizers: the identifier *)

Section Identifiers.
Context {rt : Runtime}.
Variables (base_url company_name : string).

Lemma str_truthy_nonempty (v : json) : Py.truthy v = true -> PyRt.str v <> "".
Proof.
  destruct v as [| [|] | z | q | s | l | d]; simpl; try discriminate; intros H.
  - apply of_int_nonempty.
  - apply repr_nonempty.
  - now apply nonempty_true.
  - apply repr_nonempty.
  - apply repr_nonempty.
Qed.

Lemma str_of_first_truthy_empty (d : list (string * json)) (fields : list string) :
  match Py.first_truthy d fields with Some v => PyRt.str v | None => "" end = "" <->
  forall field, field ∈ fields -> Py.truthy (Py.get d field) = false.
Proof.
  rewrite <- first_truthy_None.
  destruct (Py.first_truthy d fields) as [v |] eqn:E; [| now split].
  split; [| discriminate]. intros H.
  now apply first_truthy_Some, str_truthy_nonempty in E.
Qed.

Lemma bullets_tried_first (d : list (string * json)) :
  (if Py.truthy (Py.get d "bulletFields") && Py.is_list (Py.get d "bulletFields")
   then Workday.id_from_bullets d else "") = Workday.id_from_bullets d.
Proof.
  unfold Workday.id_from_bullets.
  destruct (Py.get d "bulletFields") as [| [|] | z | q | s | [| x l] | fd];
    simpl; try reflexivity;
    match goal with |- (if ?b then _ else _) = _ => now destruct b end.
Qed.

(** The identifier is the first non-empty result of the three methods, in
    the order bullet fields, external path, identifier fields. *)
Lemma extract_job_id_priority (d : list (string * json)) (id : string) :
  Workday.extract_job_id d = Some id ->
  id = Workday.first_nonempty
         [Workday.id_from_bullets d; Workday.id_from_external_path d;
          Workday.id_from_fields d].
Proof.
  unfold Workday.extract_job_id, Workday.first_nonempty. rewrite bullets_tried_first.
  unfold Workday.id_from_external_path.
  set (bullet := Workday.id_from_bullets d). set (field := Workday.id_from_fields d).
  assert (forall path,
            Some (if negb (PyStr.nonempty path) then field else path) = Some id ->
            id = default "" (find PyStr.nonempty [""; path; field])) as Hrest.
  { intros path [= <-]. simpl.
    destruct (PyStr.nonempty path); simpl; [reflexivity |].
    destruct (PyStr.nonempty field) eqn:Ef; [reflexivity |].
    now apply nonempty_false in Ef. }
  destruct (PyStr.nonempty bullet) eqn:Eb.
  - simpl. rewrite Eb. simpl. now intros [= <-].
  - apply nonempty_false in Eb as ->. simpl negb. rewrite andb_true_l.
    destruct (Py.get d "externalPath") as [| [|] | z | q | path | l | fd];
      simpl Py.truthy.
    + apply (Hrest "").
    + discriminate.
    + apply (Hrest "").
    + destruct (negb (z =? 0)); [discriminate | apply (Hrest "")].
    + destruct (negb (Qnum q =? 0)); [discriminate | apply (Hrest "")].
    + destruct path as [| c path]; [apply (Hrest "") | apply Hrest].
    + destruct l; [apply (Hrest "") | discriminate].
    + destruct fd; [apply (Hrest "") | discriminate].
Qed.

Lemma first_nonempty_empty (candidates : list string) :
  Workday.first_nonempty candidates = "" -> Forall (fun s => s = "") candidates.
Proof.
  unfold Workday.first_nonempty.
  induction candidates as [| s l IH]; simpl; [constructor |].
  destruct (PyStr.nonempty s) eqn:E; simpl.
  - intros ->. discriminate.
  - intros H. constructor; [now apply nonempty_false | now apply IH].
Qed.

End Identifiers.

(** C3, as stated, fails.  The Workday normalizer tries the path before
    the identifier fields: of a record with [id] 123 and a path ending in
    JR4032 it makes the identifier JR4032.  It has no method that reads the
    URL: a record with nothing but a URL gets an empty identifier. *)
Lemma job_id_order_differs :
  (exists r d,
      Sample.two_ids = JDict d
      /\ Workday.process_job_data (rt:=Sample.runtime) Sample.base_url "Pultegroup"
           Sample.two_ids = Some r
      /\ job_id r = JStr "JR4032"
      /\ Spec.job_id d (Workday.id_from_fields (rt:=Sample.runtime) d)
           "https://pultegroup.wd1.myworkdayjobs.com/job/Dallas-TX/Site-Engineer_JR4032"
         = "123")
  /\ (exists r d,
        Sample.url_only = JDict d
        /\ Workday.process_job_data (rt:=Sample.runtime) Sample.base_url "Pultegroup"
             Sample.url_only = Some r
        /\ job_id r = JStr ""
        /\ url r = JStr "https://pultegroup.wd1.myworkdayjobs.com/PGI/job/JR77"
        /\ Spec.job_id d (Workday.id_from_fields (rt:=Sample.runtime) d)
             "https://pultegroup.wd1.myworkdayjobs.com/PGI/job/JR77" = "JR77").
Proof.
  split; eexists; eexists; (split; [reflexivity |]);
    (split; [vm_compute; reflexivity |]); repeat split; reflexivity.
Qed.

(** The normalizer of the enhanced scraper has the identifier fields as its
    only method, and one field fewer: on the record of the specification's
    scenario, from whose path the Workday normalizer derives JR4032, it
    leaves the identifier empty. *)
Lemma enhanced_misses_path_identifier :
  exists r r',
    Enhanced.process_job_data (rt:=Sample.runtime) Sample.base_url
      Sample.site_engineer = Some r
    /\ job_id r = JStr ""
    /\ Workday.process_job_data (rt:=Sample.runtime) Sample.base_url "Pultegroup"
         Sample.site_engineer = Some r'
    /\ job_id r' = JStr "JR4032".
Proof.
  eexists. eexists. split; [vm_compute; reflexivity |]. split; [reflexivity |].
  split; [vm_compute; reflexivity | reflexivity].
Qed.

Section IdentifierOrder.
Context {rt : Runtime}.
Variables (base_url company_name : string).

(** C3, amended: the Workday normalizer chooses the identifier of a record
    it returns by trying first the bullet fields (the first entry that is a
    non-blank string, trimmed), then [externalPath] (the part after the last
    underscore, else the last path segment), then the identifier fields id,
    jobId, postingId, requisitionId, externalJobId in order; the identifier
    is empty only if each of the three yields nothing.  It does not derive
    an identifier from the URL it builds. *)
Theorem job_id_by_priority (d : list (string * json)) (r : JobRecord json) :
  Workday.process_job_data base_url company_name (JDict d) = Some r ->
  job_id r = JStr (Workday.first_nonempty
                     [Workday.id_from_bullets d; Workday.id_from_external_path d;
                      Workday.id_from_fields d])
  /\ (job_id r = JStr "" ->
      Workday.id_from_bullets d = ""
      /\ Workday.id_from_external_path d = ""
      /\ forall field, field ∈ Workday.id_fields ->
           Py.truthy (Py.get d field) = false).
Proof.
  unfold Workday.process_job_data.
  destruct (Workday.extract_job_id d) as [id |] eqn:Eid; simpl; [| discriminate].
  destruct (Workday.location_text d) as [| | | | s | |]; simpl; try discriminate.
  match goal with |- context [mbind _ ?u] => destruct u as [link |] end;
    simpl; [| discriminate].
  match goal with |- context [PyStr.nonempty ?t] =>
    destruct (PyStr.nonempty t) end; [| discriminate].
  intros [= <-]. simpl. apply extract_job_id_priority in Eid. subst id.
  split; [reflexivity |]. intros [= E].
  apply first_nonempty_empty in E.
  apply Forall_cons in E as [Eb E]. apply Forall_cons in E as [Ep E].
  apply Forall_cons in E as [Ef _].
  split; [exact Eb |]. split; [exact Ep |].
  now apply str_of_first_truthy_empty.
Qed.

End IdentifierOrder.

(** The theorem on the record with two identifiers: the path wins. *)
Lemma job_id_by_priority_witness :
  exists r,
    Workday.process_job_data (rt:=Sample.runtime) Sample.base_url "Pultegroup"
      (JDict Sample.two_ids_fields) = Some r
    /\ job_id r
       = JStr (Workday.first_nonempty
                 [Workday.id_from_bullets Sample.two_ids_fields;
                  Workday.id_from_external_path Sample.two_ids_fields;
                  Workday.id_from_fields (rt:=Sample.runtime) Sample.two_ids_fields])
    /\ job_id r = JStr "JR4032".
Proof.
  eexists. split; [vm_compute; reflexivity |].
  split; [| reflexivity].
  refine (proj1 (job_id_by_priority (rt:=Sample.runtime) Sample.base_url
                   "Pultegroup" Sample.two_ids_fields _ _)).
  vm_compute. reflexivity.
Defined.

(** ** Paging: when an iteration stops *)

(** C2: the loops compare the number of normalized records, not of raw
    records, with the page size.  A full page of 20 raw records of which
    the normalizer drops one yields 19 records: the page is neither empty
    nor short, and the loop stops, reporting fewer jobs than the limit.
    Against an upstream of 40 records whose twentieth is dropped, each
    scraper returns 19 records after one iteration and never asks for the
    20 records behind them. *)
Theorem full_page_with_dropped_record_stops :
  (exists jobs,
      Workday.page_turn (rt:=Sample.runtime) Sample.base_url "Pultegroup"
        Sample.api_url 3 (fun _ _ _ _ => Sample.ok Sample.page_with_untitled) ([], 0)
      = Transport.Returned (Return jobs)
      /\ Workday.page_records (rt:=Sample.runtime) Sample.base_url "Pultegroup"
           Sample.api_url 3 (fun _ _ _ _ => Sample.ok Sample.page_with_untitled) 0
         = Transport.Returned jobs
      /\ length jobs = 19%nat
      /\ length (Workday.raw_postings Sample.page_with_untitled) = 20%nat
      /\ ~ Spec.stops (Workday.raw_postings Sample.page_with_untitled) jobs 20)
  /\ (exists jobs,
        Enhanced.page_turn (rt:=Sample.runtime) Sample.base_url 3
          (fun _ _ _ => Sample.ok Sample.page_with_null) Sample.api_url
          (Enhanced.mkCursor [] 0 1)
        = Return jobs
        /\ length jobs = 19%nat
        /\ length (Enhanced.raw_jobs Sample.page_with_null) = 20%nat
        /\ ~ Spec.stops (Enhanced.raw_jobs Sample.page_with_null) jobs 20)
  /\ (length Sample.forty_with_untitled = 40%nat
      /\ exists jobs,
           Workday.scrape_jobs_api (rt:=Sample.runtime) Sample.base_url "Pultegroup"
             Sample.api_url 3 (Sample.workday_wire Sample.forty_with_untitled) 3
           = Some (Transport.Returned jobs, 1%nat)
           /\ length jobs = 19%nat)
  /\ (length Sample.forty_with_null = 40%nat
      /\ exists jobs,
           Enhanced.paginate_api_endpoint (rt:=Sample.runtime) Sample.base_url 3
             (Sample.enhanced_wire Sample.forty_with_null) Sample.api_url 3
           = Some (jobs, 1%nat)
           /\ length jobs = 19%nat).
Proof.
  split; [| split; [| split]].
  - eexists. split; [vm_compute; reflexivity |].
    split; [vm_compute; reflexivity |]. split; [reflexivity |].
    split; [reflexivity |]. intros [H | H]; [discriminate | vm_compute in H; discriminate].
  - eexists. split; [vm_compute; reflexivity |].
    split; [reflexivity |]. split; [reflexivity |].
    intros [H | H]; [discriminate | vm_compute in H; discriminate].
  - split; [reflexivity |]. eexists. split; vm_compute; reflexivity.
  - split; [reflexivity |]. eexists. split; vm_compute; reflexivity.
Qed.

Section PageTurn.
Import Transport.
Context {rt : Runtime}.
Variables (base_url company_name api_url : string) (max_retries : Z).

Lemma first_jobs_nonempty wire endpoint param_sets jobs :
  Enhanced.first_jobs base_url max_retries wire endpoint param_sets = Some jobs ->
  jobs <> [].
Proof.
  induction param_sets as [| p rest IH]; simpl; [discriminate |].
  destruct (Enhanced.fetch_json max_retries wire endpoint p) as [data |]; [| exact IH].
  destruct (Enhanced.extract_jobs_from_response base_url data) as [| job jobs'];
    [exact IH |].
  now intros [= <-].
Qed.

(** The test the loops make: an iteration stops exactly when its page
    yields no normalized record or fewer normalized records than the page
    size of 20; otherwise it appends the page's records, advances the
    offset by the page size and goes on.  In the Workday scraper a request
    that fails and a falsy body count as a page without records; in the
    enhanced scraper the page's records are those of the first of the four
    parameter shapes that yields any. *)
Lemma page_turn_stops_iff :
  (forall wire all_jobs offset jobs,
     Workday.page_records base_url company_name api_url max_retries wire offset
       = Returned jobs ->
     (jobs = [] \/ Z.of_nat (length jobs) < 20 ->
      Workday.page_turn base_url company_name api_url max_retries wire (all_jobs, offset)
        = Returned (Return (all_jobs ++ jobs)))
     /\ (jobs <> [] /\ 20 <= Z.of_nat (length jobs) ->
         Workday.page_turn base_url company_name api_url max_retries wire
           (all_jobs, offset)
         = Returned (Continue (all_jobs ++ jobs, offset + 20))))
  /\ (forall wire endpoint c jobs,
        Enhanced.page_records base_url max_retries wire endpoint c = jobs ->
        (jobs = [] \/ Z.of_nat (length jobs) < 20 ->
         Enhanced.page_turn base_url max_retries wire endpoint c
           = Return (Enhanced.all_jobs c ++ jobs))
        /\ (jobs <> [] /\ 20 <= Z.of_nat (length jobs) ->
            Enhanced.page_turn base_url max_retries wire endpoint c
            = Continue (Enhanced.mkCursor (Enhanced.all_jobs c ++ jobs)
                          (Enhanced.offset c + 20) (Enhanced.page c + 1)))).
Proof.
  split.
  - intros wire all_jobs offset jobs. unfold Workday.page_records, Workday.page_turn.
    destruct (Workday.make_api_request max_retries _).1 as [result |].
    + destruct (Py.truthy result); simpl.
      * destruct (Workday.extract_jobs_from_api_response _ _ _) as [found |];
          [| discriminate].
        intros [= ->]. destruct jobs as [| job jobs'].
        -- rewrite app_nil_r. split; [reflexivity | intros [? _]; congruence].
        -- unfold Workday.limit.
           destruct (Z.ltb_spec (Z.of_nat (length (job :: jobs'))) 20); split;
             try reflexivity; try (intros [? | ?]; [discriminate | lia]); intros [_ ?]; lia.
      * intros [= <-]. rewrite app_nil_r.
        split; [reflexivity | intros [? _]; congruence].
    + intros [= <-]. rewrite app_nil_r.
      split; [reflexivity | intros [? _]; congruence].
  - intros wire endpoint c jobs. unfold Enhanced.page_records, Enhanced.page_turn.
    destruct (Enhanced.first_jobs _ _ _ _ _) as [found |] eqn:E; simpl.
    + apply first_jobs_nonempty in E. intros ->. unfold Enhanced.limit.
      destruct (Z.ltb_spec (Z.of_nat (length jobs)) 20); split;
        try reflexivity; try (intros [? | ?]; [congruence | lia]); intros [_ ?]; lia.
    + intros <-. rewrite app_nil_r.
      split; [reflexivity | intros [? _]; congruence].
Qed.

End PageTurn.

(** The test on the full page with an untitled record: 19 records are
    fewer than 20, the loop returns them. *)
Lemma page_turn_stops_witness :
  exists jobs,
    Workday.page_records (rt:=Sample.runtime) Sample.base_url "Pultegroup"
      Sample.api_url 3 (fun _ _ _ _ => Sample.ok Sample.page_with_untitled) 0
    = Transport.Returned jobs
    /\ (jobs = [] \/ Z.of_nat (length jobs) < 20)
    /\ Workday.page_turn (rt:=Sample.runtime) Sample.base_url "Pultegroup"
         Sample.api_url 3 (fun _ _ _ _ => Sample.ok Sample.page_with_untitled) ([], 0)
       = Transport.Returned (Return ([] ++ jobs)).
Proof.
  eexists.
  assert (Workday.page_records (rt:=Sample.runtime) Sample.base_url "Pultegroup"
            Sample.api_url 3 (fun _ _ _ _ => Sample.ok Sample.page_with_untitled) 0
          = Transport.Returned _) as H by (vm_compute; reflexivity).
  split; [exact H |].
  assert (forall A (l : list A), length l = 19%nat -> l = [] \/ Z.of_nat (length l) < 20)
    as Hshort by (intros A l ->; right; lia).
  split; [apply Hshort; reflexivity |].
  apply (proj1 (proj1 (page_turn_stops_iff (rt:=Sample.runtime) Sample.base_url
                         "Pultegroup" Sample.api_url 3) _ [] 0 _ H)).
  apply Hshort; reflexivity.
Defined.

(** ** Paging: the number of iterations *)

Lemma length_omap_le {A B : Type} (f : A -> option B) (l : list A) :
  (length (omap f l) <= length l)%nat.
Proof.
  induction l as [| x l IH]; [simpl; lia |].
  change (omap f (x :: l))
    with (match f x with Some y => y :: omap f l | None => omap f l end).
  destruct (f x); simpl; lia.
Qed.

Section Halting.
Import Transport.
Context {rt : Runtime}.
Variables (base_url company_name api_url : string) (max_retries : Z).
Variable records : list json.

Lemma remaining_next (offset : Z) :
  0 <= offset -> (20 <= remaining records offset)%nat ->
  remaining records (offset + 20) = (remaining records offset - 20)%nat.
Proof.
  unfold remaining. rewrite !length_drop. lia.
Qed.

Lemma slice_length (offset : Z) :
  (length (take (Z.to_nat 20) (drop (Z.to_nat offset) records)) <= remaining records offset)%nat.
Proof. unfold remaining. rewrite length_take. lia. Qed.

Section WorkdayLoop.
Variable wire : string -> Z -> Z -> nat -> attempt.
Hypothesis served : Workday.serves api_url max_retries wire records.

(** On a served page the loop returns, or goes on past a full page. *)
Lemma workday_turn_served (all_jobs : list (JobRecord json)) (offset : Z) :
  0 <= offset ->
  (exists jobs,
      Workday.page_turn base_url company_name api_url max_retries wire
        (all_jobs, offset) = Returned (Return jobs))
  \/ (exists jobs,
        Workday.page_turn base_url company_name api_url max_retries wire
          (all_jobs, offset) = Returned (Continue (jobs, offset + 20))
        /\ (20 <= remaining records offset)%nat).
Proof.
  intros Hoff. unfold Workday.page_turn.
  destruct (Workday.make_api_request max_retries _).1 as [result |] eqn:Ereq;
    [| left; eauto].
  destruct (served offset result Hoff Ereq) as (d & -> & Eraw).
  destruct (Py.truthy (JDict d)); simpl negb; cbv iota; [| left; eauto].
  unfold Workday.extract_jobs_from_api_response. rewrite Eraw.
  pose proof (slice_length offset) as Hlen. unfold Workday.limit.
  destruct (take (Z.to_nat 20) (drop (Z.to_nat offset) records)) as [| x slice] eqn:E;
    simpl Py.truthy; cbv iota; [left; eauto |].
  simpl Py.iter. cbv iota.
  pose proof (length_omap_le (Workday.process_job_data base_url company_name)
                (x :: slice)) as Hjobs.
  destruct (omap _ (x :: slice)) as [| job jobs]; [left; eauto |].
  destruct (Z.ltb_spec (Z.of_nat (length (job :: jobs))) 20); [left; eauto |].
  right. eexists. split; [reflexivity |]. simpl in *. lia.
Qed.

Lemma workday_scrape_from_halts (fuel : nat) :
  forall all_jobs offset,
    0 <= offset -> (remaining records offset < 20 * fuel)%nat ->
    exists jobs n,
      Workday.scrape_from base_url company_name api_url max_retries wire fuel
        (all_jobs, offset) = Some (Returned jobs, n)
      /\ (1 <= n)%nat /\ (20 * (n - 1) <= remaining records offset)%nat.
Proof.
  induction fuel as [| fuel IH]; intros all_jobs offset Hoff Hfuel; [lia |].
  cbn [Workday.scrape_from].
  destruct (workday_turn_served all_jobs offset Hoff) as [(jobs & ->) | (jobs & -> & Hfull)].
  - exists jobs, 1%nat. split; [reflexivity | lia].
  - destruct (IH jobs (offset + 20)) as (res & n & -> & Hn1 & Hn); [lia | |].
    + rewrite remaining_next by assumption. lia.
    + exists res, (S n). split; [reflexivity |].
      rewrite remaining_next in Hn by assumption. lia.
Qed.

End WorkdayLoop.

Section EnhancedLoop.
Variable wire : string -> Enhanced.params -> nat -> attempt.
Variable endpoint : string.
Hypothesis served : Enhanced.serves max_retries wire endpoint records.

Lemma first_jobs_source param_sets jobs :
  Enhanced.first_jobs base_url max_retries wire endpoint param_sets = Some jobs ->
  exists p data,
    p ∈ param_sets /\ Enhanced.fetch_json max_retries wire endpoint p = Some data
    /\ jobs = Enhanced.extract_jobs_from_response base_url data.
Proof.
  induction param_sets as [| p rest IH]; simpl; [discriminate |].
  destruct (Enhanced.fetch_json max_retries wire endpoint p) as [data |] eqn:E.
  - destruct (Enhanced.extract_jobs_from_response base_url data) as [| job found] eqn:Ex.
    + intros H. destruct (IH H) as (p' & data' & ? & ? & ?).
      exists p', data'. split; [now right | now split].
    + intros [= <-]. exists p, data. split; [left | now split].
  - intros H. destruct (IH H) as (p' & data' & ? & ? & ?).
    exists p', data'. split; [now right | now split].
Qed.

Lemma enhanced_turn_served (c : Enhanced.cursor) :
  Enhanced.on_track c ->
  (exists jobs,
      Enhanced.page_turn base_url max_retries wire endpoint c = Return jobs)
  \/ (exists c',
        Enhanced.page_turn base_url max_retries wire endpoint c = Continue c'
        /\ Enhanced.on_track c' /\ Enhanced.offset c' = Enhanced.offset c + 20
        /\ (20 <= remaining records (Enhanced.offset c))%nat).
Proof.
  intros Htrack. unfold Enhanced.page_turn.
  destruct (Enhanced.first_jobs _ _ _ _ _) as [jobs |] eqn:E; [| left; eauto].
  unfold Enhanced.limit.
  destruct (Z.ltb_spec (Z.of_nat (length jobs)) 20); [left; eauto |].
  right. eexists. split; [reflexivity |].
  apply first_jobs_source in E as (p & data & Hp & Hdata & ->).
  pose proof (served c p data Htrack Hp Hdata) as Hraw.
  pose proof (length_omap_le (Enhanced.process_job_data base_url)
                (Enhanced.raw_jobs data)) as Hjobs.
  fold (Enhanced.extract_jobs_from_response base_url data) in Hjobs.
  rewrite Hraw in Hjobs. pose proof (slice_length (Enhanced.offset c)) as Hlen.
  destruct Htrack as [H0 Hpage]. unfold Enhanced.on_track, Enhanced.limit in *. simpl.
  repeat split; lia.
Qed.

Lemma enhanced_paginate_from_halts (fuel : nat) :
  forall c,
    Enhanced.on_track c -> (remaining records (Enhanced.offset c) < 20 * fuel)%nat ->
    exists jobs n,
      Enhanced.paginate_from base_url max_retries wire endpoint fuel c = Some (jobs, n)
      /\ (1 <= n)%nat /\ (20 * (n - 1) <= remaining records (Enhanced.offset c))%nat.
Proof.
  induction fuel as [| fuel IH]; intros c Htrack Hfuel; [lia |].
  cbn [Enhanced.paginate_from].
  destruct (enhanced_turn_served c Htrack)
    as [(jobs & ->) | (c' & -> & Htrack' & Hoff & Hfull)].
  - exists jobs, 1%nat. split; [reflexivity | lia].
  - destruct Htrack as [H0 _].
    destruct (IH c' Htrack') as (res & n & -> & Hn1 & Hn).
    + rewrite Hoff, remaining_next by assumption. lia.
    + exists res, (S n). split; [reflexivity |].
      rewrite Hoff, remaining_next in Hn by assumption. lia.
Qed.

End EnhancedLoop.
End Halting.

Section HaltingBound.
Import Transport.
Context {rt : Runtime}.
Variables (base_url company_name api_url : string) (max_retries : Z).

Lemma pages_bound (N fuel n : nat) :
  ((N + 19) / 20 + 1 <= fuel)%nat ->
  (N < 20 * fuel)%nat
  /\ ((1 <= n)%nat -> (20 * (n - 1) <= N)%nat ->
      (n <= (N + 19) / 20 + 1)%nat /\ (N = 0%nat -> n = 1%nat)).
Proof.
  pose proof (Nat.div_mod_eq (N + 19) 20) as Hdiv.
  pose proof (Nat.mod_upper_bound (N + 19) 20) as Hmod.
  intros Hfuel. split; [lia |]. intros H1 Hn. split; lia.
Qed.

(** Against an upstream that holds exactly N records and answers each
    request, of whichever parameter shape, with the records from the offset
    on, at most 20 of them, the paging loops return, and they do so within
    ceil(N / 20) + 1 iterations (any supply of at least that many
    iterations is enough); when the upstream holds no record they return
    after exactly one iteration. *)
Lemma pagination_halts (records : list json) (fuel : nat) :
  ((length records + 19) / 20 + 1 <= fuel)%nat ->
  (forall wire,
     Workday.serves api_url max_retries wire records ->
     exists jobs n,
       Workday.scrape_jobs_api base_url company_name api_url max_retries wire fuel
         = Some (Returned jobs, n)
       /\ (n <= (length records + 19) / 20 + 1)%nat
       /\ (records = [] -> n = 1%nat))
  /\ (forall wire endpoint,
        Enhanced.serves max_retries wire endpoint records ->
        exists jobs n,
          Enhanced.paginate_api_endpoint base_url max_retries wire endpoint fuel
            = Some (jobs, n)
          /\ (n <= (length records + 19) / 20 + 1)%nat
          /\ (records = [] -> n = 1%nat)).
Proof.
  intros Hfuel.
  assert (remaining records 0 = length records) as Hall
    by (unfold remaining; simpl; now rewrite drop_0).
  split.
  - intros wire Hserved.
    destruct (workday_scrape_from_halts base_url company_name api_url max_retries
                records wire Hserved fuel [] 0) as (jobs & n & E & Hn1 & Hn).
    + lia.
    + rewrite Hall. now apply (pages_bound _ _ 0).
    + exists jobs, n. split; [exact E |]. rewrite Hall in Hn.
      destruct (pages_bound (length records) fuel n Hfuel) as [_ Hb].
      destruct (Hb Hn1 Hn) as [Hle Hzero]. split; [exact Hle |].
      intros ->. now apply Hzero.
  - intros wire endpoint Hserved.
    destruct (enhanced_paginate_from_halts base_url max_retries records wire endpoint
                Hserved fuel (Enhanced.mkCursor [] 0 1))
      as (jobs & n & E & Hn1 & Hn).
    + unfold Enhanced.on_track, Enhanced.limit. simpl. lia.
    + simpl. rewrite Hall. now apply (pages_bound _ _ 0).
    + exists jobs, n. split; [exact E |]. simpl in Hn. rewrite Hall in Hn.
      destruct (pages_bound (length records) fuel n Hfuel) as [_ Hb].
      destruct (Hb Hn1 Hn) as [Hle Hzero]. split; [exact Hle |].
      intros ->. now apply Hzero.
Qed.

End HaltingBound.

Lemma workday_wire_serves (records : list json) :
  Workday.serves Sample.api_url 3 (Sample.workday_wire records) records.
Proof.
  intros offset result _ [= <-]. eexists. split; reflexivity.
Qed.

Lemma enhanced_wire_serves (records : list json) :
  Enhanced.serves 3 (Sample.enhanced_wire records) Sample.api_url records.
Proof.
  intros c p data _ Hp.
  repeat (apply elem_of_cons in Hp as [-> | Hp]); try (inversion Hp; fail);
    try discriminate.
  now intros [= <-].
Qed.

(** The bound on an upstream that holds one record, with two iterations
    allowed: the loop returns in at most two; on an empty upstream it
    returns after one. *)
Lemma pagination_halts_witness :
  ((length [Sample.site_engineer] + 19) / 20 + 1 <= 2)%nat
  /\ Workday.serves Sample.api_url 3 (Sample.workday_wire [Sample.site_engineer])
       [Sample.site_engineer]
  /\ (exists jobs n,
        Workday.scrape_jobs_api (rt:=Sample.runtime) Sample.base_url "Pultegroup"
          Sample.api_url 3 (Sample.workday_wire [Sample.site_engineer]) 2
        = Some (Transport.Returned jobs, n)
        /\ (n <= (length [Sample.site_engineer] + 19) / 20 + 1)%nat
        /\ ([Sample.site_engineer] = [] -> n = 1%nat))
  /\ (exists jobs n,
        Enhanced.paginate_api_endpoint (rt:=Sample.runtime) Sample.base_url 3
          (Sample.enhanced_wire []) Sample.api_url 1
        = Some (jobs, n)
        /\ (n <= (length (@nil json) + 19) / 20 + 1)%nat
        /\ (@nil json = [] -> n = 1%nat)).
Proof.
  assert ((length [Sample.site_engineer] + 19) / 20 + 1 <= 2)%nat as Hfuel
    by (vm_compute; lia).
  split; [exact Hfuel |]. split; [apply workday_wire_serves |]. split.
  - apply (pagination_halts (rt:=Sample.runtime) Sample.base_url "Pultegroup"
             Sample.api_url 3 [Sample.site_engineer] 2 Hfuel).
    apply workday_wire_serves.
  - assert ((length (@nil json) + 19) / 20 + 1 <= 1)%nat as Hfuel0
      by (vm_compute; lia).
    apply (pagination_halts (rt:=Sample.runtime) Sample.base_url "Pultegroup"
             Sample.api_url 3 [] 1 Hfuel0).
    apply enhanced_wire_serves.
Defined.

(** ** Paging: an upstream that ignores unknown parameters *)

Section FirstPage.
Import Transport.

Local Abbreviation records := (replicate 40 Sample.site_engineer).
Local Abbreviation wire := (Sample.first_page_wire records).
Local Abbreviation normalize :=
  (Enhanced.process_job_data (rt:=Sample.runtime) Sample.base_url).
Local Abbreviation page_turn :=
  (Enhanced.page_turn (rt:=Sample.runtime) Sample.base_url 3 wire Sample.api_url).

Lemma omap_replicate {A B : Type} (f : A -> option B) (x : A) (y : B) (n : nat) :
  f x = Some y -> omap f (replicate n x) = replicate n y.
Proof.
  intros E. induction n as [| n IH]; [reflexivity |].
  cbn [replicate].
  change (match f x with
          | Some y0 => y0 :: omap f (replicate n x)
          | None => omap f (replicate n x)
          end = y :: replicate n y).
  now rewrite E, IH.
Qed.

(** Every iteration finds a full page: the slice at the offset while there
    is one, the first page from then on. *)
Lemma first_page_turn_continues (c : Enhanced.cursor) :
  (exists k : nat, Enhanced.offset c = 20 * Z.of_nat k) ->
  exists jobs,
    page_turn c = Continue (Enhanced.mkCursor (Enhanced.all_jobs c ++ jobs)
                              (Enhanced.offset c + 20) (Enhanced.page c + 1)).
Proof.
  intros [k Hoff]. destruct c as [all o p]. simpl in Hoff.
  destruct (normalize Sample.site_engineer) as [r |] eqn:Er; [| discriminate Er].
  assert (forall n, omap normalize (replicate n Sample.site_engineer) = replicate n r)
    as Hmap by (intros n; now apply omap_replicate).
  unfold Enhanced.page_turn, Enhanced.page_param_sets.
  cbn [Enhanced.offset Enhanced.page Enhanced.all_jobs Enhanced.first_jobs].
  change (Enhanced.fetch_json 3 wire Sample.api_url (Enhanced.OffsetLimit o Enhanced.limit))
    with (Some (Sample.serve records o 20)).
  change (Enhanced.fetch_json 3 wire Sample.api_url (Enhanced.FromSize o Enhanced.limit))
    with (Some (Sample.serve records 0 20)).
  cbv beta iota.
  change (Enhanced.extract_jobs_from_response Sample.base_url (Sample.serve records o 20))
    with (omap normalize (take 20 (drop (Z.to_nat o) records))).
  change (Enhanced.extract_jobs_from_response Sample.base_url (Sample.serve records 0 20))
    with (omap normalize (replicate 20 Sample.site_engineer)).
  rewrite drop_replicate, take_replicate, !Hmap.
  destruct (Nat.min 20 (40 - Z.to_nat o)) as [| m] eqn:Em.
  - cbn [replicate]. exists (replicate 20 r). reflexivity.
  - assert (S m = 20%nat) as -> by lia.
    exists (replicate 20 r). reflexivity.
Qed.

End FirstPage.

Section NeverReturns.
Import Transport.

Local Abbreviation records := (replicate 40 Sample.site_engineer).

Lemma first_page_paginate_from (fuel : nat) :
  forall c,
    (exists k : nat, Enhanced.offset c = 20 * Z.of_nat k) ->
    Enhanced.paginate_from (rt:=Sample.runtime) Sample.base_url 3
      (Sample.first_page_wire records) Sample.api_url fuel c = None.
Proof.
  induction fuel as [| fuel IH]; intros c [k Hk]; [reflexivity |].
  cbn [Enhanced.paginate_from].
  destruct (first_page_turn_continues c (ex_intro _ k Hk)) as [jobs ->].
  rewrite IH; [reflexivity |].
  exists (S k). cbn [Enhanced.offset]. lia.
Qed.

(** C6: against an upstream of 40 records that pages by offset and limit,
    never sends more than the 20 records asked for, and answers a request
    whose parameters it does not know with its first page, the loop of
    [paginate_api_endpoint] does not return within 3 = ceil(40 / 20) + 1
    iterations, nor within any other number: past the last record the
    offset shape yields nothing, the next shape yields the first page
    again, and the loop goes on.  The loop of [scrape_jobs_api], which
    knows one shape, returns the 40 records after 3 iterations. *)
Theorem enhanced_paging_never_returns :
  (forall endpoint c p i,
     p ∈ Enhanced.page_param_sets c ->
     exists data,
       Sample.first_page_wire records endpoint p i = Sample.ok data
       /\ (length (Enhanced.raw_jobs data) <= 20)%nat)
  /\ (forall endpoint offset i,
        Sample.first_page_wire records endpoint (Enhanced.OffsetLimit offset 20) i
        = Sample.ok (Sample.serve records offset 20))
  /\ (forall fuel,
        Enhanced.paginate_api_endpoint (rt:=Sample.runtime) Sample.base_url 3
          (Sample.first_page_wire records) Sample.api_url fuel = None)
  /\ exists jobs,
       Workday.scrape_jobs_api (rt:=Sample.runtime) Sample.base_url "Pultegroup"
         Sample.api_url 3 (Sample.workday_wire records) 3
       = Some (Returned jobs, 3%nat)
       /\ length jobs = 40%nat.
Proof.
  split; [| split; [reflexivity |]; split].
  - intros endpoint c p i Hp.
    assert (forall offset,
              (length (Enhanced.raw_jobs (Sample.serve records offset 20)) <= 20)%nat)
      as Hpage.
    { intros offset.
      change (Enhanced.raw_jobs (Sample.serve records offset 20))
        with (take 20 (drop (Z.to_nat offset) records)).
      rewrite length_take. lia. }
    unfold Enhanced.page_param_sets in Hp.
    repeat (apply elem_of_cons in Hp as [-> | Hp]); [.. | inversion Hp];
      eexists; (split; [reflexivity | apply Hpage]).
  - intros fuel. apply first_page_paginate_from. now exists 0%nat.
  - eexists. split; vm_compute; reflexivity.
Qed.

End NeverReturns.

(** ** Orchestrator: the fallback to the markup strategy *)

Section Orchestrator.
Context {rt : Runtime}.
Variables (base_url : string) (max_retries : Z).
Variable wire : string -> Enhanced.params -> nat -> Transport.attempt.
Variable scrape_with_selenium : list (JobRecord json).

Lemma no_endpoint_no_jobs (endpoints : list string) (fuel : nat) :
  (forall endpoint, endpoint ∈ endpoints ->
     (Enhanced.test_api_endpoint max_retries wire endpoint).1 = false) ->
  Enhanced.scrape_with_api base_url max_retries wire endpoints fuel = Some [].
Proof.
  induction endpoints as [| endpoint rest IH]; intros H; simpl; [reflexivity |].
  rewrite (H endpoint) by left. apply IH. intros e He. apply H. now right.
Qed.

(** C5: when the endpoint strategy yields no record, because no endpoint
    classifies as a job source or because paging produced nothing,
    [scrape_jobs] calls the markup strategy and returns what that yields;
    when the markup strategy yields nothing either, [scrape_jobs] returns
    the empty list, its last act being to log that all strategies failed. *)
Theorem scrape_jobs_falls_back (endpoints : list string) (fuel : nat) :
  ((forall endpoint, endpoint ∈ endpoints ->
      (Enhanced.test_api_endpoint max_retries wire endpoint).1 = false) ->
   Enhanced.scrape_with_api base_url max_retries wire endpoints fuel = Some [])
  /\ (Enhanced.scrape_with_api base_url max_retries wire endpoints fuel = Some [] ->
      exists trace,
        Enhanced.scrape_jobs base_url max_retries wire scrape_with_selenium
          endpoints fuel = Some (scrape_with_selenium, trace)
        /\ Enhanced.CalledSelenium ∈ trace
        /\ (scrape_with_selenium = [] ->
            last trace = Some (Enhanced.LogError "All scraping strategies failed"))).
Proof.
  split; [apply no_endpoint_no_jobs |].
  intros E. unfold Enhanced.scrape_jobs. rewrite E. simpl.
  destruct scrape_with_selenium as [| job jobs]; eexists; (split; [reflexivity |]).
  - split; [| reflexivity]. do 3 right. left.
  - split; [| discriminate]. do 3 right. left.
Qed.

End Orchestrator.

(** The theorem on two endpoints that answer [{"status": "ok"}] to every
    request, with a markup strategy that finds nothing: no endpoint
    classifies, the markup strategy is called, the result is empty. *)
Lemma scrape_jobs_falls_back_witness :
  (forall endpoint, endpoint ∈ [Sample.api_url; Sample.base_url +:+ "/jobs"] ->
     (Enhanced.test_api_endpoint 3 Sample.status_wire endpoint).1 = false)
  /\ exists trace,
       Enhanced.scrape_jobs (rt:=Sample.runtime) Sample.base_url 3 Sample.status_wire []
         [Sample.api_url; Sample.base_url +:+ "/jobs"] 0 = Some ([], trace)
       /\ Enhanced.CalledSelenium ∈ trace
       /\ last trace = Some (Enhanced.LogError "All scraping strategies failed").
Proof.
  assert (forall endpoint, endpoint ∈ [Sample.api_url; Sample.base_url +:+ "/jobs"] ->
            (Enhanced.test_api_endpoint 3 Sample.status_wire endpoint).1 = false) as H
    by (intros endpoint _; reflexivity).
  split; [exact H |].
  destruct (scrape_jobs_falls_back (rt:=Sample.runtime) Sample.base_url 3
              Sample.status_wire [] [Sample.api_url; Sample.base_url +:+ "/jobs"] 0)
    as [Hnone Hfall].
  destruct (Hfall (Hnone H)) as (trace & E & Hcall & Hlast).
  exists trace. split; [exact E |]. split; [exact Hcall | now apply Hlast].
Defined.

(** * Further properties of the scrapers *)

(** ** Transport: the first attempt that succeeds *)

Section FirstSuccess.
Import Transport.
Variable max_retries : Z.
Variable tries : nat -> attempt.

Lemma sleeps_Slept (k : Z) (tr : list event) : sleeps (Slept k :: tr) = k :: sleeps tr.
Proof. reflexivity. Qed.

Lemma seq_from_S (attempt n : nat) :
  Z.of_nat <$> seq (S attempt) (S n)
  = (Z.of_nat attempt + 1) :: (Z.of_nat <$> seq (S (S attempt)) n).
Proof. simpl. f_equal. lia. Qed.

Lemma enhanced_first_success (method : Enhanced.http_method) (r : response) (k : nat) :
  method <> Enhanced.Unsupported ->
  (forall i, (i < k)%nat -> http_error (tries i)) ->
  tries k = Answered r -> raises_for_status r = false ->
  forall todo attempt,
    in_step max_retries todo attempt -> (attempt <= k)%nat ->
    (k < Z.to_nat max_retries)%nat ->
    exists tr,
      Enhanced.make_request_from max_retries method tries todo attempt
        = (Returned (Some r), tr)
      /\ sleeps tr = Z.of_nat <$> seq (S attempt) (k - attempt).
Proof.
  intros Hm Hfail Hk Hok todo.
  induction todo as [| todo IH]; intros attempt Hstep Hle Hlt;
    [unfold in_step in Hstep; lia |].
  cbn [Enhanced.make_request_from].
  destruct (decide (attempt = k)) as [-> | Hne].
  - rewrite Hk, Hok. replace (k - k)%nat with 0%nat by lia.
    destruct method; try congruence; now exists [].
  - assert (attempt < k)%nat as Hlt' by lia.
    destruct (IH (S attempt) (in_step_S _ _ _ Hstep)) as (tr & -> & Hs); [lia | lia |].
    assert ((Z.of_nat attempt <? max_retries - 1) = true) as ->
      by (apply Z.ltb_lt; lia).
    assert (exists tr', (Returned (Some r), Slept (Z.of_nat attempt + 1) :: tr)
                        = (Returned (Some r), tr')
              /\ sleeps tr' = Z.of_nat <$> seq (S attempt) (k - attempt)) as Hretry.
    { eexists. split; [reflexivity |]. rewrite sleeps_Slept, Hs.
      replace (k - attempt)%nat with (S (k - S attempt)) by lia.
      now rewrite seq_from_S. }
    pose proof (Hfail attempt Hlt') as Ha.
    destruct method; try congruence;
      destruct (tries attempt) as [| r']; simpl in Ha; try rewrite Ha; exact Hretry.
Qed.

Lemma simple_first_success (r : response) (k : nat) :
  (forall i, (i < k)%nat -> http_error (tries i)) ->
  tries k = Answered r -> raises_for_status r = false ->
  forall todo attempt,
    in_step max_retries todo attempt -> (attempt <= k)%nat ->
    (k < Z.to_nat max_retries)%nat ->
    exists tr,
      Simple.make_request_from max_retries tries todo attempt = (Some r, tr)
      /\ sleeps tr = Z.of_nat <$> seq (S attempt) (k - attempt).
Proof.
  intros Hfail Hk Hok todo.
  induction todo as [| todo IH]; intros attempt Hstep Hle Hlt;
    [unfold in_step in Hstep; lia |].
  cbn [Simple.make_request_from].
  destruct (decide (attempt = k)) as [-> | Hne].
  - rewrite Hk, Hok. replace (k - k)%nat with 0%nat by lia. now exists [].
  - assert (attempt < k)%nat as Hlt' by lia.
    destruct (IH (S attempt) (in_step_S _ _ _ Hstep)) as (tr & -> & Hs); [lia | lia |].
    assert ((Z.of_nat attempt <? max_retries - 1) = true) as ->
      by (apply Z.ltb_lt; lia).
    assert (exists tr', (Some r, Slept (Z.of_nat attempt + 1) :: tr) = (Some r, tr')
              /\ sleeps tr' = Z.of_nat <$> seq (S attempt) (k - attempt)) as Hretry.
    { eexists. split; [reflexivity |]. rewrite sleeps_Slept, Hs.
      replace (k - attempt)%nat with (S (k - S attempt)) by lia.
      now rewrite seq_from_S. }
    pose proof (Hfail attempt Hlt') as Ha.
    destruct (tries attempt) as [| r']; simpl in Ha; try rewrite Ha; exact Hretry.
Qed.

Lemma workday_first_success (r : response) (data : json) (k : nat) :
  (forall i, (i < k)%nat -> no_data (tries i)) ->
  tries k = Answered r -> status_code r = 200 -> json_body r = Some data ->
  forall todo attempt,
    in_step max_retries todo attempt -> (attempt <= k)%nat ->
    (k < Z.to_nat max_retries)%nat ->
    exists tr,
      Workday.make_api_request_from max_retries tries todo attempt = (Some data, tr)
      /\ sleeps tr = Z.of_nat <$> seq (S attempt) (k - attempt).
Proof.
  intros Hfail Hk H200 Hbody todo.
  induction todo as [| todo IH]; intros attempt Hstep Hle Hlt;
    [unfold in_step in Hstep; lia |].
  cbn [Workday.make_api_request_from].
  destruct (decide (attempt = k)) as [-> | Hne].
  - rewrite Hk, H200, Hbody. replace (k - k)%nat with 0%nat by lia. now exists [].
  - assert (attempt < k)%nat as Hlt' by lia.
    destruct (IH (S attempt) (in_step_S _ _ _ Hstep)) as (tr & -> & Hs); [lia | lia |].
    assert ((Z.of_nat attempt <? max_retries - 1) = true) as ->
      by (apply Z.ltb_lt; lia).
    assert (exists tr', (Some data, Slept (Z.of_nat attempt + 1) :: tr) = (Some data, tr')
              /\ sleeps tr' = Z.of_nat <$> seq (S attempt) (k - attempt)) as Hretry.
    { eexists. split; [reflexivity |]. rewrite sleeps_Slept, Hs.
      replace (k - attempt)%nat with (S (k - S attempt)) by lia.
      now rewrite seq_from_S. }
    pose proof (Hfail attempt Hlt') as Ha.
    destruct (tries attempt) as [| r']; simpl in Ha; [exact Hretry |].
    destruct (Z.eqb_spec (status_code r') 200) as [E200 | _]; [| exact Hretry].
    destruct Ha as [Ha | Ha]; [congruence |]. rewrite Ha. exact Hretry.
Qed.

(** X1: [make_request] returns the answer of the first attempt that neither
    raises nor has a 4xx or 5xx status, provided that attempt is among the
    [max_retries] allowed; before it, it has slept once after each failed
    attempt, [delay * 1], ..., [delay * k] for [k] failed attempts. *)
Theorem make_request_returns_first_success (r : response) (k : nat) :
  (k < Z.to_nat max_retries)%nat ->
  (forall i, (i < k)%nat -> http_error (tries i)) ->
  tries k = Answered r -> raises_for_status r = false ->
  (forall method, method <> Enhanced.Unsupported ->
     exists tr,
       Enhanced.make_request max_retries method tries = (Returned (Some r), tr)
       /\ sleeps tr = backoff k)
  /\ (exists tr,
        Simple.make_request max_retries tries = (Some r, tr) /\ sleeps tr = backoff k).
Proof.
  intros Hlt Hfail Hk Hok.
  assert (in_step max_retries (Z.to_nat max_retries) 0) as Hstep
    by (unfold in_step; lia).
  split.
  - intros method Hm.
    destruct (enhanced_first_success method r k Hm Hfail Hk Hok _ 0 Hstep) as (tr & E & Hs);
      [lia | exact Hlt |].
    exists tr. split; [exact E |]. now rewrite Nat.sub_0_r in Hs.
  - destruct (simple_first_success r k Hfail Hk Hok _ 0 Hstep) as (tr & E & Hs);
      [lia | exact Hlt |].
    exists tr. split; [exact E |]. now rewrite Nat.sub_0_r in Hs.
Qed.

(** X2: [make_api_request] returns the decoded body of the first attempt
    answered 200 with a body that decodes, provided that attempt is among
    the [max_retries] allowed; before it, it has slept [delay * 1], ...,
    [delay * k] for the [k] attempts that gave no data. *)
Theorem make_api_request_returns_first_data (r : response) (data : json) (k : nat) :
  (k < Z.to_nat max_retries)%nat ->
  (forall i, (i < k)%nat -> no_data (tries i)) ->
  tries k = Answered r -> status_code r = 200 -> json_body r = Some data ->
  exists tr,
    Workday.make_api_request max_retries tries = (Some data, tr)
    /\ sleeps tr = backoff k.
Proof.
  intros Hlt Hfail Hk H200 Hbody.
  assert (in_step max_retries (Z.to_nat max_retries) 0) as Hstep
    by (unfold in_step; lia).
  destruct (workday_first_success r data k Hfail Hk H200 Hbody _ 0 Hstep)
    as (tr & E & Hs); [lia | exact Hlt |].
  exists tr. split; [exact E |]. now rewrite Nat.sub_0_r in Hs.
Qed.

End FirstSuccess.

(** ** Transport: whatever the network does *)

Section AnyNetwork.
Import Transport.
Variable max_retries : Z.
Variable tries : nat -> attempt.





End AnyNetwork.

(** ** Workday scraper: the base URL *)

Section UrlFacts.
Import PyStr.

Lemma chars_append (s t : string) : chars (s +:+ t) = chars s ++ chars t.
Proof.
  unfold chars. induction s as [| c s IH]; simpl; [reflexivity | now rewrite IH].
Qed.

Lemma of_chars_nonempty (l : list ascii) : l <> [] -> of_chars l <> "".
Proof. destruct l; [congruence | discriminate]. Qed.

Lemma after_literal_app (lit l : list ascii) : after_literal lit (lit ++ l) = Some l.
Proof.
  induction lit as [| a lit IH]; simpl; [now destruct l |].
  now rewrite Ascii.eqb_refl.
Qed.

Lemma after_literal_Some (lit l rest : list ascii) :
  after_literal lit l = Some rest -> l = lit ++ rest.
Proof.
  revert l. induction lit as [| a lit IH]; intros l; simpl.
  - destruct l; now intros [= <-].
  - destruct l as [| b l]; [discriminate |].
    destruct (Ascii.eqb_spec a b) as [-> | _]; [| discriminate].
    intros H. simpl. f_equal. now apply IH.
Qed.

(** A greedy run stops exactly where the text goes on with a character it
    cannot hold, or ends. *)
Lemma span_app (p : ascii -> bool) (run rest : list ascii) :
  forallb p run = true ->
  match rest with [] => True | c :: _ => p c = false end ->
  span p (run ++ rest) = (run, rest).
Proof.
  intros Hrun Hrest. induction run as [| c run IH]; simpl.
  - destruct rest as [| c rest]; simpl; [reflexivity | now rewrite Hrest].
  - simpl in Hrun. apply andb_true_iff in Hrun as [-> Hrun]. now rewrite IH.
Qed.

Lemma span_rest_suffix (p : ascii -> bool) (l : list ascii) :
  exists k, l = k ++ (span p l).2.
Proof.
  induction l as [| c l [k IH]]; simpl; [now exists [] |].
  destruct (p c); [| now exists []].
  destruct (span p l) as [taken rest]. simpl in *. exists (c :: k). simpl. now f_equal.
Qed.

Lemma split_l_no_sep (c : ascii) (l : list ascii) : c ∉ l -> split_l c l = [l].
Proof.
  induction l as [| x l IH]; intros H; simpl; [reflexivity |].
  apply not_elem_of_cons in H as [Hne Hl].
  destruct (Ascii.eqb_spec x c) as [-> | _]; [congruence |].
  now rewrite IH.
Qed.

Lemma replace_sub_l_none (old new : list ascii) (c : ascii) (fuel : nat) (l : list ascii) :
  c ∈ old -> c ∉ l -> replace_sub_l old new fuel l = l.
Proof.
  intros Hold. revert l. induction fuel as [| fuel IH]; intros l Hl; simpl; [reflexivity |].
  destruct l as [| x l]; [reflexivity |].
  destruct (after_literal old (x :: l)) as [rest |] eqn:E.
  - apply after_literal_Some in E. exfalso. apply Hl. rewrite E.
    apply elem_of_app. now left.
  - f_equal. apply IH. now apply not_elem_of_cons in Hl as [_ Hl].
Qed.

End UrlFacts.

Section BaseUrl.
Import PyStr.

(** X4: a base URL of the form
    [https://<company>.wd<digits>.myworkdayjobs.com/<site>], followed by
    nothing or by a slash or a question mark and anything, is parsed back
    into its company, version and site, with the domain
    [<company>.wd<digits>.myworkdayjobs.com]; the API URL built from it is
    [https://<domain>/wday/cxs/<company>/<site>/jobs]. *)
Theorem parse_workday_url_round_trip (company version site tail : string) :
  nonempty company = true ->
  forallb (fun c => negb (Ascii.eqb c ".")) (chars company) = true ->
  nonempty version = true ->
  forallb isdigit (chars version) = true ->
  nonempty site = true ->
  forallb (fun c => negb (Ascii.eqb c "/") && negb (Ascii.eqb c "?")) (chars site) = true ->
  match chars tail with
  | [] => True
  | c :: _ => (negb (Ascii.eqb c "/") && negb (Ascii.eqb c "?")) = false
  end ->
  Workday.parse_workday_url
    ("https://" +:+ company +:+ ".wd" +:+ version +:+ ".myworkdayjobs.com/"
     +:+ site +:+ tail)
  = Workday.mkInfo company version site
      (company +:+ ".wd" +:+ version +:+ ".myworkdayjobs.com")
  /\ Workday.build_api_url
       (Workday.parse_workday_url
          ("https://" +:+ company +:+ ".wd" +:+ version +:+ ".myworkdayjobs.com/"
           +:+ site +:+ tail))
     = "https://" +:+ (company +:+ ".wd" +:+ version +:+ ".myworkdayjobs.com")
       +:+ "/wday/cxs/" +:+ company +:+ "/" +:+ site +:+ "/jobs".
Proof.
  intros Hc Hcd Hv Hvd Hs Hsd Htail.
  assert (Workday.match_workday_url
            ("https://" +:+ company +:+ ".wd" +:+ version +:+ ".myworkdayjobs.com/"
             +:+ site +:+ tail) = Some (company, version, site)) as Hmatch.
  { unfold Workday.match_workday_url. rewrite !chars_append.
    rewrite after_literal_app. cbn [mbind option_bind].
    rewrite (span_app _ (chars company)) by (assumption || reflexivity).
    rewrite after_literal_app. cbn [mbind option_bind].
    rewrite (span_app _ (chars version)) by (assumption || reflexivity).
    rewrite after_literal_app. cbn [mbind option_bind].
    rewrite (span_app _ (chars site)) by assumption.
    destruct company as [| c1 company]; [discriminate |].
    destruct version as [| c2 version]; [discriminate |].
    destruct site as [| c3 site]; [discriminate |].
    cbn [chars list_ascii_of_string]. fold (chars company) (chars version) (chars site).
    change (of_chars (c1 :: chars company)) with (String c1 (of_chars (chars company))).
    change (of_chars (c2 :: chars version)) with (String c2 (of_chars (chars version))).
    change (of_chars (c3 :: chars site)) with (String c3 (of_chars (chars site))).
    now rewrite !of_chars_chars. }
  unfold Workday.parse_workday_url. rewrite Hmatch. split; reflexivity.
Qed.

(** X5: a base URL [https://<host>] with no slash after the host, which the
    pattern cannot match, falls back to the site [careers]: the domain is
    the host, the company the part of the host before its first dot, the
    version 1. *)
Theorem parse_workday_url_without_site (host : string) :
  forallb (fun c => negb (Ascii.eqb c "/")) (chars host) = true ->
  Workday.parse_workday_url ("https://" +:+ host)
  = Workday.mkInfo (default "" (head (split "." host))) "1" "careers" host.
Proof.
  intros Hhost.
  assert (("/" : ascii) ∉ chars host) as Hno.
  { intros Hin. apply list_elem_of_In in Hin.
    rewrite forallb_forall in Hhost. specialize (Hhost _ Hin).
    now rewrite Ascii.eqb_refl in Hhost. }
  assert (forall l rest, ("/" : ascii) ∉ l ->
            after_literal (chars ".myworkdayjobs.com/") l = Some rest -> False) as Hlit.
  { intros l rest Hl E. apply after_literal_Some in E. apply Hl. rewrite E.
    apply elem_of_app. left. vm_compute. do 18 right. left. }
  assert (Workday.match_workday_url ("https://" +:+ host) = None) as Hmatch.
  { unfold Workday.match_workday_url. rewrite chars_append, after_literal_app.
    cbn [mbind option_bind].
    destruct (span_rest_suffix (fun c => negb (Ascii.eqb c ".")) (chars host))
      as [k1 E1].
    destruct (span _ (chars host)) as [company rest1]. simpl in E1.
    destruct (after_literal (chars ".wd") rest1) as [rest2 |] eqn:E2;
      cbn [mbind option_bind]; [| reflexivity].
    apply after_literal_Some in E2.
    destruct (span_rest_suffix isdigit rest2) as [k2 E3].
    destruct (span isdigit rest2) as [version rest3]. simpl in E3.
    destruct (after_literal (chars ".myworkdayjobs.com/") rest3) as [rest4 |] eqn:E4;
      cbn [mbind option_bind]; [| reflexivity].
    exfalso. apply (Hlit rest3 rest4); [| exact E4].
    intros Hin. apply Hno. rewrite E1, E2, E3.
    rewrite !elem_of_app. right. right. now right. }
  unfold Workday.parse_workday_url. rewrite Hmatch.
  assert (replace_sub "https://" "" ("https://" +:+ host) = host) as ->.
  { unfold replace_sub. rewrite chars_append.
    change (chars "https://" ++ chars host)
      with ("h"%char :: (chars "ttps://" ++ chars host)).
    cbn [length replace_sub_l].
    change ("h"%char :: (chars "ttps://" ++ chars host))
      with (chars "https://" ++ chars host).
    rewrite after_literal_app. cbn [chars list_ascii_of_string app].
    rewrite (replace_sub_l_none _ _ "/"%char); [apply of_chars_chars | | exact Hno].
    vm_compute. do 6 right. left. }
  unfold split. rewrite (split_l_no_sep _ _ Hno). cbn [fmap list_fmap head lookup].
  rewrite of_chars_chars. reflexivity.
Qed.

End BaseUrl.

(** X1 on a request that fails twice and is then answered: the answer is
    returned after sleeps of one and of two delays. *)
Lemma make_request_first_success_witness :
  exists tr,
    Simple.make_request 3 Sample.flaky
    = (Some (Transport.mkResponse 200 (Some (Sample.serve [] 0 20))), tr)
    /\ Transport.sleeps tr = [1; 2].
Proof.
  refine (proj2 (make_request_returns_first_success 3 Sample.flaky
                   (Transport.mkResponse 200 (Some (Sample.serve [] 0 20))) 2 _ _ _ _)).
  - vm_compute. lia.
  - intros i Hi. destruct i as [| [| i]]; [exact I | exact I | lia].
  - reflexivity.
  - reflexivity.
Defined.

(** X2 on the same request: the body is returned after two sleeps. *)
Lemma make_api_request_first_data_witness :
  exists tr,
    Workday.make_api_request 3 Sample.flaky = (Some (Sample.serve [] 0 20), tr)
    /\ Transport.sleeps tr = [1; 2].
Proof.
  refine (make_api_request_returns_first_data 3 Sample.flaky
            (Transport.mkResponse 200 (Some (Sample.serve [] 0 20)))
            (Sample.serve [] 0 20) 2 _ _ _ _ _).
  - vm_compute. lia.
  - intros i Hi. destruct i as [| [| i]]; [exact I | exact I | lia].
  - reflexivity.
  - reflexivity.
  - reflexivity.
Defined.

(** X4 on the default base URL. *)
Lemma parse_workday_url_round_trip_witness :
  Workday.parse_workday_url Sample.base_url
  = Workday.mkInfo "pultegroup" "1" "PGI" "pultegroup.wd1.myworkdayjobs.com"
  /\ Workday.build_api_url (Workday.parse_workday_url Sample.base_url)
     = Sample.api_url.
Proof.
  apply (parse_workday_url_round_trip "pultegroup" "1" "PGI" "");
    solve [reflexivity | exact I].
Defined.

(** X5 on a host without a path. *)
Lemma parse_workday_url_without_site_witness :
  Workday.parse_workday_url "https://jobs.example.com"
  = Workday.mkInfo "jobs" "1" "careers" "jobs.example.com".
Proof.
  apply (parse_workday_url_without_site "jobs.example.com"). reflexivity.
Defined.

(** ** Enhanced scraper: probing the endpoints *)

Section Probing.
Context {rt : Runtime}.
Variables (base_url : string) (max_retries : Z).
Variable wire : string -> Enhanced.params -> nat -> Transport.attempt.



(** X7: [scrape_with_api] pages through the first endpoint that tests
    positive and returns what that paging yields, also when it yields
    nothing: the endpoints after it are never tried. *)
Theorem scrape_with_api_first_positive (before after : list string)
    (endpoint : string) (fuel : nat) :
  (forall e, e ∈ before -> (Enhanced.test_api_endpoint max_retries wire e).1 = false) ->
  (Enhanced.test_api_endpoint max_retries wire endpoint).1 = true ->
  Enhanced.scrape_with_api base_url max_retries wire (before ++ endpoint :: after) fuel
  = fst <$> Enhanced.paginate_api_endpoint base_url max_retries wire endpoint fuel.
Proof.
  intros Hbefore Hpos. induction before as [| e before IH]; simpl.
  - now rewrite Hpos.
  - rewrite (Hbefore e) by left. apply IH. intros x Hx. apply Hbefore. now right.
Qed.



End Probing.

(** X7 on two endpoints of which the second serves one record: the first
    tests negative, the second is paged through. *)
Lemma scrape_with_api_first_positive_witness :
  Enhanced.scrape_with_api (rt:=Sample.runtime) Sample.base_url 3
    (Sample.mixed_wire [Sample.site_engineer])
    ([Sample.base_url +:+ "/jobs"] ++ Sample.api_url :: [Sample.base_url]) 2
  = fst <$> Enhanced.paginate_api_endpoint (rt:=Sample.runtime) Sample.base_url 3
              (Sample.mixed_wire [Sample.site_engineer]) Sample.api_url 2.
Proof.
  apply (scrape_with_api_first_positive (rt:=Sample.runtime)).
  - intros e He. apply list_elem_of_singleton in He as ->. vm_compute. reflexivity.
  - vm_compute. reflexivity.
Defined.


(** ** Normalizers: which records are dropped *)

Section Dropped.
Context {rt : Runtime}.
Variables (base_url company_name : string).

(** What [urljoin] does not join to the base: a value that is not a string,
    and a string it raises on. *)
Local Abbreviation rejected v :=
  (Py.is_str v = false \/ exists p, v = JStr p /\ urljoin base_url p = None).

Lemma join_url_None (v : json) :
  PyStr.nonempty base_url = true ->
  (Enhanced.join_url base_url v = None <-> rejected v)
  /\ (Workday.join_url base_url v = None <-> rejected v).
Proof.
  intros Hbase. unfold Enhanced.join_url, Workday.join_url. rewrite Hbase.
  assert (forall p, JStr <$> urljoin base_url p = None <-> rejected (JStr p)) as Hstr.
  { intros p. destruct (urljoin base_url p) as [u |] eqn:E; simpl.
    - split; [discriminate |]. intros [H | (q & [= <-] & H)]; congruence.
    - split; [| reflexivity]. intros _. right. now exists p. }
  destruct v as [| | | | p | |]; try apply (conj (Hstr p) (Hstr p));
    split; (split; [intros _; now left | reflexivity]).
Qed.

(** X9: with a base URL that is not empty, the normalizer of the enhanced
    scraper, given a dict, returns no record in exactly two cases: the
    location has to come from bulletFields (locationsText and location are
    falsy, bulletFields is truthy) and the scan of bulletFields fails,
    because bulletFields cannot be iterated or an entry met before a match
    is not a dict with a string as type; or externalPath is truthy and
    cannot be joined to the base URL, being no string or a string on which
    [urljoin] raises.  What is not a dict is never normalized. *)
Theorem enhanced_process_job_data_drops (d : list (string * json)) :
  PyStr.nonempty base_url = true ->
  (Enhanced.process_job_data base_url (JDict d) = None <->
     (Py.truthy (Py.get d "locationsText") = false
      /\ Py.truthy (Py.get d "location") = false
      /\ Py.truthy (Py.get d "bulletFields") = true
      /\ (Py.iter (Py.get d "bulletFields") ≫= Enhanced.bullet_location) = None)
     \/ (Py.truthy (Py.get d "externalPath") = true
         /\ (Py.is_str (Py.get d "externalPath") = false
             \/ exists p, Py.get d "externalPath" = JStr p
                          /\ urljoin base_url p = None)))
  /\ (forall v, Py.is_dict v = false -> Enhanced.process_job_data base_url v = None).
Proof.
  intros base_given.
  split; [| intros v Hv; destruct v; try reflexivity; discriminate].
  unfold Enhanced.process_job_data.
  assert (forall (place : json),
            (url ← (if Py.truthy (Py.get d "externalPath")
                    then Enhanced.join_url base_url (Py.get d "externalPath")
                    else if Py.truthy (Py.get d "url") then Some (Py.get d "url")
                    else if PyStr.nonempty
                              match Py.first_truthy d Enhanced.id_fields with
                              | Some v => PyRt.str v
                              | None => ""
                              end
                         then Some (JStr (base_url +:+ "/" +:+
                                match Py.first_truthy d Enhanced.id_fields with
                                | Some v => PyRt.str v
                                | None => ""
                                end))
                    else Some (JStr ""));
             Some (mkJob (JStr match Py.first_truthy d Enhanced.id_fields with
                               | Some v => PyRt.str v
                               | None => ""
                               end)
                         (default (JStr "") (Py.first_truthy d Enhanced.title_fields))
                         place
                         (default (JStr "") (Py.first_truthy d Enhanced.date_fields))
                         url (JStr "PulteGroup") (JStr now_isoformat))) = None
            <-> Py.truthy (Py.get d "externalPath") = true
                /\ rejected (Py.get d "externalPath")) as Hurl.
  { intros place.
    destruct (Py.truthy (Py.get d "externalPath")) eqn:Ee.
    - destruct (proj1 (join_url_None (Py.get d "externalPath") base_given)) as [H1 H2].
      destruct (Enhanced.join_url base_url (Py.get d "externalPath")) as [u |];
        cbn [mbind option_bind].
      + split; [discriminate |]. intros [_ H]. apply H2 in H. discriminate.
      + split; [intros _ | reflexivity]. split; [reflexivity | now apply H1].
    - assert (forall o : option json, is_Some o ->
                (o ≫= (fun u => Some (mkJob
                   (JStr match Py.first_truthy d Enhanced.id_fields with
                         | Some v => PyRt.str v
                         | None => ""
                         end)
                   (default (JStr "") (Py.first_truthy d Enhanced.title_fields))
                   place
                   (default (JStr "") (Py.first_truthy d Enhanced.date_fields))
                   u (JStr "PulteGroup") (JStr now_isoformat))) = None)
                <-> false = true /\ rejected (Py.get d "externalPath")) as Hsome.
      { intros o [u ->]. cbn [mbind option_bind].
        split; [discriminate | intros [? _]; discriminate]. }
      apply Hsome.
      destruct (Py.truthy (Py.get d "url")); [eauto |].
      match goal with |- context [if PyStr.nonempty ?x then _ else _] =>
        destruct (PyStr.nonempty x) end; eauto. }
  destruct (Py.truthy (Py.get d "locationsText")) eqn:E1.
  { cbn [mbind option_bind]. rewrite Hurl.
    split; [now right | intros [(? & _) | ?]; [discriminate | assumption]]. }
  destruct (Py.truthy (Py.get d "location")) eqn:E2.
  { assert (exists place, match Py.get d "location" with
                          | JDict ld => Some (Py.get_or ld "name" (JStr ""))
                          | v => Some (JStr (PyRt.str v))
                          end = Some place) as [place ->]
      by (destruct (Py.get d "location"); eauto).
    cbn [mbind option_bind]. rewrite Hurl.
    split; [now right | intros [(_ & ? & _) | ?]; [discriminate | assumption]]. }
  destruct (Py.truthy (Py.get d "bulletFields")) eqn:E3.
  - destruct (Py.iter (Py.get d "bulletFields")) as [fields |];
      cbn [mbind option_bind];
      [| split; [intros _; left; now repeat split
                | reflexivity]].
    destruct (Enhanced.bullet_location fields) as [found |]; cbn [mbind option_bind].
    + rewrite Hurl.
      split; [now right | intros [(_ & _ & _ & ?) | ?]; [discriminate | assumption]].
    + split; [intros _; left; now repeat split | reflexivity].
  - cbn [mbind option_bind]. rewrite Hurl.
    split; [now right | intros [(_ & _ & ? & _) | ?]; [discriminate | assumption]].
Qed.

Lemma extract_job_id_total (d : list (string * json)) :
  (Py.truthy (Py.get d "externalPath") = true ->
   Py.is_str (Py.get d "externalPath") = true) ->
  exists id, Workday.extract_job_id d = Some id.
Proof.
  intros Hext. unfold Workday.extract_job_id.
  match goal with |- context [negb (PyStr.nonempty ?b) && _] =>
    destruct (PyStr.nonempty b) end; cbn [negb andb mbind option_bind]; [eauto |].
  destruct (Py.truthy (Py.get d "externalPath")); [| cbn [mbind option_bind]; eauto].
  specialize (Hext eq_refl).
  destruct (Py.get d "externalPath"); try discriminate. cbn [mbind option_bind]. eauto.
Qed.

(** X10: with a base URL that is not empty, the Workday normalizer, given a
    dict, returns no record in exactly three cases: externalPath is truthy
    and cannot be joined to the base URL, being no string or a string on
    which [urljoin] raises; the location found (locationsText, or the name
    of location or of primaryLocation) is not a string; or no title field
    is truthy, or the first that is has a blank text. *)
Theorem workday_process_job_data_drops (d : list (string * json)) :
  PyStr.nonempty base_url = true ->
  Workday.process_job_data base_url company_name (JDict d) = None <->
    (Py.truthy (Py.get d "externalPath") = true
     /\ (Py.is_str (Py.get d "externalPath") = false
         \/ exists p, Py.get d "externalPath" = JStr p /\ urljoin base_url p = None))
    \/ Py.is_str (Workday.location_text d) = false
    \/ match Py.first_truthy d Workday.title_fields with
       | Some v => PyStr.strip (PyRt.str v)
       | None => ""
       end = "".
Proof.
  intros base_given. unfold Workday.process_job_data.
  destruct (Py.truthy (Py.get d "externalPath")) eqn:Ee.
  - destruct (Py.is_str (Py.get d "externalPath")) eqn:Es.
    + destruct (extract_job_id_total d) as [id ->]; [now rewrite Ee |].
      cbn [mbind option_bind].
      destruct (Workday.location_text d) as [| | | | s | |]; cbn [mbind option_bind Py.is_str];
        try (split; [intros _; right; now left | reflexivity]).
      destruct (Py.get d "externalPath") as [| | | | path | |]; try discriminate.
      unfold Workday.join_url. rewrite base_given.
      destruct (urljoin base_url path) as [joined |] eqn:Ejoin;
        cbn [fmap option_fmap option_map mbind option_bind].
      * match goal with |- context [if PyStr.nonempty ?t then _ else _] =>
          destruct (PyStr.nonempty t) eqn:Et end.
        -- apply nonempty_true in Et.
           split; [discriminate |].
           intros [[_ [? | (p & [= <-] & ?)]] | [? | ?]];
             [discriminate | congruence | discriminate | contradiction].
        -- apply nonempty_false in Et. split; [intros _; right; now right | reflexivity].
      * split; [| reflexivity]. intros _. left. split; [reflexivity |].
        right. now exists path.
    + split; [intros _; left; split; [reflexivity | now left] |]. intros _.
      destruct (Workday.extract_job_id d) as [id |]; cbn [mbind option_bind];
        [| reflexivity].
      destruct (Workday.location_text d) as [| | | | s | |]; cbn [mbind option_bind];
        try reflexivity.
      destruct (proj2 (join_url_None (Py.get d "externalPath") base_given)) as [_ H].
      rewrite H by now left. reflexivity.
  - destruct (extract_job_id_total d) as [id ->]; [now rewrite Ee |].
    cbn [mbind option_bind].
    destruct (Workday.location_text d) as [| | | | s | |]; cbn [mbind option_bind Py.is_str];
      try (split; [intros _; right; now left | reflexivity]).
    assert (exists u,
              (if Py.truthy (Py.get d "url") then Some (Py.get d "url")
               else if PyStr.nonempty id
                    then Some (JStr (base_url +:+ "/job/" +:+ id))
               else Some (JStr "")) = Some u) as [u ->]
      by (destruct (Py.truthy (Py.get d "url")); [eauto |];
          destruct (PyStr.nonempty id); eauto).
    cbn [mbind option_bind].
    match goal with |- context [if PyStr.nonempty ?t then _ else _] =>
      destruct (PyStr.nonempty t) eqn:Et end.
    + apply nonempty_true in Et.
      split; [discriminate |].
      intros [[? _] | [? | ?]]; [discriminate | discriminate | contradiction].
    + apply nonempty_false in Et. split; [intros _; right; now right | reflexivity].
Qed.

End Dropped.

(** X9 on a record with its identifier as a string in bulletFields and no
    location, and on a record whose path opens a bracketed host that it
    does not close: the enhanced normalizer drops both. *)
Lemma enhanced_process_job_data_drops_witness :
  Enhanced.process_job_data (rt:=Sample.runtime) Sample.base_url
    (JDict Sample.bullet_fields) = None
  /\ Enhanced.process_job_data (rt:=Sample.runtime) Sample.base_url
       (JDict Sample.unparsed_path_fields) = None.
Proof.
  split.
  - apply (proj1 (enhanced_process_job_data_drops (rt:=Sample.runtime) Sample.base_url
                    Sample.bullet_fields eq_refl)).
    left. repeat split; reflexivity.
  - apply (proj1 (enhanced_process_job_data_drops (rt:=Sample.runtime) Sample.base_url
                    Sample.unparsed_path_fields eq_refl)).
    right. split; [reflexivity |]. right. now exists "//[".
Defined.

(** X10 on a record with a blank title, and on a titled record whose path
    opens a bracketed host that it does not close: the Workday normalizer
    drops both. *)
Lemma workday_process_job_data_drops_witness :
  Workday.process_job_data (rt:=Sample.runtime) Sample.base_url "Pultegroup"
    (JDict Sample.blank_title_fields) = None
  /\ Workday.process_job_data (rt:=Sample.runtime) Sample.base_url "Pultegroup"
       (JDict Sample.unparsed_path_fields) = None.
Proof.
  split.
  - apply (workday_process_job_data_drops (rt:=Sample.runtime) Sample.base_url
             "Pultegroup" Sample.blank_title_fields eq_refl).
    right. right. reflexivity.
  - apply (workday_process_job_data_drops (rt:=Sample.runtime) Sample.base_url
             "Pultegroup" Sample.unparsed_path_fields eq_refl).
    left. split; [reflexivity |]. right. now exists "//[".
Defined.

(** ** Workday normalizer: the shape of a record *)

Section Shape.
Context {rt : Runtime}.
Variables (base_url company_name : string).

Lemma strip_idempotent (s : string) : PyStr.strip (PyStr.strip s) = PyStr.strip s.
Proof.
  apply chars_inj. unfold PyStr.strip at 1. rewrite chars_of_chars.
  apply strip_by_fixed. unfold PyStr.strip. rewrite chars_of_chars.
  apply strip_by_clean_ends.
Qed.

(** X11: every record the Workday normalizer returns holds strings as its
    identifier, title, location, posting date, company and time stamp; the
    title is not empty and has no white space at either end, the location
    has none either; the company is the one of the run. *)
Theorem workday_record_shape (job : json) (r : JobRecord json) :
  Workday.process_job_data base_url company_name job = Some r ->
  exists id t place date,
    job_id r = JStr id /\ title r = JStr t /\ location r = JStr place
    /\ posting_date r = JStr date
    /\ company r = JStr company_name /\ scraped_at r = JStr now_isoformat
    /\ t <> "" /\ PyStr.strip t = t /\ PyStr.strip place = place.
Proof.
  unfold Workday.process_job_data. destruct job as [| | | | | | d]; try discriminate.
  destruct (Workday.extract_job_id d) as [id |]; cbn [mbind option_bind];
    [| discriminate].
  destruct (Workday.location_text d) as [| | | | s | |]; cbn [mbind option_bind];
    try discriminate.
  match goal with |- context [mbind _ ?u] => destruct u as [link |] end;
    cbn [mbind option_bind]; [| discriminate].
  assert (forall t, PyStr.strip t = t ->
            (if PyStr.nonempty t
             then Some (mkJob (JStr id) (JStr t) (JStr (PyStr.strip s))
                          (JStr match Py.first_truthy d Workday.date_fields with
                                | Some v => PyRt.str v
                                | None => ""
                                end)
                          link (JStr company_name) (JStr now_isoformat))
             else None) = Some r ->
            exists id t place date,
              job_id r = JStr id /\ title r = JStr t /\ location r = JStr place
              /\ posting_date r = JStr date
              /\ company r = JStr company_name /\ scraped_at r = JStr now_isoformat
              /\ t <> "" /\ PyStr.strip t = t /\ PyStr.strip place = place) as Hgate.
  { intros t Ht. destruct (PyStr.nonempty t) eqn:Et; [| discriminate].
    intros [= <-]. cbn [job_id title location posting_date company scraped_at].
    do 4 eexists. repeat (split; [reflexivity |]).
    split; [now apply nonempty_true |]. split; [exact Ht | apply strip_idempotent]. }
  apply Hgate.
  destruct (Py.first_truthy d Workday.title_fields); [apply strip_idempotent | reflexivity].
Qed.

End Shape.

(** X11 on the record of the specification's scenario. *)
Lemma workday_record_shape_witness :
  exists r id t place date,
    Workday.process_job_data (rt:=Sample.runtime) Sample.base_url "Pultegroup"
      Sample.site_engineer = Some r
    /\ job_id r = JStr id /\ title r = JStr t /\ location r = JStr place
    /\ posting_date r = JStr date
    /\ company r = JStr "Pultegroup"
    /\ scraped_at r = JStr (now_isoformat (Runtime:=Sample.runtime))
    /\ t <> "" /\ PyStr.strip t = t /\ PyStr.strip place = place.
Proof.
  eexists.
  assert (Workday.process_job_data (rt:=Sample.runtime) Sample.base_url "Pultegroup"
            Sample.site_engineer = Some _) as H by (vm_compute; reflexivity).
  destruct (workday_record_shape (rt:=Sample.runtime) Sample.base_url "Pultegroup"
              _ _ H) as (id & t & place & date & Hrest).
  exists id, t, place, date. split; [exact H | exact Hrest].
Defined.

(** ** Workday scraper: what the paging loop returns *)

Section WorkdayResult.
Import Transport.
Context {rt : Runtime}.
Variables (base_url company_name api_url : string) (max_retries : Z).
Variable wire : string -> Z -> Z -> nat -> attempt.

Local Abbreviation normalize := (Workday.process_job_data base_url company_name).
Local Abbreviation page_turn := (Workday.page_turn base_url company_name api_url max_retries wire).
Local Abbreviation scrape_from := (Workday.scrape_from base_url company_name api_url max_retries wire).

(** X12: a body that is truthy and not a dict (a non-empty list, a number,
    a string) is not taken for a page without data: the attribute error it
    causes leaves [scrape_jobs_api], in the first iteration when it is the
    first page; so does a dict whose jobPostings is truthy and cannot be
    iterated. *)
Theorem scrape_jobs_api_raises (result : json) (fuel : nat) :
  (Workday.make_api_request max_retries (wire api_url 0 Workday.limit)).1 = Some result ->
  Py.truthy result = true ->
  Py.is_dict result = false
  \/ (exists d, result = JDict d
        /\ Py.truthy (Py.get_or d "jobPostings" (JList [])) = true
        /\ Py.iter (Py.get_or d "jobPostings" (JList [])) = None) ->
  Workday.scrape_jobs_api base_url company_name api_url max_retries wire (S fuel)
  = Some (Raised, 1%nat).
Proof.
  intros Hreq Htruthy Hbad.
  unfold Workday.scrape_jobs_api. cbn [Workday.scrape_from].
  unfold Workday.page_turn. rewrite Hreq, Htruthy. cbn [negb].
  assert (Workday.extract_jobs_from_api_response base_url company_name result = Raised)
    as ->; [| reflexivity].
  destruct Hbad as [Hd | (d & -> & Ht & Hi)].
  - destruct result; try reflexivity. discriminate.
  - unfold Workday.extract_jobs_from_api_response. now rewrite Ht, Hi.
Qed.

Section Served.
Variable records : list json.
Hypothesis served : Workday.serves api_url max_retries wire records.

(** The page the upstream has at [offset]. *)
Local Abbreviation slice offset := (take (Z.to_nat 20) (drop (Z.to_nat offset) records)).

Lemma slice_full_next (offset : Z) (m : nat) :
  0 <= offset ->
  take (20 + m) (drop (Z.to_nat offset) records)
  = slice offset ++ take m (drop (Z.to_nat (offset + 20)) records).
Proof.
  intros Hoff. replace (Z.to_nat (offset + 20)) with (Z.to_nat offset + 20)%nat by lia.
  rewrite <- drop_drop. change (Z.to_nat 20) with 20%nat.
  symmetry. apply take_take_drop.
Qed.




Hypothesis answered :
  forall offset, 0 <= offset ->
    is_Some (Workday.make_api_request max_retries (wire api_url offset Workday.limit)).1.
Hypothesis normalized : forall x, x ∈ records -> is_Some (normalize x).

Lemma omap_total_length (l : list json) :
  (forall x, x ∈ l -> is_Some (normalize x)) ->
  length (omap normalize l) = length l.
Proof.
  induction l as [| x l IH]; intros H; [reflexivity |].
  change (omap normalize (x :: l))
    with (match normalize x with Some y => y :: omap normalize l | None => omap normalize l end).
  destruct (H x) as [y ->]; [left |]. simpl. f_equal. apply IH.
  intros z Hz. apply H. now right.
Qed.

Lemma slice_normalized (offset : Z) :
  length (omap normalize (slice offset)) = length (slice offset).
Proof.
  apply omap_total_length. intros x Hx. apply normalized.
  apply subseteq_take, subseteq_drop in Hx. exact Hx.
Qed.

Lemma workday_turn_complete (all_jobs : list (JobRecord json)) (offset : Z) :
  0 <= offset ->
  ((remaining records offset < 20)%nat /\
   page_turn (all_jobs, offset)
   = Returned (Return (all_jobs ++ omap normalize (drop (Z.to_nat offset) records))))
  \/ ((20 <= remaining records offset)%nat /\
      page_turn (all_jobs, offset)
      = Returned (Continue (all_jobs ++ omap normalize (slice offset), offset + 20))).
Proof.
  intros Hoff. unfold Workday.page_turn.
  destruct (answered offset Hoff) as [result Ereq]. rewrite Ereq.
  destruct (served offset result Hoff Ereq) as (d & -> & Eraw).
  pose proof (slice_normalized offset) as Hnorm.
  assert (((remaining records offset < 20)%nat
           /\ slice offset = drop (Z.to_nat offset) records
           /\ (length (slice offset) < 20)%nat)
          \/ ((20 <= remaining records offset)%nat
              /\ length (slice offset) = 20%nat)) as Hcase.
  { unfold remaining. rewrite length_take. change (Z.to_nat 20) with 20%nat.
    destruct (Nat.lt_ge_cases (length (drop (Z.to_nat offset) records)) 20) as [Hlt | Hge].
    - left. split; [exact Hlt |]. split; [apply take_ge; lia | lia].
    - right. split; [exact Hge | lia]. }
  revert Hnorm Hcase Eraw. unfold Workday.limit.
  generalize (slice offset) as page. intros page Hnorm Hcase Eraw.
  assert ((Py.truthy (JDict d) = true
           /\ Workday.extract_jobs_from_api_response base_url company_name (JDict d)
              = Returned (omap normalize page))
          \/ (Py.truthy (JDict d) = false /\ page = []))
    as Hextract.
  { destruct d as [| kv d];
      [right; split; [reflexivity |]; unfold Py.get_or in Eraw; simpl in Eraw;
       now injection Eraw |].
    left. split; [reflexivity |].
    unfold Workday.extract_jobs_from_api_response. rewrite Eraw.
    now destruct page. }
  destruct Hextract as [[-> ->] | [-> ->]]; cbn [negb].
  - rewrite Z.ltb_compare. rewrite <- Hnorm in Hcase.
    destruct (omap normalize page) as [| job jobs] eqn:Ej.
    + destruct Hcase as [(Hlt & <- & _) | [_ Hlen]]; [| simpl in Hlen; lia].
      left. split; [exact Hlt |]. rewrite Ej. now rewrite app_nil_r.
    + destruct Hcase as [(Hlt & <- & Hlen) | [Hge Hlen]].
      * left. split; [exact Hlt |]. rewrite Ej.
        replace (Z.of_nat (length (job :: jobs)) ?= 20) with Lt; [reflexivity |].
        symmetry. apply Z.compare_lt_iff. lia.
      * right. split; [exact Hge |].
        replace (Z.of_nat (length (job :: jobs)) ?= 20) with Eq; [reflexivity |].
        symmetry. apply Z.compare_eq_iff. lia.
  - left. destruct Hcase as [(Hlt & <- & _) | [_ Hlen]]; [| simpl in Hlen; lia].
    split; [exact Hlt |]. simpl. now rewrite app_nil_r.
Qed.

Lemma workday_scrape_from_complete (fuel : nat) :
  forall all_jobs offset,
    0 <= offset -> (remaining records offset < 20 * fuel)%nat ->
    exists n,
      scrape_from fuel (all_jobs, offset)
      = Some (Returned (all_jobs ++ omap normalize (drop (Z.to_nat offset) records)), n).
Proof.
  induction fuel as [| fuel IH]; intros all_jobs offset Hoff Hfuel; [lia |].
  cbn [Workday.scrape_from].
  destruct (workday_turn_complete all_jobs offset Hoff) as [[Hlt ->] | [Hfull ->]].
  - now exists 1%nat.
  - destruct (IH (all_jobs ++ omap normalize (slice offset)) (offset + 20))
      as [n ->]; [lia | |].
    + rewrite remaining_next by assumption. lia.
    + exists (S n). cbn [mbind option_bind]. do 3 f_equal.
      rewrite <- app_assoc, <- omap_app. do 2 f_equal.
      replace (Z.to_nat (offset + 20)) with (Z.to_nat offset + 20)%nat by lia.
      rewrite <- drop_drop. change (Z.to_nat 20) with 20%nat. apply take_drop.
Qed.

(** X14: when every page asked for is answered and the normalizer drops
    none of the upstream's records, [scrape_jobs_api] returns the
    normalization of all of them, in their order, once allowed
    ceil(N / 20) + 1 iterations. *)
Theorem scrape_jobs_api_complete (fuel : nat) :
  ((length records + 19) / 20 + 1 <= fuel)%nat ->
  exists n,
    Workday.scrape_jobs_api base_url company_name api_url max_retries wire fuel
    = Some (Returned (omap normalize records), n)
    /\ length (omap normalize records) = length records.
Proof.
  intros Hfuel.
  destruct (workday_scrape_from_complete fuel [] 0) as [n E]; [lia | |].
  - unfold remaining. simpl. rewrite drop_0.
    pose proof (Nat.div_mod_eq (length records + 19) 20).
    pose proof (Nat.mod_upper_bound (length records + 19) 20). lia.
  - exists n. split; [| now apply omap_total_length].
    simpl in E. now rewrite drop_0 in E.
Qed.

End Served.
End WorkdayResult.

(** X12 on an upstream that answers with a bare list of records. *)
Lemma scrape_jobs_api_raises_witness :
  Workday.scrape_jobs_api (rt:=Sample.runtime) Sample.base_url "Pultegroup"
    Sample.api_url 3 (Sample.list_wire [Sample.site_engineer]) 1
  = Some (Transport.Raised, 1%nat).
Proof.
  apply (scrape_jobs_api_raises (rt:=Sample.runtime) Sample.base_url "Pultegroup"
           Sample.api_url 3 (Sample.list_wire [Sample.site_engineer])
           (JList [Sample.site_engineer]) 0).
  - reflexivity.
  - reflexivity.
  - left. reflexivity.
Defined.


(** X14 on an upstream that holds 21 titled records: all 21 are returned. *)
Lemma scrape_jobs_api_complete_witness :
  exists n,
    Workday.scrape_jobs_api (rt:=Sample.runtime) Sample.base_url "Pultegroup"
      Sample.api_url 3 (Sample.workday_wire (replicate 21 Sample.site_engineer)) 3
    = Some (Transport.Returned
              (omap (Workday.process_job_data (rt:=Sample.runtime) Sample.base_url
                       "Pultegroup") (replicate 21 Sample.site_engineer)), n)
    /\ length (omap (Workday.process_job_data (rt:=Sample.runtime) Sample.base_url
                       "Pultegroup") (replicate 21 Sample.site_engineer))
       = length (replicate 21 Sample.site_engineer).
Proof.
  apply (scrape_jobs_api_complete (rt:=Sample.runtime) Sample.base_url "Pultegroup"
           Sample.api_url 3 _ _ (workday_wire_serves _)).
  - intros offset _. eexists. reflexivity.
  - intros x Hx. apply elem_of_replicate in Hx as [-> _]. eexists. vm_compute. reflexivity.
  - vm_compute. lia.
Defined.

(** ** Markup scraper: pagination links and the crawl *)

Section Pagination.
Import Simple.
Context {rt : Runtime}.
Variable base_url : string.

Local Abbreviation collect_links := (Simple.collect_links base_url).
Local Abbreviation collect_selectors := (Simple.collect_selectors base_url).

Lemma collect_links_invariant (Q : string -> Prop) (current_url : string)
    (hrefs : list (option string)) (urls found : list string) :
  NoDup urls -> current_url ∉ urls -> Forall Q urls ->
  (forall href url, Some href ∈ hrefs ->
     PyStr.startswith "/" href = true \/ PyStr.startswith "http" href = true ->
     Simple.absolute base_url href = Some url -> Q url) ->
  collect_links current_url hrefs urls = Some found ->
  NoDup found /\ (current_url ∉ found) /\ Forall Q found.
Proof.
  revert urls. induction hrefs as [| href rest IH]; intros urls Hnd Hcur HQ Hrefs.
  - simpl. intros [= <-]. auto.
  - assert (forall h url, Some h ∈ rest ->
              PyStr.startswith "/" h = true \/ PyStr.startswith "http" h = true ->
              Simple.absolute base_url h = Some url -> Q url) as Hrest
      by (intros h url Hh; apply Hrefs; now right).
    assert (forall full_url, Q full_url ->
              (if negb (String.eqb full_url current_url)
                  && negb (bool_decide (full_url ∈ urls))
               then collect_links current_url rest (urls ++ [full_url])
               else collect_links current_url rest urls) = Some found ->
              NoDup found /\ (current_url ∉ found) /\ Forall Q found) as Hadd.
    { intros full_url Hfull.
      destruct (String.eqb_spec full_url current_url) as [E | E]; simpl;
        [now apply IH |].
      destruct (bool_decide_reflect (full_url ∈ urls)) as [Hin | Hout]; simpl;
        [now apply IH |].
      apply IH; [| | | exact Hrest].
      - apply NoDup_app. split; [exact Hnd |]. split; [| apply NoDup_singleton].
        intros x Hx Hx'. apply list_elem_of_singleton in Hx'. now subst.
      - intros H. apply elem_of_app in H as [H | H]; [contradiction |].
        apply list_elem_of_singleton in H. now subst.
      - apply Forall_app. split; [exact HQ |]. now constructor. }
    simpl. destruct href as [href |]; [| now apply IH].
    destruct (PyStr.nonempty href); [| now apply IH].
    destruct (PyStr.startswith "/" href) eqn:Eslash.
    + destruct (urljoin base_url href) as [full_url |] eqn:Ejoin; simpl;
        [| discriminate].
      apply Hadd. apply (Hrefs href); [left | now left |].
      unfold Simple.absolute. now rewrite Eslash.
    + destruct (PyStr.startswith "http" href) eqn:Ehttp; [| now apply IH].
      apply Hadd. apply (Hrefs href); [left | now right |].
      unfold Simple.absolute. now rewrite Eslash, Ehttp.
Qed.

(** X15: the pagination URLs of a page are at most five, pairwise different
    and never the URL of the page itself; each is the [href] of a link one
    of the eight selectors finds, joined to the base URL when it starts
    with a slash and kept when it starts with [http]. *)
Theorem find_pagination_urls_spec (pg : Simple.page) (current_url : string) :
  let urls := Simple.find_pagination_urls base_url pg current_url in
  (length urls <= 5)%nat
  /\ NoDup urls
  /\ (current_url ∉ urls)
  /\ forall url, url ∈ urls ->
       exists selector href,
         selector ∈ Simple.pagination_selectors
         /\ Some href ∈ Simple.page_links pg selector
         /\ (PyStr.startswith "/" href = true \/ PyStr.startswith "http" href = true)
         /\ Simple.absolute base_url href = Some url.
Proof.
  cbv zeta. unfold Simple.find_pagination_urls.
  set (Q := fun url : string =>
              exists selector href,
                selector ∈ Simple.pagination_selectors
                /\ Some href ∈ Simple.page_links pg selector
                /\ (PyStr.startswith "/" href = true
                    \/ PyStr.startswith "http" href = true)
                /\ Simple.absolute base_url href = Some url).
  assert (forall selectors urls found,
            selectors ⊆ Simple.pagination_selectors ->
            NoDup urls -> current_url ∉ urls -> Forall Q urls ->
            collect_selectors pg current_url selectors urls = Some found ->
            NoDup found /\ (current_url ∉ found) /\ Forall Q found) as Hfold.
  { induction selectors as [| selector rest IH]; intros urls found Hsub Hnd Hcur HQ; simpl.
    - intros [= <-]. auto.
    - destruct (collect_links current_url (Simple.page_links pg selector) urls)
        as [urls' |] eqn:E; cbn [mbind option_bind]; [| discriminate].
      destruct (collect_links_invariant Q current_url (Simple.page_links pg selector)
                  urls urls' Hnd Hcur HQ) as (Hnd' & Hcur' & HQ'); [| exact E |].
      + intros href url Hin Hstart Habs. exists selector, href.
        split; [apply Hsub; left |]. auto.
      + apply IH; auto. intros x Hx. apply Hsub. now right. }
  destruct (collect_selectors pg current_url Simple.pagination_selectors [])
    as [found |] eqn:E.
  - destruct (Hfold Simple.pagination_selectors [] found (reflexivity _) (NoDup_nil_2)
                (not_elem_of_nil _) (Forall_nil_2 _) E) as (Hnd & Hcur & HQ).
    split; [rewrite length_take; lia |].
    split; [eapply sublist_NoDup; eauto using sublist_take |].
    split; [intros H; apply Hcur; revert H; apply subseteq_take |].
    intros url Hurl. apply subseteq_take in Hurl.
    rewrite Forall_forall in HQ. now apply HQ.
  - split; [simpl; lia |]. split; [constructor |].
    split; [apply not_elem_of_nil |]. intros url H. inversion H.
Qed.

End Pagination.

Section Crawl.
Import Simple.
Context {rt : Runtime}.
Variables (base_url : string) (fetch : string -> option Simple.page).

Local Abbreviation crawl_turn := (Simple.crawl_turn base_url fetch).
Local Abbreviation crawl_from := (Simple.crawl_from base_url fetch).
Local Abbreviation page_jobs :=
  (fun url => match fetch url with
              | Some pg => Simple.parse_jobs_from_html base_url (Simple.page_elements pg)
              | None => []
              end).
(** The queue holds no URL twice and none that was visited; the URLs
    requested are the visited ones, each once, and the records are theirs. *)
Local Abbreviation well_queued st :=
  (NoDup (urls_to_visit st)
   /\ (forall url, url ∈ urls_to_visit st -> url ∉ visited_urls st)
   /\ NoDup (requested st)
   /\ (forall url, url ∈ requested st <-> url ∈ visited_urls st)
   /\ length (requested st) = size (visited_urls st)
   /\ Nat.le (size (visited_urls st)) 10
   /\ all_jobs st = flat_map page_jobs (requested st)).

Lemma enqueue_invariant (visited : gset string) (urls queue : list string) :
  NoDup queue -> (forall url, url ∈ queue -> url ∉ visited) ->
  NoDup (Simple.enqueue visited urls queue)
  /\ forall url, url ∈ Simple.enqueue visited urls queue -> url ∉ visited.
Proof.
  unfold Simple.enqueue. revert queue.
  induction urls as [| u rest IH]; intros queue Hnd Hout; simpl; [auto |].
  destruct (bool_decide_reflect (u ∈ visited)) as [Hv | Hv]; simpl; [now apply IH |].
  destruct (bool_decide_reflect (u ∈ queue)) as [Hq | Hq]; simpl; [now apply IH |].
  apply IH.
  - apply NoDup_app. split; [exact Hnd |]. split; [| apply NoDup_singleton].
    intros x Hx Hx'. apply list_elem_of_singleton in Hx'. now subst.
  - intros url H. apply elem_of_app in H as [H | H]; [now apply Hout |].
    apply list_elem_of_singleton in H. now subst.
Qed.

Lemma crawl_turn_continue (st st' : Simple.crawl) :
  well_queued st -> crawl_turn st = Continue st' ->
  well_queued st'
  /\ size (visited_urls st') = S (size (visited_urls st))
  /\ exists url, requested st' = requested st ++ [url].
Proof.
  intros (Hnd & Hout & Hreq & Hsame & Hlen & Hsize & Hjobs).
  unfold Simple.crawl_turn.
  destruct (urls_to_visit st) as [| current_url queue] eqn:Equeue; [discriminate |].
  destruct (Nat.ltb_spec (size (visited_urls st)) 10) as [Hlt | Hge]; simpl;
    [| discriminate].
  assert (current_url ∉ visited_urls st) as Hcur by (apply Hout; left).
  rewrite bool_decide_eq_false_2 by exact Hcur.
  apply NoDup_cons in Hnd as [Hhead Hnd].
  set (visited := {[current_url]} ∪ visited_urls st).
  assert (size visited = S (size (visited_urls st))) as Hsize'.
  { unfold visited. rewrite size_union by (apply disjoint_singleton_l, Hcur).
    now rewrite size_singleton. }
  assert (forall url, url ∈ queue -> url ∉ visited) as Hout'.
  { intros url Hin Hv. apply elem_of_union in Hv as [Hv | Hv].
    - apply elem_of_singleton in Hv. now subst.
    - revert Hv. apply Hout. now right. }
  assert (NoDup (requested st ++ [current_url])) as Hreq'.
  { apply NoDup_app. split; [exact Hreq |]. split; [| apply NoDup_singleton].
    intros x Hx Hx'. apply list_elem_of_singleton in Hx'. subst.
    now apply Hsame in Hx. }
  assert (forall url, url ∈ requested st ++ [current_url] <-> url ∈ visited) as Hsame'.
  { intros url. unfold visited. rewrite elem_of_app, elem_of_union, elem_of_singleton,
      list_elem_of_singleton, Hsame. tauto. }
  assert (length (requested st ++ [current_url]) = size visited) as Hlen'.
  { rewrite length_app, Hsize'. simpl. lia. }
  assert (forall jobs queue',
            NoDup queue' -> (forall url, url ∈ queue' -> url ∉ visited) ->
            page_jobs current_url = jobs ->
            well_queued (Simple.mkCrawl (all_jobs st ++ jobs) visited queue'
                           (requested st ++ [current_url]))) as Hnext.
  { intros jobs queue' Hq Hq' Ejobs. simpl.
    repeat (split; [assumption || lia || auto |]).
    rewrite flat_map_app, Hjobs. simpl. now rewrite Ejobs, app_nil_r. }
  destruct (fetch current_url) as [pg |] eqn:Efetch.
  - destruct (Simple.parse_jobs_from_html base_url (Simple.page_elements pg))
      as [| job jobs] eqn:Eparse.
    + intros [= <-]. split; [| simpl; eauto].
      rewrite <- (app_nil_r (all_jobs st)).
      apply Hnext; [exact Hnd | exact Hout' | now rewrite Efetch, Eparse].
    + intros [= <-]. split; [| simpl; eauto].
      destruct (enqueue_invariant visited
                  (Simple.find_pagination_urls base_url pg current_url) queue Hnd Hout')
        as [Hnd'' Hout''].
      apply Hnext; [exact Hnd'' | exact Hout'' | now rewrite Efetch, Eparse].
  - intros [= <-]. split; [| simpl; eauto].
    rewrite <- (app_nil_r (all_jobs st)).
    apply Hnext; [exact Hnd | exact Hout' | now rewrite Efetch].
Qed.

Lemma crawl_turn_return (st : Simple.crawl) (jobs : list (JobRecord string)) :
  crawl_turn st = Return jobs -> jobs = all_jobs st.
Proof.
  unfold Simple.crawl_turn. destruct (urls_to_visit st); [now intros [= <-] |].
  destruct (negb _); [now intros [= <-] |].
  destruct (bool_decide _); [discriminate |].
  destruct (fetch _); [| discriminate].
  destruct (Simple.parse_jobs_from_html _ _); discriminate.
Qed.

Lemma crawl_from_halts (fuel : nat) (st : Simple.crawl) :
  well_queued st -> (11 <= size (visited_urls st) + fuel)%nat ->
  exists urls,
    crawl_from fuel st = Some (flat_map page_jobs urls, urls)
    /\ requested st `prefix_of` urls
    /\ (length urls <= 10)%nat
    /\ NoDup urls.
Proof.
  revert st. induction fuel as [| fuel IH]; intros st Hinv Hfuel.
  - destruct Hinv as (_ & _ & _ & _ & _ & Hsize & _). lia.
  - simpl. destruct (crawl_turn st) as [st' | jobs] eqn:Eturn.
    + destruct (crawl_turn_continue st st' Hinv Eturn) as (Hinv' & Hsize & url & Ereq).
      destruct (IH st' Hinv' ltac:(lia)) as (urls & E & Hpre & Hlen & Hnd).
      exists urls. split; [exact E |]. split; [| auto].
      etransitivity; [| exact Hpre]. rewrite Ereq. now apply prefix_app_r.
    + apply crawl_turn_return in Eturn. subst jobs.
      destruct Hinv as (_ & _ & Hreq & _ & Hlen & Hsize & Hjobs).
      exists (requested st). rewrite Hjobs. split; [reflexivity |].
      split; [reflexivity |]. split; [lia | exact Hreq].
Qed.

(** X16: [scrape_jobs] ends within eleven iterations of its loop.  It
    requests at most ten URLs, none of them twice and the base URL first;
    the records it returns are those of the requested pages, one page after
    the other, a page that could not be fetched giving none. *)
Theorem scrape_jobs_crawl (fuel : nat) :
  (11 <= fuel)%nat ->
  exists urls,
    Simple.scrape_jobs base_url fetch fuel = Some (flat_map page_jobs urls, urls)
    /\ head urls = Some base_url
    /\ (length urls <= 10)%nat
    /\ NoDup urls.
Proof.
  intros Hfuel. unfold Simple.scrape_jobs.
  set (start := Simple.mkCrawl [] ∅ [base_url] []).
  assert (well_queued start) as Hstart.
  { unfold start. cbn [urls_to_visit visited_urls requested all_jobs].
    rewrite size_empty.
    split; [apply NoDup_singleton |].
    split; [intros url _; apply not_elem_of_empty |].
    split; [constructor |].
    split; [intros url; rewrite elem_of_nil, elem_of_empty; tauto |].
    split; [reflexivity |]. split; [unfold Nat.le; lia | reflexivity]. }
  destruct fuel as [| fuel]; [lia |]. simpl.
  destruct (crawl_turn start) as [st' | jobs] eqn:Eturn.
  - destruct (crawl_turn_continue start st' Hstart Eturn) as (Hinv' & Hsize & url & Ereq).
    assert (url = base_url) as ->.
    { revert Eturn Ereq. unfold Simple.crawl_turn. simpl.
      destruct (fetch base_url); [destruct (Simple.parse_jobs_from_html _ _) |];
        intros [= <-]; simpl; now intros [= <-]. }
    destruct (crawl_from_halts fuel st' Hinv' ltac:(lia)) as (urls & E & Hpre & Hlen & Hnd).
    exists urls. split; [exact E |]. split; [| auto].
    rewrite Ereq in Hpre. destruct Hpre as [k ->]. reflexivity.
  - revert Eturn. unfold Simple.crawl_turn. simpl.
    destruct (fetch base_url); [destruct (Simple.parse_jobs_from_html _ _) |];
      discriminate.
Qed.

End Crawl.

(** X16 on a site of two pages that link to each other: both are requested,
    once each, and their two postings returned. *)
Lemma scrape_jobs_crawl_witness :
  exists urls,
    Simple.scrape_jobs (rt:=Sample.runtime) Sample.base_url Sample.site 11
    = Some (flat_map
              (fun url =>
                 match Sample.site url with
                 | Some pg => Simple.parse_jobs_from_html (rt:=Sample.runtime)
                                Sample.base_url (Simple.page_elements pg)
                 | None => []
                 end) urls, urls)
    /\ head urls = Some Sample.base_url
    /\ (length urls <= 10)%nat
    /\ NoDup urls
    /\ urls = [Sample.base_url; "https://pultegroup.wd1.myworkdayjobs.com/PGI?page=2"].
Proof.
  destruct (scrape_jobs_crawl (rt:=Sample.runtime) Sample.base_url Sample.site 11
              ltac:(lia)) as (urls & E & Hhead & Hlen & Hnd).
  exists urls. split; [exact E |]. split; [exact Hhead |]. split; [exact Hlen |].
  split; [exact Hnd |].
  assert (snd <$> Simple.scrape_jobs (rt:=Sample.runtime) Sample.base_url Sample.site 11
          = Some [Sample.base_url; "https://pultegroup.wd1.myworkdayjobs.com/PGI?page=2"])
    as Hrun by (vm_compute; reflexivity).
  rewrite E in Hrun. now injection Hrun.
Defined.

(** ** Markup scraper: what a page yields *)

Section PageRecords.
Import Simple.
Context {rt : Runtime}.
Variable base_url : string.
Implicit Types (seen : gset (string * string)) (jobs : list (JobRecord string)).

Lemma extracted_titled (e : Simple.element) (r : JobRecord string) :
  Simple.extract_job_from_element base_url e = Some r ->
  PyStr.nonempty (title r) = true
  /\ (3 < PyStr.len (PyStr.strip (title r)))%nat
  /\ (PyStr.len (title r) <= 200)%nat
  /\ company r = "PulteGroup".
Proof.
  unfold Simple.extract_job_from_element.
  destruct (Simple.element_url base_url e) as [u |]; cbn [mbind option_bind];
    [| discriminate].
  destruct (PyStr.nonempty (PyStr.slice_to 200 (Simple.title_text e))) eqn:Ene;
    simpl; [| discriminate].
  destruct (Nat.ltb_spec 3
              (PyStr.len (PyStr.strip (PyStr.slice_to 200 (Simple.title_text e)))));
    [| discriminate].
  intros [= <-]. simpl. split; [exact Ene |]. split; [assumption |].
  split; [apply len_slice_to | reflexivity].
Qed.

Lemma unique_from_covers seen jobs (job : JobRecord string) :
  job ∈ jobs -> Simple.key job ∉ seen ->
  exists kept, kept ∈ Simple.unique_from seen jobs /\ Simple.key kept = Simple.key job.
Proof.
  revert seen. induction jobs as [| j rest IH]; intros seen Hin Hout; [inversion Hin |].
  simpl. destruct (decide (Simple.key j ∈ seen)) as [Hs | Hs].
  - apply elem_of_cons in Hin as [-> | Hin]; [contradiction | now apply IH].
  - destruct (decide (Simple.key j = Simple.key job)) as [E | E].
    + exists j. split; [left | exact E].
    + apply elem_of_cons in Hin as [-> | Hin]; [contradiction |].
      destruct (IH ({[Simple.key j]} ∪ seen) Hin) as (kept & Hk & Ek).
      * apply fresh_after; [exact Hout | exact E].
      * exists kept. split; [now right | exact Ek].
Qed.

Lemma unique_from_fixed seen jobs :
  NoDup (Simple.key <$> jobs) -> (forall job, job ∈ jobs -> Simple.key job ∉ seen) ->
  Simple.unique_from seen jobs = jobs.
Proof.
  revert seen. induction jobs as [| j rest IH]; intros seen Hnd Hout; [reflexivity |].
  simpl. simpl in Hnd. apply NoDup_cons in Hnd as [Hj Hnd].
  destruct (decide (Simple.key j ∈ seen)) as [Hs | Hs].
  - exfalso. revert Hs. apply Hout. left.
  - f_equal. apply IH; [exact Hnd |].
    intros job Hin. apply fresh_after; [apply Hout; now right |].
    intros E. apply Hj. rewrite E. apply list_elem_of_fmap. now exists job.
Qed.

(** X17: every record [parse_jobs_from_html] returns is the one extracted
    from an element of the page; its title is not empty, at most 200
    characters long and longer than 3 once trimmed, and its company is
    PulteGroup.  No two records returned share a [(title, url)] pair, and
    the pair of every record extracted from the page is among them: only
    repetitions are lost. *)
Theorem parse_jobs_from_html_records (all_elements : list Simple.element) :
  let jobs := Simple.parse_jobs_from_html base_url all_elements in
  (forall r, r ∈ jobs ->
     (exists e, e ∈ all_elements /\ Simple.extract_job_from_element base_url e = Some r)
     /\ title r <> ""
     /\ (PyStr.len (title r) <= 200)%nat
     /\ (3 < PyStr.len (PyStr.strip (title r)))%nat
     /\ company r = "PulteGroup")
  /\ NoDup (Simple.key <$> jobs)
  /\ (forall e r, e ∈ all_elements ->
        Simple.extract_job_from_element base_url e = Some r ->
        Simple.key r ∈ Simple.key <$> jobs).
Proof.
  cbv zeta. unfold Simple.parse_jobs_from_html, Simple.unique_jobs.
  set (gate := fun e => match Simple.extract_job_from_element base_url e with
                        | Some job_data =>
                            if PyStr.nonempty (title job_data) then Some job_data else None
                        | None => None
                        end).
  assert (forall e r, gate e = Some r <-> Simple.extract_job_from_element base_url e = Some r)
    as Hgate.
  { intros e r. unfold gate.
    destruct (Simple.extract_job_from_element base_url e) as [job |] eqn:E; [| tauto].
    apply extracted_titled in E as [-> _]. tauto. }
  split; [| split].
  - intros r Hr.
    pose proof (elem_of_sublist _ _ _ Hr (unique_from_sublist _ _)) as Hin.
    apply list_elem_of_omap in Hin as (e & He & Hin). apply Hgate in Hin.
    split; [now exists e |].
    destruct (extracted_titled e r Hin) as (Hne & Hlong & Hcut & Hco).
    split; [now apply nonempty_true |]. auto.
  - apply unique_from_NoDup.
  - intros e r He Hr.
    destruct (unique_from_covers ∅ (omap gate all_elements) r) as (kept & Hk & Ek).
    + apply list_elem_of_omap. exists e. split; [exact He | now apply Hgate].
    + apply not_elem_of_empty.
    + rewrite <- Ek. apply list_elem_of_fmap. now exists kept.
Qed.

(** X18: the loop that removes repetitions leaves a list as it is exactly
    when no two of its records share a [(title, url)] pair; so running it on
    its own result changes nothing. *)
Theorem unique_jobs_fixed_points jobs :
  (Simple.unique_jobs jobs = jobs <-> NoDup (Simple.key <$> jobs))
  /\ Simple.unique_jobs (Simple.unique_jobs jobs) = Simple.unique_jobs jobs.
Proof.
  assert (forall l, NoDup (Simple.key <$> l) -> Simple.unique_jobs l = l) as Hfix.
  { intros l Hnd. apply unique_from_fixed; [exact Hnd |].
    intros job _. apply not_elem_of_empty. }
  split; [split |].
  - intros E. rewrite <- E. apply unique_from_NoDup.
  - apply Hfix.
  - apply Hfix, unique_from_NoDup.
Qed.

End PageRecords.

(** ** Markup scraper: the URL and the identifier of a record *)

Section UrlAndId.
Import Simple.
Context {rt : Runtime}.
Variable base_url : string.

Lemma split_l_parts (c : ascii) (l w : list ascii) : w ∈ PyStr.split_l c l -> c ∉ w.
Proof.
  revert w. induction l as [| x l IH]; intros w; simpl.
  - intros H. apply list_elem_of_singleton in H as ->. apply not_elem_of_nil.
  - destruct (Ascii.eqb_spec x c) as [-> | Hne].
    + intros H. apply elem_of_cons in H as [-> | H]; [apply not_elem_of_nil | now apply IH].
    + destruct (PyStr.split_l c l) as [| w' ws] eqn:E.
      * intros H. apply list_elem_of_singleton in H as ->.
        apply not_elem_of_cons. split; [congruence | apply not_elem_of_nil].
      * intros H. apply elem_of_cons in H as [-> | H].
        -- apply not_elem_of_cons. split; [congruence |]. apply IH. left.
        -- apply IH. now right.
Qed.

Lemma find_last {A : Type} (p : A -> bool) (l : list A) (x : A) :
  find p (reverse l) = Some x ->
  exists before after,
    l = before ++ x :: after /\ p x = true /\ Forall (fun y => p y = false) after.
Proof.
  induction l as [| y l IH] using rev_ind; [discriminate |].
  rewrite reverse_snoc. simpl. destruct (p y) eqn:E.
  - intros [= ->]. exists l, []. auto.
  - intros H. destruct (IH H) as (before & after & -> & Hx & Hafter).
    exists before, (after ++ [y]). rewrite <- app_assoc. split; [reflexivity |].
    split; [exact Hx |]. apply Forall_app. auto.
Qed.

Lemma find_reverse_none {A : Type} (p : A -> bool) (l : list A) :
  find p (reverse l) = None -> Forall (fun y => p y = false) l.
Proof.
  intros H. apply Forall_forall. intros y Hy.
  apply (List.find_none _ _ H). apply list_elem_of_In. now apply elem_of_reverse.
Qed.

Local Abbreviation short_or_scheme :=
  (fun part => (PyStr.len part <= 3)%nat \/ PyStr.startswith "http" part = true).

Lemma not_identifier (part : string) :
  PyStr.nonempty part && negb (PyStr.startswith "http" part)
  && (3 <? PyStr.len part)%nat = false ->
  short_or_scheme part.
Proof.
  cbv beta. destruct (PyStr.startswith "http" part); [now right |].
  destruct (Nat.ltb_spec 3 (PyStr.len part)) as [H | H]; [| now left].
  destruct part; [vm_compute in H; lia | discriminate].
Qed.

(** X19: the URL of an extracted record is empty or made of an [href] of
    the element that starts with a slash (joined to the base URL) or with
    [http] (kept).  Its identifier is the last part of the URL between
    slashes that is longer than 3 characters and does not start with
    [http]; when the URL has no such part, it is the first non-empty one of
    the attributes data-job-id, id and data-automation-id, or empty. *)
Theorem extract_job_url_and_id (e : Simple.element) (r : JobRecord string) :
  Simple.extract_job_from_element base_url e = Some r ->
  (url r = ""
   \/ exists href,
        (Simple.get_attr e "href" = Some href \/ Simple.find_link e = Some href)
        /\ (PyStr.startswith "/" href = true /\ urljoin base_url href = Some (url r)
            \/ PyStr.startswith "http" href = true /\ url r = href))
  /\ ((exists before after,
         PyStr.split "/" (url r) = before ++ job_id r :: after
         /\ (3 < PyStr.len (job_id r))%nat
         /\ PyStr.startswith "http" (job_id r) = false
         /\ ("/"%char ∉ PyStr.chars (job_id r))
         /\ Forall short_or_scheme after)
      \/ (Forall short_or_scheme (PyStr.split "/" (url r))
          /\ job_id r
             = Simple.first_attr e ["data-job-id"; "id"; "data-automation-id"])).
Proof.
  unfold Simple.extract_job_from_element.
  destruct (Simple.element_url base_url e) as [u |] eqn:Eurl; cbn [mbind option_bind];
    [| discriminate].
  destruct (_ && _); [| discriminate]. intros [= <-]. simpl. split.
  - assert (forall href, Simple.absolute base_url href = Some u ->
              u = ""
              \/ (PyStr.startswith "/" href = true /\ urljoin base_url href = Some u
                  \/ PyStr.startswith "http" href = true /\ u = href)) as Habs.
    { intros href. unfold Simple.absolute.
      destruct (PyStr.startswith "/" href); [intros E; right; left; auto |].
      destruct (PyStr.startswith "http" href); intros [= <-];
        [right; right; auto | now left]. }
    assert (match Simple.find_link e with
            | Some href => Simple.absolute base_url href
            | None => Some ""
            end = Some u ->
            u = ""
            \/ exists href,
                 (Simple.get_attr e "href" = Some href \/ Simple.find_link e = Some href)
                 /\ (PyStr.startswith "/" href = true /\ urljoin base_url href = Some u
                     \/ PyStr.startswith "http" href = true /\ u = href)) as Hchild.
    { destruct (Simple.find_link e) as [href |]; [| intros [= <-]; now left].
      intros E. destruct (Habs href E) as [-> | H]; [now left |].
      right. exists href. auto. }
    revert Eurl. unfold Simple.element_url.
    destruct (String.eqb (Simple.name e) "a"); [| exact Hchild].
    destruct (Simple.get_attr e "href") as [href |]; [| exact Hchild].
    destruct (PyStr.nonempty href); [| exact Hchild].
    intros E. destruct (Habs href E) as [-> | H]; [now left |].
    right. exists href. auto.
  - set (p := fun part => PyStr.nonempty part && negb (PyStr.startswith "http" part)
                          && (3 <? PyStr.len part)%nat).
    assert (Forall short_or_scheme (PyStr.split "/" "")) as Hempty
      by (repeat constructor; simpl; lia).
    destruct (PyStr.nonempty u) eqn:Eu.
    + unfold Simple.id_from_url. fold p.
      destruct (find p (reverse (PyStr.split "/" u))) as [part |] eqn:Efind; simpl.
      * destruct (find_last p _ _ Efind) as (before & after & Esplit & Hp & Hafter).
        unfold p in Hp. apply andb_prop in Hp as [Hp Hlong].
        apply andb_prop in Hp as [Hne Hhttp]. rewrite Hne. simpl. left.
        exists before, after. split; [exact Esplit |].
        split; [now apply Nat.ltb_lt |].
        split; [now apply negb_true_iff |]. split.
        -- assert (part ∈ PyStr.split "/" u) as Hin
             by (rewrite Esplit; apply elem_of_app; right; left).
           unfold PyStr.split in Hin. apply list_elem_of_fmap in Hin as (w & -> & Hw).
           rewrite chars_of_chars. now apply split_l_parts in Hw.
        -- eapply Forall_impl; [exact Hafter |]. intros part'. apply not_identifier.
      * right. split; [| reflexivity].
        apply find_reverse_none in Efind. eapply Forall_impl; [exact Efind |].
        intros part'. apply not_identifier.
    + simpl. right. apply nonempty_false in Eu. rewrite Eu. auto.
Qed.

End UrlAndId.

(** X19 on a link to a posting: the URL is the target joined to the base,
    the identifier the last part of it. *)
Lemma extract_job_url_and_id_witness :
  let e := Sample.link "Site Engineer" "/PGI/job/JR4032" in
  let r := mkJob "JR4032" "Site Engineer" "" ""
             "https://pultegroup.wd1.myworkdayjobs.com/PGI/job/JR4032" "PulteGroup"
             "2024-05-01T12:00:00" in
  Simple.extract_job_from_element (rt:=Sample.runtime) Sample.base_url e = Some r
  /\ (url r = ""
      \/ exists href,
           (Simple.get_attr e "href" = Some href \/ Simple.find_link e = Some href)
           /\ (PyStr.startswith "/" href = true
               /\ urljoin (Runtime:=Sample.runtime) Sample.base_url href = Some (url r)
               \/ PyStr.startswith "http" href = true /\ url r = href))
  /\ ((exists before after,
         PyStr.split "/" (url r) = before ++ job_id r :: after
         /\ (3 < PyStr.len (job_id r))%nat
         /\ PyStr.startswith "http" (job_id r) = false
         /\ ("/"%char ∉ PyStr.chars (job_id r))
         /\ Forall (fun part => (PyStr.len part <= 3)%nat
                                \/ PyStr.startswith "http" part = true) after)
      \/ (Forall (fun part => (PyStr.len part <= 3)%nat
                              \/ PyStr.startswith "http" part = true)
                 (PyStr.split "/" (url r))
          /\ job_id r
             = Simple.first_attr e ["data-job-id"; "id"; "data-automation-id"])).
Proof.
  split; [reflexivity |].
  apply (extract_job_url_and_id (rt:=Sample.runtime) Sample.base_url). reflexivity.
Defined.

(** ** Persistence: strings that cleaning leaves alone *)

Section CleanFixed.
Import PyStr.

Lemma replace_l_absent (c : ascii) (r l : list ascii) : c ∉ l -> replace_l c r l = l.
Proof.
  induction l as [| x l IH]; intros H; simpl; [reflexivity |].
  apply not_elem_of_cons in H as [Hne Hl].
  destruct (Ascii.eqb_spec x c) as [-> | _]; [congruence |].
  simpl. now rewrite IH.
Qed.

Lemma clean_fixed (s : string) : Spec.persisted s -> Enhanced.clean s = s.
Proof.
  intros (Hlf & Hcr & Hstrip). unfold Enhanced.clean, replace.
  rewrite Hstrip, (replace_l_absent LF) by exact Hlf.
  rewrite of_chars_chars, (replace_l_absent CR) by exact Hcr.
  apply of_chars_chars.
Qed.

(** X20: the cleaning of [save_to_csv] leaves a string as it is exactly
    when the string holds no newline, no carriage return and no white space
    at its ends; so a cleaned string, and a row of cleaned strings, is not
    changed by cleaning it again.  The markup scraper cleans alike. *)
Theorem clean_fixed_points (s : string) (job : JobRecord json) (row : JobRecord string) :
  (Enhanced.clean s = s
   <-> (LF ∉ chars s) /\ (CR ∉ chars s) /\ strip s = s)
  /\ Enhanced.clean (Enhanced.clean s) = Enhanced.clean s
  /\ Enhanced.csv_row (Enhanced.csv_row job) = Enhanced.csv_row job
  /\ Simple.clean (Simple.clean s) = Simple.clean s
  /\ Simple.csv_row (Simple.csv_row row) = Simple.csv_row row.
Proof.
  assert (forall t, Enhanced.clean (Enhanced.clean t) = Enhanced.clean t) as Hidem
    by (intros t; apply clean_fixed, clean_persisted).
  assert (forall v, Enhanced.clean_value (Enhanced.clean_value v) = Enhanced.clean_value v)
    as Hvalue by (intros [| | | | t | |]; simpl; try reflexivity; now rewrite Hidem).
  split; [split |].
  - intros E. rewrite <- E. apply clean_persisted.
  - apply clean_fixed.
  - split; [apply Hidem |]. split.
    + destruct job as [a b c d e f g]. unfold Enhanced.csv_row.
      cbn [job_id title location posting_date url company scraped_at].
      f_equal; exact (Hvalue _).
    + split; [apply Hidem |].
      destruct row as [a b c d e f g]. unfold Simple.csv_row.
      cbn [job_id title location posting_date url company scraped_at].
      f_equal; exact (Hidem _).
Qed.

End CleanFixed.

(** ** Enhanced scraper: what the paging loop returns *)

Section EnhancedResult.
Import Transport.
Context {rt : Runtime}.
Variables (base_url : string) (max_retries : Z).
Variable wire : string -> Enhanced.params -> nat -> attempt.
Variables (endpoint : string) (records : list json).
Hypothesis served : Enhanced.serves max_retries wire endpoint records.

Local Abbreviation normalize := (Enhanced.process_job_data base_url).
Local Abbreviation page_turn := (Enhanced.page_turn base_url max_retries wire endpoint).
Local Abbreviation paginate_from :=
  (Enhanced.paginate_from base_url max_retries wire endpoint).
Local Abbreviation slice offset := (take (Z.to_nat 20) (drop (Z.to_nat offset) records)).

(** What an iteration does on a served page. *)
Lemma enhanced_turn_cases (c : Enhanced.cursor) :
  Enhanced.on_track c ->
  page_turn c = Return (Enhanced.all_jobs c)
  \/ page_turn c
     = Return (Enhanced.all_jobs c ++ omap normalize (slice (Enhanced.offset c)))
  \/ (page_turn c
      = Continue (Enhanced.mkCursor
                    (Enhanced.all_jobs c ++ omap normalize (slice (Enhanced.offset c)))
                    (Enhanced.offset c + 20) (Enhanced.page c + 1))
      /\ length (slice (Enhanced.offset c)) = 20%nat).
Proof.
  intros Htrack. unfold Enhanced.page_turn.
  destruct (Enhanced.first_jobs _ _ _ _ _) as [jobs |] eqn:E; [| now left].
  apply first_jobs_source in E as (p & data & Hp & Hdata & ->).
  unfold Enhanced.extract_jobs_from_response.
  rewrite (served c p data Htrack Hp Hdata). unfold Enhanced.limit.
  pose proof (length_omap_le normalize (slice (Enhanced.offset c))) as Hjobs.
  assert (length (slice (Enhanced.offset c)) <= 20)%nat as Hpage
    by (rewrite length_take; lia).
  destruct (Z.ltb_spec (Z.of_nat (length (omap normalize (slice (Enhanced.offset c))))) 20);
    [right; now left |].
  right. right. split; [reflexivity | lia].
Qed.

Lemma enhanced_paginate_from_prefix (fuel : nat) :
  forall c jobs n,
    Enhanced.on_track c ->
    paginate_from fuel c = Some (jobs, n) ->
    exists m, jobs = Enhanced.all_jobs c
                     ++ omap normalize
                          (take m (drop (Z.to_nat (Enhanced.offset c)) records)).
Proof.
  induction fuel as [| fuel IH]; intros c jobs n Htrack; [discriminate |].
  cbn [Enhanced.paginate_from].
  destruct (enhanced_turn_cases c Htrack) as [-> | [-> | [-> Hfull]]].
  - intros [= <- _]. exists 0%nat. now rewrite take_0, app_nil_r.
  - intros [= <- _]. exists 20%nat. reflexivity.
  - destruct (paginate_from fuel _) as [[jobs' n'] |] eqn:E; cbn [mbind option_bind];
      [| discriminate].
    intros [= <- _]. destruct Htrack as [Hoff Hpage].
    apply IH in E as [m ->].
    + exists (20 + m)%nat. cbn [Enhanced.all_jobs Enhanced.offset].
      rewrite (slice_full_next records) by assumption.
      now rewrite omap_app, app_assoc.
    + unfold Enhanced.on_track, Enhanced.limit in *.
      cbn [Enhanced.offset Enhanced.page]. lia.
Qed.

(** X21: against an upstream that serves its records by page, what
    [paginate_api_endpoint] returns is the normalization of a prefix of the
    upstream's records, in their order: whichever parameter shape is
    answered, no record is repeated or reordered, and only what the
    normalizer drops is skipped. *)
Theorem paginate_api_endpoint_prefix (fuel : nat) (jobs : list (JobRecord json))
    (n : nat) :
  Enhanced.paginate_api_endpoint base_url max_retries wire endpoint fuel
    = Some (jobs, n) ->
  exists m, jobs = omap normalize (take m records).
Proof.
  intros E. apply enhanced_paginate_from_prefix in E as [m ->].
  - exists m. now rewrite drop_0.
  - unfold Enhanced.on_track, Enhanced.limit. simpl. lia.
Qed.

End EnhancedResult.

(** X21 on an upstream that holds 21 records: the 21 are returned, in two
    pages and an empty third. *)
Lemma paginate_api_endpoint_prefix_witness :
  exists m jobs n,
    Enhanced.paginate_api_endpoint (rt:=Sample.runtime) Sample.base_url 3
      (Sample.enhanced_wire (replicate 21 Sample.site_engineer)) Sample.api_url 3
    = Some (jobs, n)
    /\ jobs = omap (Enhanced.process_job_data (rt:=Sample.runtime) Sample.base_url)
                (take m (replicate 21 Sample.site_engineer))
    /\ length jobs = 21%nat.
Proof.
  assert (exists jobs n,
            Enhanced.paginate_api_endpoint (rt:=Sample.runtime) Sample.base_url 3
              (Sample.enhanced_wire (replicate 21 Sample.site_engineer)) Sample.api_url 3
            = Some (jobs, n) /\ length jobs = 21%nat)
    as (jobs & n & E & Hlen) by (do 2 eexists; split; vm_compute; reflexivity).
  destruct (paginate_api_endpoint_prefix (rt:=Sample.runtime) Sample.base_url 3 _ _ _
              (enhanced_wire_serves _) _ _ _ E) as [m Hm].
  exists m, jobs, n. split; [exact E |]. split; [exact Hm | exact Hlen].
Defined.

(** ** Enhanced scraper: records read from the browser *)

Section Browser.
Context {rt : Runtime}.

Lemma set_nonempty_spec (value : option string) :
  Enhanced.set_nonempty value = true <-> exists s, value = Some s /\ s <> "".
Proof.
  destruct value as [s |]; simpl.
  - rewrite nonempty_true. split; [eauto |]. now intros (? & [= <-] & ?).
  - split; [discriminate | now intros (? & ? & _)].
Qed.

Lemma first_found_trimmed (e : Enhanced.web_element) (selectors : list string) (s : string) :
  Enhanced.first_found e selectors = Some s -> PyStr.strip s = s.
Proof.
  induction selectors as [| selector rest IH]; simpl; [discriminate |].
  destruct (Enhanced.find_css e selector); [| exact IH].
  intros [= <-]. apply strip_idempotent.
Qed.

Lemma first_attribute_nonempty (e : Enhanced.web_element) (attrs : list string) (s : string) :
  Enhanced.first_attribute e attrs = Some s -> s <> "".
Proof.
  induction attrs as [| attr rest IH]; simpl; [discriminate |].
  destruct (Enhanced.get_attribute e attr) as [value |]; [| exact IH].
  destruct (PyStr.nonempty value) eqn:E; [| exact IH].
  intros [= <-]. now apply nonempty_true.
Qed.

(** X22: [extract_job_data_selenium] returns a record exactly when it found
    a title: the trimmed text of the first title selector that matches, or,
    when that is missing or blank, the trimmed text of the first link.  In
    a record the title is set, trimmed and not empty; the URL and the
    identifier, when set, are not empty; the company is PulteGroup. *)
Theorem extract_job_data_selenium_gate (e : Enhanced.web_element) :
  let selected := Enhanced.first_found e Enhanced.selenium_title_selectors in
  let linked := (fun a => PyStr.strip a.1) <$> Enhanced.find_anchor e in
  (Enhanced.extract_job_data_selenium e = None
   <-> (selected = None \/ selected = Some "") /\ (linked = None \/ linked = Some ""))
  /\ forall r, Enhanced.extract_job_data_selenium e = Some r ->
       (exists t, title r = Some t /\ t <> "" /\ PyStr.strip t = t
                  /\ (selected = Some t
                      \/ (selected = None \/ selected = Some "") /\ linked = Some t))
       /\ url r <> Some "" /\ job_id r <> Some ""
       /\ company r = Some "PulteGroup".
Proof.
  cbv zeta. unfold Enhanced.extract_job_data_selenium.
  set (selected := Enhanced.first_found e Enhanced.selenium_title_selectors).
  pose proof (first_found_trimmed e Enhanced.selenium_title_selectors) as Htrim.
  fold selected in Htrim.
  set (found_url := match Enhanced.find_anchor e with
              | Some (_, Some href) => if PyStr.nonempty href then Some href else None
              | _ => None
              end).
  assert (found_url <> Some "") as Hurl.
  { unfold found_url. destruct (Enhanced.find_anchor e) as [[text [href |]] |]; try discriminate.
    destruct (PyStr.nonempty href) eqn:E; [| discriminate].
    apply nonempty_true in E. congruence. }
  set (from_url := match found_url with
                   | Some url =>
                       find (fun part => PyStr.nonempty part
                                         && negb (PyStr.startswith "http" part))
                            (reverse (PyStr.split "/" url))
                   | None => None
                   end).
  set (found_id := if negb (Enhanced.set_nonempty from_url)
                 then match Enhanced.first_attribute e
                              ["data-job-id"; "id"; "data-automation-id"] with
                      | Some value => Some value
                      | None => from_url
                      end
                 else from_url).
  assert (from_url <> Some "") as Hfrom.
  { unfold from_url. destruct found_url as [u |]; [| discriminate].
    destruct (find _ _) as [part |] eqn:E; [| discriminate].
    apply find_some in E as [_ E]. destruct part; [discriminate E | discriminate]. }
  assert (found_id <> Some "") as Hid.
  { unfold found_id. destruct (negb _); [| exact Hfrom].
    destruct (Enhanced.first_attribute e _) as [value |] eqn:E; [| exact Hfrom].
    apply first_attribute_nonempty in E. congruence. }
  clearbody found_id found_url.
  destruct (Enhanced.set_nonempty selected) eqn:Esel; cbn [negb].
  - rewrite Esel. apply set_nonempty_spec in Esel as (t & Et & Hne). split.
    + split; [discriminate |]. rewrite Et. intros [[H | H] _]; congruence.
    + intros r [= <-]. cbn [title url job_id company].
      split; [| auto]. exists t. rewrite Et. auto.
  - assert (selected = None \/ selected = Some "") as Hsel.
    { destruct selected as [[| c s] |]; [now right | discriminate | now left]. }
    destruct (Enhanced.find_anchor e) as [[text href] |]; cbn [fmap option_fmap option_map fst].
    + destruct (PyStr.nonempty (PyStr.strip text)) eqn:Etext.
      * cbn [Enhanced.set_nonempty]. rewrite Etext. apply nonempty_true in Etext. split.
        -- split; [discriminate |]. intros [_ [H | H]]; congruence.
        -- intros r [= <-]. cbn [title url job_id company].
           split; [| auto]. exists (PyStr.strip text).
           split; [reflexivity |]. split; [exact Etext |].
           split; [apply strip_idempotent | now right].
      * rewrite Esel. apply nonempty_false in Etext. rewrite Etext. split.
        -- split; [auto | reflexivity].
        -- discriminate.
    + rewrite Esel. split; [| discriminate]. split; [auto | reflexivity].
Qed.

End Browser.
